(** * goals-v1: a shallow embedding of the goal-tracking client

    The development follows the TypeScript sources:
    - [lib/openai]            : [processConversation], [generateSuggestion],
                                [getAIResponse]
    - [FreeformAIChat]        : [handleSendMessage], [handleImportTranscript],
                                [handleSaveGoal], [handleClose],
                                [isGoalComplete]
    - [AIGoalCreation]        : [handleSendMessage] (the guided questionnaire),
                                [handleGetSuggestions]
    - [GoalDetails]           : [fetchGoal], [updateGoalStatus],
                                [toggleMilestone], [updateMetric],
                                [addReflection], [getProgressPercentage],
                                [getDaysRemaining]
    - [GoalsList]             : [handleDeleteGoal], [handleEditGoal],
                                [handleToggleMilestone], [getProgressPercentage]
    - [GoalCreationForm]      : the initial state, the list editors,
                                [handleSubmit]
    - [NotificationBell]      : [checkNotifications], the unread count
    - [DomainOverview]        : [fetchData], the statistics of the cards

    Conventions.
    - A JavaScript string is a [string] whose characters are the code units
      of the source string; the model covers strings whose code units are
      all below 256 (Latin-1).
    - A JavaScript Number is an IEEE 754 binary64 value, [spec_float] with
      precision 53 and maximal exponent 1024.
    - A [Date] is its time value: milliseconds since the epoch, or invalid.
    - React state is passed explicitly; [await]ed calls to the outside world
      (the completion endpoint, the document store) take their outcome as an
      argument. *)

From Stdlib Require Import ZArith List String Ascii Bool Lia Permutation.
From Stdlib Require Import Sorted.
From Stdlib Require Import Floats.SpecFloat.
From Stdlib Require Import Reals Lra.
From stdpp Require Import gmap strings list.

Local Open Scope Z_scope.

(** ** The JavaScript values the program handles *)

Module JS.

(** *** Strings *)

Definition charCode (c : ascii) : N := N_of_ascii c.

(** [WhiteSpace] and [LineTerminator] code points below 256: TAB, LF, VT,
    FF, CR, SP and NBSP.  These are what [String.prototype.trim] strips. *)
Definition isWhiteSpace (c : ascii) : bool :=
  let n := charCode c in
  (N.eqb n 9 || N.eqb n 10 || N.eqb n 11 || N.eqb n 12 || N.eqb n 13
   || N.eqb n 32 || N.eqb n 160)%bool.

Fixpoint trimStart (s : string) : string :=
  match s with
  | EmptyString => EmptyString
  | String c s' => if isWhiteSpace c then trimStart s' else s
  end.

Fixpoint trimEnd (s : string) : string :=
  match s with
  | EmptyString => EmptyString
  | String c s' =>
      match trimEnd s' with
      | EmptyString => if isWhiteSpace c then EmptyString else String c EmptyString
      | r => String c r
      end
  end.

Definition trim (s : string) : string := trimEnd (trimStart s).

(** [String.prototype.toLowerCase] on code units below 256: the letters
    A-Z, and U+00C0..U+00DE except the multiplication sign U+00D7, move up
    by 32; every other code unit maps to itself. *)
Definition lowerChar (c : ascii) : ascii :=
  let n := charCode c in
  if ((N.leb 65 n && N.leb n 90)
      || (N.leb 192 n && N.leb n 222 && negb (N.eqb n 215)))%bool
  then ascii_of_N (n + 32) else c.

Fixpoint toLowerCase (s : string) : string :=
  match s with
  | EmptyString => EmptyString
  | String c s' => String (lowerChar c) (toLowerCase s')
  end.

(** [s.split(sep)] for a one-character separator.  The result is never
    empty: [''.split(',')] is [['']]. *)
Fixpoint split (sep : ascii) (s : string) : list string :=
  match s with
  | EmptyString => [EmptyString]
  | String c s' =>
      if Ascii.eqb c sep then EmptyString :: split sep s'
      else match split sep s' with
           | h :: t => String c h :: t
           | [] => [String c EmptyString]
           end
  end.

(** [s.includes(sub)] *)
Fixpoint includes (sub s : string) : bool :=
  (String.prefix sub s
   || match s with
      | EmptyString => false
      | String _ s' => includes sub s'
      end)%bool.

(** [list.includes(x)] on an array of strings *)
Definition Array_includes (l : list string) (x : string) : bool :=
  existsb (String.eqb x) l.

(** *** Numbers *)

Definition Number := spec_float.
Definition prec := 53.
Definition emax := 1024.

Definition Number_mul : Number -> Number -> Number := SFmul prec emax.
Definition Number_div : Number -> Number -> Number := SFdiv prec emax.

(** The Number nearest to an integer; exact when [|n| < 2^53]. *)
Definition Number_of_Z (n : Z) : Number := binary_normalize prec emax n 0 false.

(** [Math.round]: the integral Number closest to [x], ties towards
    positive infinity, that is [floor (x + 1/2)] computed exactly.
    NaN, the infinities and the zeros are returned as they are; a value in
    [[-1/2, 0)] gives the negative zero. *)
Definition floor_half_up (m e : Z) : Z :=
  if 0 <=? e then m * 2 ^ e
  else (2 * m + 2 ^ (- e)) / 2 ^ (1 - e).

Definition Math_round (x : Number) : Number :=
  match x with
  | S754_finite s m e =>
      let r := floor_half_up (if s then Z.neg m else Z.pos m) e in
      if Z.eqb r 0 then S754_zero s else binary_normalize prec emax r 0 false
  | _ => x
  end.

Definition Number_sub : Number -> Number -> Number := SFsub prec emax.

(** [Math.ceil]: the least integral Number not below [x], computed
    exactly.  NaN, the infinities and the zeros are returned as they are; a
    value in [(-1, 0)] gives the negative zero. *)
Definition ceiling (m e : Z) : Z :=
  if 0 <=? e then m * 2 ^ e
  else - ((- m) / 2 ^ (- e)).

Definition Math_ceil (x : Number) : Number :=
  match x with
  | S754_finite s m e =>
      let r := ceiling (if s then Z.neg m else Z.pos m) e in
      if Z.eqb r 0 then S754_zero s else binary_normalize prec emax r 0 false
  | _ => x
  end.

(** *** Dates *)

Inductive Date := InvalidDate | DateMs (t : Z).

(** [d.getTime()] as a Number *)
Definition getTime (d : Date) : Number :=
  match d with
  | InvalidDate => S754_nan
  | DateMs t => Number_of_Z t
  end.

(** The integer part of a finite Number (truncation towards zero). *)
Definition Number_trunc (x : Number) : option Z :=
  match x with
  | S754_zero _ => Some 0
  | S754_finite s m e =>
      let a := if 0 <=? e then Z.pos m * 2 ^ e else Z.pos m / 2 ^ (- e) in
      Some (if s then - a else a)
  | _ => None
  end.

(** [new Date(x)] for a Number [x]: [TimeClip]. *)
Definition Date_of_Number (x : Number) : Date :=
  match Number_trunc x with
  | Some t => if Z.abs t <=? 8640000000000000 then DateMs t else InvalidDate
  | None => InvalidDate
  end.

(** [a <= b] on two dates: both are converted to Numbers, and a NaN on
    either side makes the comparison false. *)
Definition Date_leb (a b : Date) : bool :=
  match a, b with
  | DateMs x, DateMs y => x <=? y
  | _, _ => false
  end.

(** *** Dynamically typed values

    What [JSON.parse] returns, extended with [undefined] and with [Date]
    objects, which the program stores next to parsed data.  An object is
    its table of own properties; a key is looked up at its first binding. *)
#[warnings="-register-all"]
Inductive value :=
| JUndefined
| JNull
| JBool (b : bool)
| JNum (x : Number)
| JStr (s : string)
| JArr (l : list value)
| JObj (props : list (string * value))
| JDate (d : Date).

(** [ToBoolean] *)
Definition truthy (v : value) : bool :=
  match v with
  | JUndefined | JNull => false
  | JBool b => b
  | JNum (S754_zero _) | JNum S754_nan => false
  | JNum _ => true
  | JStr EmptyString => false
  | JStr _ => true
  | JArr _ | JObj _ | JDate _ => true
  end.

(** [a || b] *)
Definition or (a b : value) : value := if truthy a then a else b.

(** [a && b] *)
Definition and (a b : value) : value := if truthy a then b else a.

Fixpoint lookup_prop (k : string) (props : list (string * value)) : value :=
  match props with
  | [] => JUndefined
  | (k', v) :: rest => if String.eqb k k' then v else lookup_prop k rest
  end.

(** [a === 'lit'] *)
Definition is_string (lit : string) (a : value) : bool :=
  match a with
  | JStr s => String.eqb s lit
  | _ => false
  end.

End JS.

(** ** The platform

    Built-ins whose results the program stores or shows but never inspects:
    the values [crypto.randomUUID] hands out, date parsing, local-calendar
    arithmetic, and number and date formatting. *)

Class Platform := {
  (** the [k]-th identifier returned by [crypto.randomUUID()] *)
  uuid : nat -> string;
  (** [new Date(v)] for a [v] that is neither a Number nor a Date *)
  Date_parse : JS.value -> JS.Date;
  (** [parseInt(s)] *)
  parseInt : string -> JS.Number;
  (** [d = new Date(now); d.setMonth(d.getMonth() + n)] *)
  Date_plusMonths : Z -> JS.Number -> JS.Date;
  (** [d = new Date(now); d.setFullYear(d.getFullYear() + n)] *)
  Date_plusYears : Z -> JS.Number -> JS.Date;
  (** [d.toLocaleDateString()] *)
  toLocaleDateString : JS.Date -> string;
  (** [String(v)] for a [v] that is a Number, an array, an object or a Date *)
  Value_toString : JS.value -> string
}.

(** ** Effects: exceptions and the identifier supply

    A computation reads the number of identifiers drawn so far and either
    completes normally or throws; in both cases the draws it made stay
    made. *)

Module Eff.

Inductive Completion (A : Type) :=
| Normal (a : A)
| Thrown.
Arguments Normal {A} a.
Arguments Thrown {A}.

Definition t (A : Type) : Type := nat -> Completion A * nat.

Definition ret {A} (a : A) : t A := fun n => (Normal a, n).

Definition throw {A} : t A := fun n => (Thrown, n).

Definition bind {A B} (c : t A) (k : A -> t B) : t B :=
  fun n =>
    match c n with
    | (Normal a, n') => k a n'
    | (Thrown, n') => (Thrown, n')
    end.

(** [try { c } catch { h }] *)
Definition try_catch {A} (c : t A) (h : t A) : t A :=
  fun n =>
    match c n with
    | (Normal a, n') => (Normal a, n')
    | (Thrown, n') => h n'
    end.

(** [crypto.randomUUID()] *)
Definition randomUUID `{Platform} : t JS.value :=
  fun n => (Normal (JS.JStr (uuid n)), S n).

(** [l.map(f)], left to right *)
Fixpoint mapM {A B} (f : A -> t B) (l : list A) : t (list B) :=
  match l with
  | [] => ret []
  | x :: l' => bind (f x) (fun y => bind (mapM f l') (fun ys => ret (y :: ys)))
  end.

(** [l.every(f)]: stops at the first element on which [f] is falsy *)
Fixpoint every {A} (f : A -> t bool) (l : list A) : t bool :=
  match l with
  | [] => ret true
  | x :: l' => bind (f x) (fun b => if b then every f l' else ret false)
  end.

End Eff.

Declare Scope eff_scope.
Delimit Scope eff_scope with eff.
Notation "x <- c ;; k" := (Eff.bind c (fun x => k))
  (at level 100, c at next level, right associativity) : eff_scope.

(** ** Goal drafts

    The objects the two creation flows build.  The TypeScript types are
    erased at run time and the fields are filled from model output, so
    every field is a dynamically typed value. *)

Module Draft.

Module Milestone.
Record t := mk {
  id : JS.value;
  title : JS.value;
  description : JS.value;
  targetDate : JS.value;
  completed : JS.value;
  frequency : JS.value
}.
End Milestone.

Module Metric.
Record t := mk {
  id : JS.value;
  name : JS.value;
  type : JS.value;
  target : JS.value;
  current : JS.value;
  unit : JS.value;
  frequency : JS.value;
  history : JS.value
}.
End Metric.

Module Routine.
Record t := mk {
  id : JS.value;
  name : JS.value;
  description : JS.value;
  frequency : JS.value;
  steps : JS.value;
  lastCompleted : JS.value;
  nextDue : JS.value
}.
End Routine.

(** [Partial<Goal>].  A scalar field that is not set is [JUndefined]; a
    structured collection that is not set is [None]. *)
Module Goal.
Record t := mk {
  title : JS.value;
  description : JS.value;
  domain : JS.value;
  targetDate : JS.value;
  status : JS.value;
  milestones : option (list Milestone.t);
  metrics : option (list Metric.t);
  weeklyActions : JS.value;
  dailyHabits : JS.value;
  routines : option (list Routine.t);
  resources : JS.value;
  obstacles : JS.value;
  successCriteria : JS.value;
  reflections : JS.value
}.
End Goal.

(** The initial [goalData] of both flows. *)
Definition initial : Goal.t :=
  {| Goal.title := JS.JUndefined;
     Goal.description := JS.JUndefined;
     Goal.domain := JS.JUndefined;
     Goal.targetDate := JS.JUndefined;
     Goal.status := JS.JStr "active";
     Goal.milestones := Some [];
     Goal.metrics := Some [];
     Goal.weeklyActions := JS.JArr [];
     Goal.dailyHabits := JS.JArr [];
     Goal.routines := Some [];
     Goal.resources := JS.JArr [];
     Goal.obstacles := JS.JArr [];
     Goal.successCriteria := JS.JArr [];
     Goal.reflections := JS.JArr [] |}.

(** The eight collection fields of a draft. *)
Definition collections (g : Goal.t) :=
  (Goal.milestones g, Goal.metrics g, Goal.weeklyActions g, Goal.dailyHabits g,
   Goal.routines g, Goal.resources g, Goal.obstacles g, Goal.successCriteria g).

(** [a || b] on a structured collection: an array, even an empty one, is
    truthy. *)
Definition or_list {A} (a b : option (list A)) : option (list A) :=
  match a with
  | Some l => Some l
  | None => b
  end.

(** [(a || [])] *)
Definition or_nil {A} (a : option (list A)) : list A :=
  match a with
  | Some l => l
  | None => []
  end.

(** [{ ...prev, field: x }] *)
Definition set_title (x : JS.value) (prev : Goal.t) : Goal.t :=
  {| Goal.title := x;
     Goal.description := Goal.description prev;
     Goal.domain := Goal.domain prev;
     Goal.targetDate := Goal.targetDate prev;
     Goal.status := Goal.status prev;
     Goal.milestones := Goal.milestones prev;
     Goal.metrics := Goal.metrics prev;
     Goal.weeklyActions := Goal.weeklyActions prev;
     Goal.dailyHabits := Goal.dailyHabits prev;
     Goal.routines := Goal.routines prev;
     Goal.resources := Goal.resources prev;
     Goal.obstacles := Goal.obstacles prev;
     Goal.successCriteria := Goal.successCriteria prev;
     Goal.reflections := Goal.reflections prev |}.

Definition set_description (x : JS.value) (prev : Goal.t) : Goal.t :=
  {| Goal.title := Goal.title prev;
     Goal.description := x;
     Goal.domain := Goal.domain prev;
     Goal.targetDate := Goal.targetDate prev;
     Goal.status := Goal.status prev;
     Goal.milestones := Goal.milestones prev;
     Goal.metrics := Goal.metrics prev;
     Goal.weeklyActions := Goal.weeklyActions prev;
     Goal.dailyHabits := Goal.dailyHabits prev;
     Goal.routines := Goal.routines prev;
     Goal.resources := Goal.resources prev;
     Goal.obstacles := Goal.obstacles prev;
     Goal.successCriteria := Goal.successCriteria prev;
     Goal.reflections := Goal.reflections prev |}.

Definition set_domain (x : JS.value) (prev : Goal.t) : Goal.t :=
  {| Goal.title := Goal.title prev;
     Goal.description := Goal.description prev;
     Goal.domain := x;
     Goal.targetDate := Goal.targetDate prev;
     Goal.status := Goal.status prev;
     Goal.milestones := Goal.milestones prev;
     Goal.metrics := Goal.metrics prev;
     Goal.weeklyActions := Goal.weeklyActions prev;
     Goal.dailyHabits := Goal.dailyHabits prev;
     Goal.routines := Goal.routines prev;
     Goal.resources := Goal.resources prev;
     Goal.obstacles := Goal.obstacles prev;
     Goal.successCriteria := Goal.successCriteria prev;
     Goal.reflections := Goal.reflections prev |}.

Definition set_targetDate (x : JS.value) (prev : Goal.t) : Goal.t :=
  {| Goal.title := Goal.title prev;
     Goal.description := Goal.description prev;
     Goal.domain := Goal.domain prev;
     Goal.targetDate := x;
     Goal.status := Goal.status prev;
     Goal.milestones := Goal.milestones prev;
     Goal.metrics := Goal.metrics prev;
     Goal.weeklyActions := Goal.weeklyActions prev;
     Goal.dailyHabits := Goal.dailyHabits prev;
     Goal.routines := Goal.routines prev;
     Goal.resources := Goal.resources prev;
     Goal.obstacles := Goal.obstacles prev;
     Goal.successCriteria := Goal.successCriteria prev;
     Goal.reflections := Goal.reflections prev |}.

Definition set_milestones (x : option (list Milestone.t)) (prev : Goal.t) : Goal.t :=
  {| Goal.title := Goal.title prev;
     Goal.description := Goal.description prev;
     Goal.domain := Goal.domain prev;
     Goal.targetDate := Goal.targetDate prev;
     Goal.status := Goal.status prev;
     Goal.milestones := x;
     Goal.metrics := Goal.metrics prev;
     Goal.weeklyActions := Goal.weeklyActions prev;
     Goal.dailyHabits := Goal.dailyHabits prev;
     Goal.routines := Goal.routines prev;
     Goal.resources := Goal.resources prev;
     Goal.obstacles := Goal.obstacles prev;
     Goal.successCriteria := Goal.successCriteria prev;
     Goal.reflections := Goal.reflections prev |}.

Definition set_metrics (x : option (list Metric.t)) (prev : Goal.t) : Goal.t :=
  {| Goal.title := Goal.title prev;
     Goal.description := Goal.description prev;
     Goal.domain := Goal.domain prev;
     Goal.targetDate := Goal.targetDate prev;
     Goal.status := Goal.status prev;
     Goal.milestones := Goal.milestones prev;
     Goal.metrics := x;
     Goal.weeklyActions := Goal.weeklyActions prev;
     Goal.dailyHabits := Goal.dailyHabits prev;
     Goal.routines := Goal.routines prev;
     Goal.resources := Goal.resources prev;
     Goal.obstacles := Goal.obstacles prev;
     Goal.successCriteria := Goal.successCriteria prev;
     Goal.reflections := Goal.reflections prev |}.

Definition set_weeklyActions (x : JS.value) (prev : Goal.t) : Goal.t :=
  {| Goal.title := Goal.title prev;
     Goal.description := Goal.description prev;
     Goal.domain := Goal.domain prev;
     Goal.targetDate := Goal.targetDate prev;
     Goal.status := Goal.status prev;
     Goal.milestones := Goal.milestones prev;
     Goal.metrics := Goal.metrics prev;
     Goal.weeklyActions := x;
     Goal.dailyHabits := Goal.dailyHabits prev;
     Goal.routines := Goal.routines prev;
     Goal.resources := Goal.resources prev;
     Goal.obstacles := Goal.obstacles prev;
     Goal.successCriteria := Goal.successCriteria prev;
     Goal.reflections := Goal.reflections prev |}.

Definition set_dailyHabits (x : JS.value) (prev : Goal.t) : Goal.t :=
  {| Goal.title := Goal.title prev;
     Goal.description := Goal.description prev;
     Goal.domain := Goal.domain prev;
     Goal.targetDate := Goal.targetDate prev;
     Goal.status := Goal.status prev;
     Goal.milestones := Goal.milestones prev;
     Goal.metrics := Goal.metrics prev;
     Goal.weeklyActions := Goal.weeklyActions prev;
     Goal.dailyHabits := x;
     Goal.routines := Goal.routines prev;
     Goal.resources := Goal.resources prev;
     Goal.obstacles := Goal.obstacles prev;
     Goal.successCriteria := Goal.successCriteria prev;
     Goal.reflections := Goal.reflections prev |}.

Definition set_routines (x : option (list Routine.t)) (prev : Goal.t) : Goal.t :=
  {| Goal.title := Goal.title prev;
     Goal.description := Goal.description prev;
     Goal.domain := Goal.domain prev;
     Goal.targetDate := Goal.targetDate prev;
     Goal.status := Goal.status prev;
     Goal.milestones := Goal.milestones prev;
     Goal.metrics := Goal.metrics prev;
     Goal.weeklyActions := Goal.weeklyActions prev;
     Goal.dailyHabits := Goal.dailyHabits prev;
     Goal.routines := x;
     Goal.resources := Goal.resources prev;
     Goal.obstacles := Goal.obstacles prev;
     Goal.successCriteria := Goal.successCriteria prev;
     Goal.reflections := Goal.reflections prev |}.

Definition set_resources (x : JS.value) (prev : Goal.t) : Goal.t :=
  {| Goal.title := Goal.title prev;
     Goal.description := Goal.description prev;
     Goal.domain := Goal.domain prev;
     Goal.targetDate := Goal.targetDate prev;
     Goal.status := Goal.status prev;
     Goal.milestones := Goal.milestones prev;
     Goal.metrics := Goal.metrics prev;
     Goal.weeklyActions := Goal.weeklyActions prev;
     Goal.dailyHabits := Goal.dailyHabits prev;
     Goal.routines := Goal.routines prev;
     Goal.resources := x;
     Goal.obstacles := Goal.obstacles prev;
     Goal.successCriteria := Goal.successCriteria prev;
     Goal.reflections := Goal.reflections prev |}.

Definition set_obstacles (x : JS.value) (prev : Goal.t) : Goal.t :=
  {| Goal.title := Goal.title prev;
     Goal.description := Goal.description prev;
     Goal.domain := Goal.domain prev;
     Goal.targetDate := Goal.targetDate prev;
     Goal.status := Goal.status prev;
     Goal.milestones := Goal.milestones prev;
     Goal.metrics := Goal.metrics prev;
     Goal.weeklyActions := Goal.weeklyActions prev;
     Goal.dailyHabits := Goal.dailyHabits prev;
     Goal.routines := Goal.routines prev;
     Goal.resources := Goal.resources prev;
     Goal.obstacles := x;
     Goal.successCriteria := Goal.successCriteria prev;
     Goal.reflections := Goal.reflections prev |}.

Definition set_successCriteria (x : JS.value) (prev : Goal.t) : Goal.t :=
  {| Goal.title := Goal.title prev;
     Goal.description := Goal.description prev;
     Goal.domain := Goal.domain prev;
     Goal.targetDate := Goal.targetDate prev;
     Goal.status := Goal.status prev;
     Goal.milestones := Goal.milestones prev;
     Goal.metrics := Goal.metrics prev;
     Goal.weeklyActions := Goal.weeklyActions prev;
     Goal.dailyHabits := Goal.dailyHabits prev;
     Goal.routines := Goal.routines prev;
     Goal.resources := Goal.resources prev;
     Goal.obstacles := Goal.obstacles prev;
     Goal.successCriteria := x;
     Goal.reflections := Goal.reflections prev |}.

End Draft.

Record Message := { role : string; content : string }.

(** ** Operations on dynamically typed values that can throw *)

Module Dyn.
Import JS.

(** The own property [k] of [v]; only an object has any of the keys the
    program reads (no built-in prototype defines one of them). *)
Definition prop (v : value) (k : string) : value :=
  match v with
  | JObj props => lookup_prop k props
  | _ => JUndefined
  end.

(** [v.k]: a [TypeError] on [undefined] and [null]. *)
Definition get (v : value) (k : string) : Eff.t value :=
  match v with
  | JUndefined | JNull => Eff.throw
  | _ => Eff.ret (prop v k)
  end.

(** [v.map(f)]: only an array has a callable [map]. *)
Definition map {B} (f : value -> Eff.t B) (v : value) : Eff.t (list B) :=
  match v with
  | JArr l => Eff.mapM f l
  | _ => Eff.throw
  end.

(** [v.trim()]: only a string has a callable [trim]. *)
Definition trim (v : value) : Eff.t string :=
  match v with
  | JStr s => Eff.ret (JS.trim s)
  | _ => Eff.throw
  end.

(** [ToPrimitive(v)] completes.  Parsed data holds no function, so an own
    property [toString] of an object is not callable, while the [valueOf]
    it inherits returns the object itself: the conversion of such an object
    ends in a [TypeError], whichever of the two methods is tried first.  An
    object without that own property gives the string of
    [Object.prototype.toString]; an array is joined, which converts each of
    its elements. *)
Fixpoint stringifies (v : value) : bool :=
  match v with
  | JObj props => negb (existsb (fun kv => String.eqb (fst kv) "toString") props)
  | JArr l => forallb stringifies l
  | _ => true
  end.

(** The Date that [new Date(v)] builds once [v] is converted: a Date is
    copied, a Number is clipped, any other value is read by the platform. *)
Definition dateOf `{Platform} (v : value) : value :=
  JDate match v with
        | JDate d => d
        | JNum x => Date_of_Number x
        | _ => Date_parse v
        end.

(** [new Date(v)]: a [TypeError] when [v] cannot be converted to a
    primitive. *)
Definition newDate `{Platform} (v : value) : Eff.t value :=
  if stringifies v then Eff.ret (dateOf v) else Eff.throw.

(** [`${v}`] *)
Definition ToString `{Platform} (v : value) : string :=
  match v with
  | JStr s => s
  | JUndefined => "undefined"
  | JNull => "null"
  | JBool true => "true"
  | JBool false => "false"
  | _ => Value_toString v
  end.

(** [v.getTime()]: a [TypeError] unless [v] is a Date. *)
Definition getTime (v : value) : Eff.t Number :=
  match v with
  | JDate d => Eff.ret (JS.getTime d)
  | _ => Eff.throw
  end.

End Dyn.

(** ** lib/openai *)

Module OpenAI.
Import JS.
Local Open Scope eff_scope.

(** What [JSON.parse] made of the extraction reply. *)
Inductive ParseOutcome :=
| SyntaxError
| Parsed (parsedData : value).

(** The two completion requests: either one of them failed, or both
    returned; [reply] is the content of the conversational one. *)
Inductive ApiOutcome :=
| ApiError
| ApiOk (reply : option string) (extraction : ParseOutcome).

Record Result := {
  nextPrompt : option string;         (* [None] is [null] *)
  extractedData : option Draft.Goal.t;   (* [None] is the empty object *)
  conversationComplete : bool
}.

Section WithPlatform.
Context `{Platform}.

Definition extractMilestone (m : value) : Eff.t Draft.Milestone.t :=
  id <- Eff.randomUUID ;;
  title <- Dyn.get m "title" ;;
  description <- Dyn.get m "description" ;;
  targetDate <- Dyn.get m "targetDate" ;;
  targetDate <- Dyn.newDate targetDate ;;
  frequency <- Dyn.get m "frequency" ;;
  Eff.ret {| Draft.Milestone.id := id;
             Draft.Milestone.title := title;
             Draft.Milestone.description := description;
             Draft.Milestone.targetDate := targetDate;
             Draft.Milestone.completed := JBool false;
             Draft.Milestone.frequency := JS.or frequency (JStr "once") |}.

Definition extractMetric (m : value) : Eff.t Draft.Metric.t :=
  id <- Eff.randomUUID ;;
  name <- Dyn.get m "name" ;;
  type <- Dyn.get m "type" ;;
  target <- Dyn.get m "target" ;;
  unit <- Dyn.get m "unit" ;;
  frequency <- Dyn.get m "frequency" ;;
  Eff.ret {| Draft.Metric.id := id;
             Draft.Metric.name := name;
             Draft.Metric.type := type;
             Draft.Metric.target := target;
             Draft.Metric.current := JNum (S754_zero false);
             Draft.Metric.unit := unit;
             Draft.Metric.frequency := frequency;
             Draft.Metric.history := JArr [] |}.

Definition extractRoutine (r : value) : Eff.t Draft.Routine.t :=
  id <- Eff.randomUUID ;;
  name <- Dyn.get r "name" ;;
  description <- Dyn.get r "description" ;;
  frequency <- Dyn.get r "frequency" ;;
  steps <- Dyn.get r "steps" ;;
  Eff.ret {| Draft.Routine.id := id;
             Draft.Routine.name := name;
             Draft.Routine.description := description;
             Draft.Routine.frequency := frequency;
             Draft.Routine.steps := steps;
             Draft.Routine.lastCompleted := JNull;
             Draft.Routine.nextDue := JNull |}.

(** The object literal assigned to [extractedData], its properties
    evaluated in source order. *)
Definition transform (parsedData : value) : Eff.t Draft.Goal.t :=
  title <- Dyn.get parsedData "title" ;;
  description <- Dyn.get parsedData "description" ;;
  domain <- Dyn.get parsedData "domain" ;;
  targetDate <- Dyn.get parsedData "targetDate" ;;
  targetDate <- (if truthy targetDate then Dyn.newDate targetDate
                 else Eff.ret JUndefined) ;;
  milestones <- Dyn.get parsedData "milestones" ;;
  milestones' <- Dyn.map extractMilestone (JS.or milestones (JArr [])) ;;
  metrics <- Dyn.get parsedData "metrics" ;;
  metrics' <- Dyn.map extractMetric (JS.or metrics (JArr [])) ;;
  weeklyActions <- Dyn.get parsedData "weeklyActions" ;;
  dailyHabits <- Dyn.get parsedData "dailyHabits" ;;
  routines <- Dyn.get parsedData "routines" ;;
  routines' <- Dyn.map extractRoutine (JS.or routines (JArr [])) ;;
  resources <- Dyn.get parsedData "resources" ;;
  obstacles <- Dyn.get parsedData "obstacles" ;;
  successCriteria <- Dyn.get parsedData "successCriteria" ;;
  Eff.ret {| Draft.Goal.title := title;
             Draft.Goal.description := description;
             Draft.Goal.domain := domain;
             Draft.Goal.targetDate := targetDate;
             Draft.Goal.status := JStr "active";
             Draft.Goal.milestones := Some milestones';
             Draft.Goal.metrics := Some metrics';
             Draft.Goal.weeklyActions := JS.or weeklyActions (JArr []);
             Draft.Goal.dailyHabits := JS.or dailyHabits (JArr []);
             Draft.Goal.routines := Some routines';
             Draft.Goal.resources := JS.or resources (JArr []);
             Draft.Goal.obstacles := JS.or obstacles (JArr []);
             Draft.Goal.successCriteria := JS.or successCriteria (JArr []);
             Draft.Goal.reflections := JArr [] |}.

Definition requiredFields : list string := ["title"; "description"; "domain"].

(** [field => parsedData[field] && parsedData[field].trim() !== ''] *)
Definition fieldPresent (parsedData : value) (field : string) : Eff.t bool :=
  v <- Dyn.get parsedData field ;;
  if truthy v
  then (s <- Dyn.trim v ;; Eff.ret (negb (String.eqb s "")))
  else Eff.ret false.

(** The inner [try] block.  [extractedData] starts as the empty object and
    [conversationComplete] as [false]; an exception leaves each of them at
    the value it had when the exception was thrown. *)
Definition extraction (p : ParseOutcome) : Eff.t (option Draft.Goal.t * bool) :=
  match p with
  | SyntaxError => Eff.ret (None, false)
  | Parsed parsedData =>
      Eff.try_catch
        (e <- transform parsedData ;;
         Eff.try_catch
           (b <- Eff.every (fieldPresent parsedData) requiredFields ;;
            Eff.ret (Some e, b))
           (Eff.ret (Some e, false)))
        (Eff.ret (None, false))
  end.

Definition processConversation (messages : list Message) (api : ApiOutcome)
  : Eff.t Result :=
  match api with
  | ApiOk reply p =>
      r <- extraction p ;;
      Eff.ret {| nextPrompt := reply;
                 extractedData := fst r;
                 conversationComplete := snd r |}
  | ApiError =>
      Eff.ret {| nextPrompt :=
                   Some "I'm having trouble understanding. Could you rephrase that?"%string;
                 extractedData := None;
                 conversationComplete := false |}
  end.

End WithPlatform.

(** What a single chat-completion request came to: it failed, or it
    returned its choices, each with the content of its message ([None] is
    [null]). *)
Inductive ChatOutcome :=
| ChatError
| ChatOk (choices : list (option string)).

(** [choice.message.content?.trim() || "No suggestion available"] for every
    choice; the arguments only shape the request. *)
Definition generateSuggestion (step : Z) (question : option string)
  (previousResponses : list (option string * string)) (o : ChatOutcome)
  : list string :=
  match o with
  | ChatOk choices =>
      List.map (fun content =>
                  match content with
                  | Some s =>
                      match trim s with
                      | EmptyString => "No suggestion available"%string
                      | t => t
                      end
                  | None => "No suggestion available"%string
                  end)
               choices
  | ChatError => ["Could not generate suggestions at this time"%string]
  end.

(** [response.choices[0].message.content || "..."]; reading [message] of a
    missing first choice throws inside the [try]. *)
Definition getAIResponse (userInput : string) (currentQuestion : option string)
  (previousMessages : list Message) (o : ChatOutcome) : string :=
  match o with
  | ChatOk (Some (String c s) :: _) => String c s
  | ChatOk (_ :: _) => "Let's continue with the next step."
  | _ => "I understand. Let's move on to the next step."
  end.

End OpenAI.

(** ** FreeformAIChat *)

Module FreeformAIChat.
Import JS.
Local Open Scope eff_scope.

(** The component's state, without the flags of the summary editor and of
    the transcript import, which the handlers below do not read. *)
Record State := {
  messages : list Message;
  input : string;
  isProcessing : bool;
  goalData : Draft.Goal.t;
  showSummary : bool
}.

Definition initialState : State :=
  {| messages :=
       [ {| role := "assistant";
            content := "Hi! I'm here to help you create a meaningful goal. What's on your mind? What would you like to achieve?" |} ];
     input := "";
     isProcessing := false;
     goalData := Draft.initial;
     showSummary := false |}.

(** Typing into the input box: [setInput(e.target.value)] *)
Definition setInput (text : string) (st : State) : State :=
  {| messages := messages st;
     input := text;
     isProcessing := isProcessing st;
     goalData := goalData st;
     showSummary := showSummary st |}.

(** [{ ...prev, ...extractedData }]: the extracted object is either empty
    or carries every property of a draft. *)
Definition spread (prev : Draft.Goal.t) (extractedData : option Draft.Goal.t)
  : Draft.Goal.t :=
  match extractedData with
  | Some e => e
  | None => prev
  end.

(** [extractedData.field], [undefined] on the empty object *)
Definition field {A} (undef : A) (f : Draft.Goal.t -> A)
  (extractedData : option Draft.Goal.t) : A :=
  match extractedData with
  | Some e => f e
  | None => undef
  end.

(** The updater passed to [setGoalData] in [handleSendMessage]. *)
Definition mergeExtracted (extractedData : option Draft.Goal.t)
  (prev : Draft.Goal.t) : Draft.Goal.t :=
  let s := spread prev extractedData in
  {| Draft.Goal.title := Draft.Goal.title s;
     Draft.Goal.description := Draft.Goal.description s;
     Draft.Goal.domain := Draft.Goal.domain s;
     Draft.Goal.targetDate := Draft.Goal.targetDate s;
     Draft.Goal.status := Draft.Goal.status s;
     Draft.Goal.milestones :=
       Draft.or_list (field None Draft.Goal.milestones extractedData)
                     (Draft.Goal.milestones prev);
     Draft.Goal.metrics :=
       Draft.or_list (field None Draft.Goal.metrics extractedData)
                     (Draft.Goal.metrics prev);
     Draft.Goal.weeklyActions :=
       JS.or (field JUndefined Draft.Goal.weeklyActions extractedData)
             (Draft.Goal.weeklyActions prev);
     Draft.Goal.dailyHabits :=
       JS.or (field JUndefined Draft.Goal.dailyHabits extractedData)
             (Draft.Goal.dailyHabits prev);
     Draft.Goal.routines :=
       Draft.or_list (field None Draft.Goal.routines extractedData)
                     (Draft.Goal.routines prev);
     Draft.Goal.resources :=
       JS.or (field JUndefined Draft.Goal.resources extractedData)
             (Draft.Goal.resources prev);
     Draft.Goal.obstacles :=
       JS.or (field JUndefined Draft.Goal.obstacles extractedData)
             (Draft.Goal.obstacles prev);
     Draft.Goal.successCriteria :=
       JS.or (field JUndefined Draft.Goal.successCriteria extractedData)
             (Draft.Goal.successCriteria prev);
     Draft.Goal.reflections := Draft.Goal.reflections s |}.

(** The whole dialog: the chat above, the summary editor, the transcript
    import box, and the two callbacks of the component, recorded as
    [created] and [closed]. *)
Record Panel := {
  chat : State;
  editMode : bool;
  showTranscriptInput : bool;
  transcript : string;
  created : option Draft.Goal.t;   (* the argument of [onCreateGoal], once called *)
  closed : bool                    (* [onClose] was called *)
}.

Definition initialPanel : Panel :=
  {| chat := initialState;
     editMode := false;
     showTranscriptInput := false;
     transcript := "";
     created := None;
     closed := false |}.

(** The loop of [handleImportTranscript] from index [i] on: a line that is
    not empty becomes a message, spoken by the assistant at an even index
    and by the user at an odd one. *)
Fixpoint transcriptMessages (i : nat) (lines : list string) : list Message :=
  match lines with
  | [] => []
  | line :: rest =>
      (if String.eqb line "" then []
       else [ {| role := if Nat.even i then "assistant" else "user";
                 content := line |} ])
      ++ transcriptMessages (S i) rest
  end.

(** [transcript.split('\n').map(line => line.trim()).filter(line => line)] *)
Definition transcriptLines (transcript : string) : list string :=
  List.filter (fun line => negb (String.eqb line ""))
    (List.map trim (split (ascii_of_nat 10) transcript)).

(** The close button of the header. *)
Definition handleClose (p : Panel) : Panel :=
  if (Nat.ltb 1 (length (messages (chat p))) && negb (showSummary (chat p)))%bool
  then {| chat := {| messages := messages (chat p);
                     input := input (chat p);
                     isProcessing := isProcessing (chat p);
                     goalData := goalData (chat p);
                     showSummary := true |};
          editMode := editMode p;
          showTranscriptInput := showTranscriptInput p;
          transcript := transcript p;
          created := created p;
          closed := closed p |}
  else {| chat := chat p;
          editMode := editMode p;
          showTranscriptInput := showTranscriptInput p;
          transcript := transcript p;
          created := created p;
          closed := true |}.

(** The dates of a draft are Date objects: its target date is [undefined]
    or a Date, and the target date of each of its milestones is a Date. *)
Definition isDate (v : value) : bool :=
  match v with
  | JDate _ => true
  | _ => false
  end.

Definition dates (goalData : Draft.Goal.t) : bool :=
  (match Draft.Goal.targetDate goalData with
   | JUndefined | JDate _ => true
   | _ => false
   end
   && forallb (fun m => isDate (Draft.Milestone.targetDate m))
        (Draft.or_nil (Draft.Goal.milestones goalData)))%bool.

(** [goalData.title && goalData.description && goalData.domain]; the Save
    button carries [disabled={!isGoalComplete()}]. *)
Definition isGoalComplete (goalData : Draft.Goal.t) : value :=
  JS.and (JS.and (Draft.Goal.title goalData) (Draft.Goal.description goalData))
         (Draft.Goal.domain goalData).

Section WithPlatform.
Context `{Platform}.

(** One user turn.  [processConversation] catches every exception itself,
    so the handler's own [catch] is never entered; the empty object is
    truthy, so the merge always runs. *)
Definition handleSendMessage (api : OpenAI.ApiOutcome) (st : State) : Eff.t State :=
  if (String.eqb (trim (input st)) "" || isProcessing st)%bool then Eff.ret st
  else
    let userMessage := {| role := "user"; content := input st |} in
    result <- OpenAI.processConversation (messages st ++ [userMessage]) api ;;
    Eff.ret
      {| messages :=
           (messages st ++ [userMessage])
           ++ match OpenAI.nextPrompt result with
              | Some (String c s) => [ {| role := "assistant"; content := String c s |} ]
              | _ => []
              end;
         input := "";
         isProcessing := false;
         goalData := mergeExtracted (OpenAI.extractedData result) (goalData st);
         showSummary :=
           if OpenAI.conversationComplete result then true else showSummary st |}.

(** The draft of this dialog is written by the merge of an extraction, by
    the import, and by the summary editor, whose date field stores a
    [new Date]: its dates are Date objects, or [undefined] (the predicate
    [dates]); [new Date] of a Date copies it and does not throw. *)
Definition saveMilestone (m : Draft.Milestone.t) : Eff.t Draft.Milestone.t :=
  id <- Eff.randomUUID ;;
  Eff.ret {| Draft.Milestone.id := id;
             Draft.Milestone.title := Draft.Milestone.title m;
             Draft.Milestone.description :=
               JS.or (Draft.Milestone.description m) (JStr "");
             Draft.Milestone.targetDate := Dyn.dateOf (Draft.Milestone.targetDate m);
             Draft.Milestone.completed := JBool false;
             Draft.Milestone.frequency :=
               JS.or (Draft.Milestone.frequency m) (JStr "once") |}.

Definition saveMetric (m : Draft.Metric.t) : Eff.t Draft.Metric.t :=
  id <- Eff.randomUUID ;;
  Eff.ret {| Draft.Metric.id := id;
             Draft.Metric.name := Draft.Metric.name m;
             Draft.Metric.type := Draft.Metric.type m;
             Draft.Metric.target := Draft.Metric.target m;
             Draft.Metric.current :=
               if is_string "boolean" (Draft.Metric.type m)
               then JBool false else JNum (S754_zero false);
             Draft.Metric.unit := JS.or (Draft.Metric.unit m) (JStr "");
             Draft.Metric.frequency := JS.or (Draft.Metric.frequency m) (JStr "daily");
             Draft.Metric.history := JArr [] |}.

Definition saveRoutine (r : Draft.Routine.t) : Eff.t Draft.Routine.t :=
  id <- Eff.randomUUID ;;
  Eff.ret {| Draft.Routine.id := id;
             Draft.Routine.name := Draft.Routine.name r;
             Draft.Routine.description := JS.or (Draft.Routine.description r) (JStr "");
             Draft.Routine.frequency := JS.or (Draft.Routine.frequency r) (JStr "daily");
             Draft.Routine.steps := Draft.Routine.steps r;
             Draft.Routine.lastCompleted := JNull;
             Draft.Routine.nextDue := JNull |}.

(** The goal handed to [onCreateGoal]. *)
Definition handleSaveGoal (goalData : Draft.Goal.t) : Eff.t Draft.Goal.t :=
  milestones <- Eff.mapM saveMilestone (Draft.or_nil (Draft.Goal.milestones goalData)) ;;
  metrics <- Eff.mapM saveMetric (Draft.or_nil (Draft.Goal.metrics goalData)) ;;
  routines <- Eff.mapM saveRoutine (Draft.or_nil (Draft.Goal.routines goalData)) ;;
  Eff.ret {| Draft.Goal.title := JS.or (Draft.Goal.title goalData) (JStr "");
             Draft.Goal.description := JS.or (Draft.Goal.description goalData) (JStr "");
             Draft.Goal.domain := JS.or (Draft.Goal.domain goalData) (JStr "personal");
             Draft.Goal.status := JStr "active";
             Draft.Goal.targetDate :=
               if truthy (Draft.Goal.targetDate goalData)
               then Dyn.dateOf (Draft.Goal.targetDate goalData) else JUndefined;
             Draft.Goal.milestones := Some milestones;
             Draft.Goal.metrics := Some metrics;
             Draft.Goal.weeklyActions := JS.or (Draft.Goal.weeklyActions goalData) (JArr []);
             Draft.Goal.dailyHabits := JS.or (Draft.Goal.dailyHabits goalData) (JArr []);
             Draft.Goal.routines := Some routines;
             Draft.Goal.resources := JS.or (Draft.Goal.resources goalData) (JArr []);
             Draft.Goal.obstacles := JS.or (Draft.Goal.obstacles goalData) (JArr []);
             Draft.Goal.successCriteria :=
               JS.or (Draft.Goal.successCriteria goalData) (JArr []);
             Draft.Goal.reflections := JArr [] |}.

(** The import button.  The messages are replaced by the lines of the
    transcript; the extraction is spread over the draft as it is, and the
    summary is shown whatever [processConversation] returned. *)
Definition handleImportTranscript (api : OpenAI.ApiOutcome) (p : Panel) : Eff.t Panel :=
  if String.eqb (trim (transcript p)) "" then Eff.ret p
  else
    let newMessages := transcriptMessages 0 (transcriptLines (transcript p)) in
    result <- OpenAI.processConversation newMessages api ;;
    Eff.ret
      {| chat := {| messages := newMessages;
                    input := input (chat p);
                    isProcessing := false;
                    goalData := spread (goalData (chat p)) (OpenAI.extractedData result);
                    showSummary := true |};
         editMode := editMode p;
         showTranscriptInput := false;
         transcript := transcript p;
         created := created p;
         closed := closed p |}.

(** The Save button of the summary: [onCreateGoal(goal); onClose()]. *)
Definition saveAndClose (p : Panel) : Eff.t Panel :=
  goal <- handleSaveGoal (goalData (chat p)) ;;
  Eff.ret {| chat := chat p;
             editMode := editMode p;
             showTranscriptInput := showTranscriptInput p;
             transcript := transcript p;
             created := Some goal;
             closed := true |}.

End WithPlatform.
End FreeformAIChat.

(** ** AIGoalCreation: the guided questionnaire *)

Module AIGoalCreation.
Import JS.
Local Open Scope eff_scope.

(** The component's state, without [loading] and [transitioning], which
    drive the display only, and with the two callbacks of the component
    recorded as [created] and [closed]. *)
Record State := {
  messages : list Message;
  input : string;
  currentStep : Z;
  suggestions : list string;
  goalData : Draft.Goal.t;
  created : option Draft.Goal.t;   (* the argument of [onCreateGoal], once called *)
  closed : bool                    (* [onClose] was called *)
}.

Definition initialState : State :=
  {| messages :=
       [ {| role := "assistant";
            content := "Hi! I'm here to help you create a meaningful goal. Let's start with the basics. What area of your life would you like to focus on? (e.g., work, health, financial, family, personal growth, community, or home)" |} ];
     input := "";
     currentStep := 1;
     suggestions := [];
     goalData := Draft.initial;
     created := None;
     closed := false |}.

Definition questions : list string :=
  [ "What area of your life would you like to focus on? (work, health, financial, family, personal growth, community, or home)";
    "Great! Now, what specific goal would you like to achieve in this area? Be as specific as possible.";
    "Why is this goal important to you? This will help create a meaningful description.";
    "When would you like to achieve this goal by? (e.g., 3 months, 6 months, 1 year)";
    "Let's break this down into milestones. What are 2-3 key checkpoints on the way to your goal?";
    "How will you measure progress? Let's create some metrics. (e.g., frequency, quantity, yes/no achievements)";
    "What weekly actions will help you make progress? List 2-3 specific actions.";
    "What daily habits would support this goal? List 1-2 key habits to develop.";
    "Let's create a routine to support this goal. What steps would be involved?";
    "What resources will you need to achieve this goal?";
    "What potential obstacles might you face?";
    "Finally, how will you know you've succeeded? List 2-3 specific success criteria." ].

(** The question shown above the input box: [questions[currentStep - 1]]. *)
Definition currentQuestion (st : State) : option string :=
  if 1 <=? currentStep st then nth_error questions (Z.to_nat (currentStep st - 1))
  else None.

Definition domains : list string :=
  ["work"; "health"; "financial"; "family"; "personal"; "community"; "home"].

Definition domainReminder : string :=
  "Please choose one of the following domains: work, health, financial, family, personal, community, or home.".

Definition isDigit (c : ascii) : bool :=
  (N.leb 48 (charCode c) && N.leb (charCode c) 57)%bool.

Fixpoint takeDigits (s : string) : string :=
  match s with
  | String c s' => if isDigit c then String c (takeDigits s') else EmptyString
  | EmptyString => EmptyString
  end.

(** [s.match(/\d+/)?.[0]]: the first run of digits, if there is one *)
Fixpoint firstDigits (s : string) : option string :=
  match s with
  | EmptyString => None
  | String c s' => if isDigit c then Some (takeDigits s) else firstDigits s'
  end.

Definition option_or (a : option string) (b : string) : string :=
  match a with
  | Some s => s
  | None => b
  end.

(** The trimmed segments of a comma-separated answer, as an array of strings *)
Definition segments (answer : string) : value :=
  JArr (List.map (fun s => JStr (trim s)) (split "," answer)).

Section WithPlatform.
Context `{Platform}.

(** The next state once the reply is appended and the step is advanced. *)
Definition advance (aiResponse : string) (next : Z) (gd : Draft.Goal.t)
  (st : State) : State :=
  {| messages := messages st ++ [ {| role := "assistant"; content := aiResponse |} ];
     input := input st;
     currentStep := next;
     suggestions := suggestions st;
     goalData := gd;
     created := created st;
     closed := closed st |}.

Definition say (text : string) (st : State) : State :=
  {| messages := messages st ++ [ {| role := "assistant"; content := text |} ];
     input := input st;
     currentStep := currentStep st;
     suggestions := suggestions st;
     goalData := goalData st;
     created := created st;
     closed := closed st |}.

(** Step 4: the target date from a phrase such as "6 months". *)
Definition parseTargetDate (now : Z) (answer : string) : Date :=
  let input_lower := toLowerCase answer in
  if includes "month" input_lower then
    Date_plusMonths now (parseInt (option_or (firstDigits input_lower) "3"))
  else if includes "year" input_lower then
    Date_plusYears now (parseInt (option_or (firstDigits input_lower) "1"))
  else Date_plusMonths now (Number_of_Z 3).

(** Step 5: one milestone per comma-separated segment. *)
Definition guidedMilestone (targetDate : value) (milestone : string)
  : Eff.t Draft.Milestone.t :=
  id <- Eff.randomUUID ;;
  t <- Dyn.getTime targetDate ;;
  Eff.ret {| Draft.Milestone.id := id;
             Draft.Milestone.title := JStr (trim milestone);
             Draft.Milestone.description := JStr "";
             Draft.Milestone.targetDate :=
               JDate (Date_of_Number
                        (Number_mul t (S754_finite false 4503599627370496 (-53))));
             Draft.Milestone.completed := JBool false;
             Draft.Milestone.frequency := JStr "once" |}.

(** Step 6: one metric per segment, written [name:target]. *)
Definition guidedMetric (metric : string) : Eff.t Draft.Metric.t :=
  let parts := List.map trim (split ":" metric) in
  let name := nth 0 (List.map JStr parts) JUndefined in
  let targetStr := nth 1 (List.map JStr parts) JUndefined in
  let target := JS.or (JNum (parseInt (Dyn.ToString targetStr)))
                      (JNum (Number_of_Z 100)) in
  id <- Eff.randomUUID ;;
  Eff.ret {| Draft.Metric.id := id;
             Draft.Metric.name := name;
             Draft.Metric.type := JStr "number";
             Draft.Metric.target := target;
             Draft.Metric.current := JNum (S754_zero false);
             Draft.Metric.unit := JStr "";
             Draft.Metric.frequency := JStr "daily";
             Draft.Metric.history := JArr [] |}.

(** Step 9: a single routine whose steps are the segments. *)
Definition guidedRoutine (title : value) (answer : string) : Eff.t Draft.Routine.t :=
  id <- Eff.randomUUID ;;
  Eff.ret {| Draft.Routine.id := id;
             Draft.Routine.name := JStr (Dyn.ToString title +:+ " Routine");
             Draft.Routine.description := JStr "Daily routine to support goal progress";
             Draft.Routine.frequency := JStr "daily";
             Draft.Routine.steps := segments answer;
             Draft.Routine.lastCompleted := JNull;
             Draft.Routine.nextDue := JNull |}.

(** One answer.  [aiResponse] is what [getAIResponse] returned (it catches
    its own failures) and [now] the clock at step 4.  A [Thrown] outcome is
    a rejected handler: the updates queued after the exception are lost. *)
Definition handleSendMessage (aiResponse : string) (now : Z) (st : State)
  : Eff.t State :=
  if String.eqb (trim (input st)) "" then Eff.ret st
  else
    let answer := input st in
    let gd := goalData st in
    let st1 :=
      {| messages := messages st ++ [ {| role := "user"; content := answer |} ];
         input := "";
         currentStep := currentStep st;
         suggestions := [];
         goalData := gd;
         created := created st;
         closed := closed st |} in
    match currentStep st with
    | 1 =>
        let domain := toLowerCase answer in
        if Array_includes domains domain
        then Eff.ret (advance aiResponse 2 (Draft.set_domain (JStr domain) gd) st1)
        else Eff.ret (say domainReminder st1)
    | 2 => Eff.ret (advance aiResponse 3 (Draft.set_title (JStr answer) gd) st1)
    | 3 => Eff.ret (advance aiResponse 4 (Draft.set_description (JStr answer) gd) st1)
    | 4 =>
        Eff.ret (advance aiResponse 5
                   (Draft.set_targetDate (JDate (parseTargetDate now answer)) gd) st1)
    | 5 =>
        milestones <- Eff.mapM (guidedMilestone (Draft.Goal.targetDate gd))
                               (split "," answer) ;;
        Eff.ret (advance aiResponse 6 (Draft.set_milestones (Some milestones) gd) st1)
    | 6 =>
        metrics <- Eff.mapM guidedMetric (split "," answer) ;;
        Eff.ret (advance aiResponse 7 (Draft.set_metrics (Some metrics) gd) st1)
    | 7 => Eff.ret (advance aiResponse 8 (Draft.set_weeklyActions (segments answer) gd) st1)
    | 8 => Eff.ret (advance aiResponse 9 (Draft.set_dailyHabits (segments answer) gd) st1)
    | 9 =>
        routine <- guidedRoutine (Draft.Goal.title gd) answer ;;
        Eff.ret (advance aiResponse 10 (Draft.set_routines (Some [routine]) gd) st1)
    | 10 => Eff.ret (advance aiResponse 11 (Draft.set_resources (segments answer) gd) st1)
    | 11 => Eff.ret (advance aiResponse 12 (Draft.set_obstacles (segments answer) gd) st1)
    | 12 =>
        (* [onCreateGoal] receives the [goalData] of this render, which
           does not yet hold the success criteria set just before. *)
        Eff.ret {| messages := messages st1;
                   input := "";
                   currentStep := 12;
                   suggestions := [];
                   goalData := Draft.set_successCriteria (segments answer) gd;
                   created := Some gd;
                   closed := true |}
    | _ => Eff.ret st1
    end.

(** Typing into the input box, and a click on a suggestion:
    [setInput(e.target.value)], [setInput(suggestion)] *)
Definition setInput (text : string) (st : State) : State :=
  {| messages := messages st;
     input := text;
     currentStep := currentStep st;
     suggestions := suggestions st;
     goalData := goalData st;
     created := created st;
     closed := closed st |}.

(** [messages.filter(m => m.role === 'assistant')
             .map((m, i) => ({ question: questions[i], answer: m.content }))] *)
Definition previousResponses (st : State) : list (option string * string) :=
  imap (fun i m => (nth_error questions i, content m))
       (List.filter (fun m => String.eqb (role m) "assistant") (messages st)).

(** The "Get Ideas" button.  [generateSuggestion] catches its own
    failures, so the suggestions are always replaced. *)
Definition handleGetSuggestions (o : OpenAI.ChatOutcome) (st : State) : State :=
  {| messages := messages st;
     input := input st;
     currentStep := currentStep st;
     suggestions :=
       OpenAI.generateSuggestion (currentStep st) (currentQuestion st)
         (previousResponses st) o;
     goalData := goalData st;
     created := created st;
     closed := closed st |}.

(** The updates of [handleSendMessage] queued before the reply is awaited:
    they stay when the handler throws later on. *)
Definition asked (st : State) : State :=
  {| messages := messages st ++ [ {| role := "user"; content := input st |} ];
     input := "";
     currentStep := currentStep st;
     suggestions := [];
     goalData := goalData st;
     created := created st;
     closed := closed st |}.

(** The close button of the header: [onClick={onClose}] *)
Definition dismiss (st : State) : State :=
  {| messages := messages st;
     input := input st;
     currentStep := currentStep st;
     suggestions := suggestions st;
     goalData := goalData st;
     created := created st;
     closed := true |}.

(** What the user and the completion endpoint can do to the dialog. *)
Inductive Event :=
| Typed (text : string)
| Picked (i : nat)
| Ideas (o : OpenAI.ChatOutcome)
| Sent (o : OpenAI.ChatOutcome) (now : Z)
| Dismissed.

(** One event, with the number of identifiers drawn so far.  Events are
    handled one at a time; once [onClose] was called the dialog is unmounted
    and nothing reaches it. *)
Definition react (ev : Event) (s : State * nat) : State * nat :=
  let (st, n) := s in
  if closed st then s
  else
    match ev with
    | Typed text => (setInput text st, n)
    | Picked i =>
        match nth_error (suggestions st) i with
        | Some suggestion => (setInput suggestion st, n)
        | None => s
        end
    | Ideas o => (handleGetSuggestions o st, n)
    | Sent o now =>
        let aiResponse :=
          OpenAI.getAIResponse (input st) (currentQuestion st) (messages st) o in
        match handleSendMessage aiResponse now st n with
        | (Eff.Normal st', n') => (st', n')
        | (Eff.Thrown, n') => (asked st, n')
        end
    | Dismissed => (dismiss st, n)
    end.

Definition play (events : list Event) (s : State * nat) : State * nat :=
  List.fold_left (fun s ev => react ev s) events s.

End WithPlatform.
End AIGoalCreation.

(** ** types/index.ts *)

Module Types.
Import JS.

(** [number | boolean] *)
Inductive MetricValue :=
| VNumber (x : Number)
| VBoolean (b : bool).

Module Milestone.
Record t := mk {
  id : string;
  title : string;
  description : option string;
  targetDate : Date;
  completed : bool;
  completedDate : option Date;
  frequency : option string
}.
End Milestone.

Module Metric.
Record t := mk {
  id : string;
  name : string;
  type : string;
  target : MetricValue;
  current : MetricValue;
  unit : option string;
  frequency : option string;
  history : list (Date * MetricValue)
}.
End Metric.

Module Routine.
Record t := mk {
  id : string;
  name : string;
  description : option string;
  frequency : string;
  steps : list string;
  lastCompleted : option Date;
  nextDue : option Date
}.
End Routine.

Module Reflection.
Record t := mk {
  id : string;
  userId : string;
  date : Date;
  type : string;
  progress : string;
  challenges : string;
  insights : string;
  nextSteps : string;
  satisfaction : Number
}.
End Reflection.

Module Goal.
Record t := mk {
  id : string;
  userId : string;
  title : string;
  description : string;
  domain : string;
  status : string;
  targetDate : option Date;
  createdAt : Date;
  updatedAt : Date;
  milestones : list Milestone.t;
  metrics : list Metric.t;
  weeklyActions : list string;
  dailyHabits : list string;
  routines : list Routine.t;
  resources : list string;
  obstacles : list string;
  successCriteria : list string;
  reflections : list Reflection.t
}.

(** [{ ...g, status }] and its siblings *)
(** Every field but [milestones] and [updatedAt]. *)
Definition besidesMilestones (g : t) :=
  (id g, userId g, title g, description g, domain g, status g, targetDate g,
   createdAt g, metrics g, weeklyActions g, dailyHabits g, routines g,
   resources g, obstacles g, successCriteria g, reflections g).

Definition set_id (x : string) (g : t) : t :=
  mk x (userId g) (title g) (description g) (domain g) (status g) (targetDate g)
     (createdAt g) (updatedAt g) (milestones g) (metrics g) (weeklyActions g)
     (dailyHabits g) (routines g) (resources g) (obstacles g) (successCriteria g)
     (reflections g).

Definition set_status (x : string) (g : t) : t :=
  mk (id g) (userId g) (title g) (description g) (domain g) x (targetDate g)
     (createdAt g) (updatedAt g) (milestones g) (metrics g) (weeklyActions g)
     (dailyHabits g) (routines g) (resources g) (obstacles g) (successCriteria g)
     (reflections g).

Definition set_updatedAt (x : Date) (g : t) : t :=
  mk (id g) (userId g) (title g) (description g) (domain g) (status g) (targetDate g)
     (createdAt g) x (milestones g) (metrics g) (weeklyActions g)
     (dailyHabits g) (routines g) (resources g) (obstacles g) (successCriteria g)
     (reflections g).

Definition set_milestones (x : list Milestone.t) (g : t) : t :=
  mk (id g) (userId g) (title g) (description g) (domain g) (status g) (targetDate g)
     (createdAt g) (updatedAt g) x (metrics g) (weeklyActions g)
     (dailyHabits g) (routines g) (resources g) (obstacles g) (successCriteria g)
     (reflections g).

Definition set_metrics (x : list Metric.t) (g : t) : t :=
  mk (id g) (userId g) (title g) (description g) (domain g) (status g) (targetDate g)
     (createdAt g) (updatedAt g) (milestones g) x (weeklyActions g)
     (dailyHabits g) (routines g) (resources g) (obstacles g) (successCriteria g)
     (reflections g).

Definition set_reflections (x : list Reflection.t) (g : t) : t :=
  mk (id g) (userId g) (title g) (description g) (domain g) (status g) (targetDate g)
     (createdAt g) (updatedAt g) (milestones g) (metrics g) (weeklyActions g)
     (dailyHabits g) (routines g) (resources g) (obstacles g) (successCriteria g)
     x.
End Goal.

Record User := { uid : string }.

End Types.

(** ** The document store

    The [goals] collection maps a document id to the document's fields; the
    [id] component of a stored record is not part of the document, a reader
    sets it to the document id.  Whether a write reaches the store is decided
    outside the program. *)

Module Firestore.
Import Types.

Inductive WriteOutcome :=
| Accepted
| Rejected.

(** [updateDoc(doc(db, 'goals', goalId), fields)]: merges [fields] into an
    existing document; rejects when the document is missing or the write
    does not go through. *)
Definition updateDoc (goalId : string) (fields : Goal.t -> Goal.t)
  (w : WriteOutcome) (goals : gmap string Goal.t) : option (gmap string Goal.t) :=
  match w, goals !! goalId with
  | Accepted, Some d => Some (<[goalId := fields d]> goals)
  | _, _ => None
  end.

Inductive ReadOutcome :=
| Delivered
| Failed.

(** [getDocs(query(...))] mapped through [{ id: doc.id, ...doc.data() }]:
    every document that satisfies [p], or nothing when the read fails.  The
    order in which the store lists the documents is not modelled. *)
Definition getDocs (p : Goal.t -> bool) (r : ReadOutcome)
  (goals : gmap string Goal.t) : option (list Goal.t) :=
  match r with
  | Delivered =>
      Some (List.filter p
              (List.map (fun kd => Goal.set_id (fst kd) (snd kd)) (map_to_list goals)))
  | Failed => None
  end.

(** [getDoc(doc(db, 'goals', goalId))]: the snapshot of the document, which
    may not exist, or nothing when the read fails. *)
Definition getDoc (goalId : string) (r : ReadOutcome) (goals : gmap string Goal.t)
  : option (option Goal.t) :=
  match r with
  | Delivered => Some (goals !! goalId)
  | Failed => None
  end.

(** [deleteDoc(doc(db, 'goals', goalId))]: succeeds on a missing document
    too. *)
Definition deleteDoc (goalId : string) (w : WriteOutcome) (goals : gmap string Goal.t)
  : option (gmap string Goal.t) :=
  match w with
  | Accepted => Some (delete goalId goals)
  | Rejected => None
  end.

(** [addDoc(collection(db, 'goals'), d)]: the store picks the identifier
    [newId] of the document. *)
Definition addDoc (newId : string) (d : Goal.t) (w : WriteOutcome)
  (goals : gmap string Goal.t) : option (gmap string Goal.t) :=
  match w with
  | Accepted => Some (<[newId := d]> goals)
  | Rejected => None
  end.

End Firestore.

(** The world a component acts on: the store and the console. *)
Record World := {
  goals_collection : gmap string Types.Goal.t;
  console : list string
}.

(** ** GoalDetails *)

Module GoalDetails.
Import JS Types.
Local Open Scope eff_scope.

(** The signed-in user, the [goalId] property and the loaded goal; the
    [loading] flag and the active tab are display state. *)
Record State := {
  user : option User;
  goalId : string;
  goal : option Goal.t
}.

Definition set_goal (g : Goal.t) (st : State) : State :=
  {| user := user st; goalId := goalId st; goal := Some g |}.

(** The effect that loads the goal: a document that exists becomes the
    local goal, under the document's id; a failed read is logged. *)
Definition fetchGoal (r : Firestore.ReadOutcome) (st : State) (wd : World)
  : State * World :=
  match user st with
  | None => (st, wd)
  | Some _ =>
      match Firestore.getDoc (goalId st) r (goals_collection wd) with
      | Some (Some d) => (set_goal (Goal.set_id (goalId st) d) st, wd)
      | Some None => (st, wd)
      | None => (st, {| goals_collection := goals_collection wd;
                        console := console wd ++ ["Error fetching goal:"] |})
      end
  end.

(** The shape shared by the four mutations: [await updateDoc(...)], then
    [setGoal(...)]; a rejected write skips [setGoal] and logs. *)
Definition persistThen (fields : Goal.t -> Goal.t) (local : Goal.t) (error : string)
  (w : Firestore.WriteOutcome) (st : State) (wd : World) : State * World :=
  match Firestore.updateDoc (goalId st) fields w (goals_collection wd) with
  | Some goals' =>
      (set_goal local st, {| goals_collection := goals'; console := console wd |})
  | None =>
      (st, {| goals_collection := goals_collection wd;
              console := console wd ++ [error] |})
  end.

Definition updateGoalStatus (status : string) (now : Z)
  (w : Firestore.WriteOutcome) (st : State) (wd : World) : State * World :=
  match user st, goal st with
  | Some _, Some goal =>
      persistThen (fun d => Goal.set_updatedAt (DateMs now) (Goal.set_status status d))
                  (Goal.set_status status goal)
                  "Error updating goal status:" w st wd
  | _, _ => (st, wd)
  end.

(** [{ ...m, completed, completedDate: completed ? new Date() : undefined }] *)
Definition setCompleted (completed : bool) (now : Z) (m : Milestone.t) : Milestone.t :=
  {| Milestone.id := Milestone.id m;
     Milestone.title := Milestone.title m;
     Milestone.description := Milestone.description m;
     Milestone.targetDate := Milestone.targetDate m;
     Milestone.completed := completed;
     Milestone.completedDate := if completed then Some (DateMs now) else None;
     Milestone.frequency := Milestone.frequency m |}.

Definition toggledMilestones (milestoneId : string) (completed : bool) (now : Z)
  (milestones : list Milestone.t) : list Milestone.t :=
  List.map (fun m => if String.eqb (Milestone.id m) milestoneId
                     then setCompleted completed now m else m)
           milestones.

Definition toggleMilestone (milestoneId : string) (completed : bool) (now : Z)
  (w : Firestore.WriteOutcome) (st : State) (wd : World) : State * World :=
  match user st, goal st with
  | Some _, Some goal =>
      let updatedMilestones :=
        toggledMilestones milestoneId completed now (Goal.milestones goal) in
      persistThen (fun d => Goal.set_updatedAt (DateMs now)
                              (Goal.set_milestones updatedMilestones d))
                  (Goal.set_milestones updatedMilestones goal)
                  "Error updating milestone:" w st wd
  | _, _ => (st, wd)
  end.

(** [{ ...m, current: value, history: [...m.history, { date: new Date(), value }] }] *)
Definition withSample (value : MetricValue) (now : Z) (m : Metric.t) : Metric.t :=
  {| Metric.id := Metric.id m;
     Metric.name := Metric.name m;
     Metric.type := Metric.type m;
     Metric.target := Metric.target m;
     Metric.current := value;
     Metric.unit := Metric.unit m;
     Metric.frequency := Metric.frequency m;
     Metric.history := Metric.history m ++ [(DateMs now, value)] |}.

Definition updatedMetrics (metricId : string) (value : MetricValue) (now : Z)
  (metrics : list Metric.t) : list Metric.t :=
  List.map (fun m => if String.eqb (Metric.id m) metricId then withSample value now m else m)
           metrics.

Definition updateMetric (metricId : string) (value : MetricValue) (now : Z)
  (w : Firestore.WriteOutcome) (st : State) (wd : World) : State * World :=
  match user st, goal st with
  | Some _, Some goal =>
      let metrics := updatedMetrics metricId value now (Goal.metrics goal) in
      persistThen (fun d => Goal.set_updatedAt (DateMs now) (Goal.set_metrics metrics d))
                  (Goal.set_metrics metrics goal)
                  "Error updating metric:" w st wd
  | _, _ => (st, wd)
  end.

(** [{ id: crypto.randomUUID(), userId: user.uid, ...reflection }], where
    [reflection] carries every field but [id] and [userId]: the two
    components it has for them are not read. *)
Definition newReflection (id : string) (u : User) (reflection : Reflection.t)
  : Reflection.t :=
  {| Reflection.id := id;
     Reflection.userId := uid u;
     Reflection.date := Reflection.date reflection;
     Reflection.type := Reflection.type reflection;
     Reflection.progress := Reflection.progress reflection;
     Reflection.challenges := Reflection.challenges reflection;
     Reflection.insights := Reflection.insights reflection;
     Reflection.nextSteps := Reflection.nextSteps reflection;
     Reflection.satisfaction := Reflection.satisfaction reflection |}.

Definition addReflection `{Platform} (reflection : Reflection.t) (now : Z)
  (w : Firestore.WriteOutcome) (st : State) (wd : World) : Eff.t (State * World) :=
  match user st, goal st with
  | Some u, Some goal =>
      id <- Eff.randomUUID ;;
      let updatedReflections :=
        Goal.reflections goal ++ [newReflection (Dyn.ToString id) u reflection] in
      Eff.ret (persistThen
                 (fun d => Goal.set_updatedAt (DateMs now)
                             (Goal.set_reflections updatedReflections d))
                 (Goal.set_reflections updatedReflections goal)
                 "Error adding reflection:" w st wd)
  | _, _ => Eff.ret (st, wd)
  end.

Definition getProgressPercentage (goal : Goal.t) : Number :=
  let totalMilestones := Z.of_nat (length (Goal.milestones goal)) in
  let completedMilestones :=
    Z.of_nat (length (List.filter Milestone.completed (Goal.milestones goal))) in
  if 0 <? totalMilestones
  then Math_round (Number_mul (Number_div (Number_of_Z completedMilestones)
                                          (Number_of_Z totalMilestones))
                              (Number_of_Z 100))
  else Number_of_Z 0.

(** [1000 * 60 * 60 * 24] *)
Definition msPerDay : Number :=
  Number_mul (Number_mul (Number_mul (Number_of_Z 1000) (Number_of_Z 60)) (Number_of_Z 60))
             (Number_of_Z 24).

(** The number of days shown beside the target date; [None] is [null].
    [now] is the clock. *)
Definition getDaysRemaining (now : Z) (goal : Goal.t) : option Number :=
  match Goal.targetDate goal with
  | None => None
  | Some target =>
      let diffTime := Number_sub (getTime target) (getTime (DateMs now)) in
      Some (Math_ceil (Number_div diffTime msPerDay))
  end.

End GoalDetails.

(** ** GoalsList *)

Module GoalsList.
Import JS Types.

Record State := {
  user : option User;
  goals : list Goal.t
}.

(** The write goes to the store only; the local list changes when the
    store's snapshot listener next delivers. *)
Definition handleToggleMilestone (goalId milestoneId : string) (completed : bool)
  (now : Z) (w : Firestore.WriteOutcome) (st : State) (wd : World) : State * World :=
  match user st with
  | None => (st, wd)
  | Some _ =>
      match List.find (fun g => String.eqb (Goal.id g) goalId) (goals st) with
      | None => (st, wd)
      | Some goal =>
          let updatedMilestones :=
            GoalDetails.toggledMilestones milestoneId completed now (Goal.milestones goal) in
          match Firestore.updateDoc goalId
                  (fun d => Goal.set_updatedAt (DateMs now)
                              (Goal.set_milestones updatedMilestones d))
                  w (goals_collection wd) with
          | Some goals' => (st, {| goals_collection := goals'; console := console wd |})
          | None => (st, {| goals_collection := goals_collection wd;
                            console := console wd ++ ["Error updating milestone:"] |})
          end
      end
  end.

Definition getProgressPercentage (goal : Goal.t) : Number :=
  let totalMilestones := Z.of_nat (length (Goal.milestones goal)) in
  let completedMilestones :=
    Z.of_nat (length (List.filter Milestone.completed (Goal.milestones goal))) in
  if 0 <? totalMilestones
  then Math_round (Number_mul (Number_div (Number_of_Z completedMilestones)
                                          (Number_of_Z totalMilestones))
                              (Number_of_Z 100))
  else Number_of_Z 0.

(** The list view with the dialogs opened from it: the manual form, the
    goal being edited and the goal whose deletion awaits confirmation. *)
Record Screen := {
  listed : State;
  showCreateForm : bool;
  editingGoal : option Goal.t;
  showDeleteConfirm : option string
}.

Definition handleDeleteGoal (goalId : string) (w : Firestore.WriteOutcome)
  (sc : Screen) (wd : World) : Screen * World :=
  match user (listed sc) with
  | None => (sc, wd)
  | Some _ =>
      match Firestore.deleteDoc goalId w (goals_collection wd) with
      | Some goals' =>
          ({| listed := listed sc;
              showCreateForm := showCreateForm sc;
              editingGoal := editingGoal sc;
              showDeleteConfirm := None |},
           {| goals_collection := goals'; console := console wd |})
      | None => (sc, {| goals_collection := goals_collection wd;
                        console := console wd ++ ["Error deleting goal:"] |})
      end
  end.

(** [updateDoc(goalRef, { ...updates, updatedAt: new Date() })]; [updates]
    is given by what it does to the fields of a document. *)
Definition handleEditGoal (goalId : string) (updates : Goal.t -> Goal.t) (now : Z)
  (w : Firestore.WriteOutcome) (sc : Screen) (wd : World) : Screen * World :=
  match user (listed sc) with
  | None => (sc, wd)
  | Some _ =>
      match Firestore.updateDoc goalId
              (fun d => Goal.set_updatedAt (DateMs now) (updates d))
              w (goals_collection wd) with
      | Some goals' =>
          ({| listed := listed sc;
              showCreateForm := showCreateForm sc;
              editingGoal := None;
              showDeleteConfirm := showDeleteConfirm sc |},
           {| goals_collection := goals'; console := console wd |})
      | None => (sc, {| goals_collection := goals_collection wd;
                        console := console wd ++ ["Error updating goal:"] |})
      end
  end.

End GoalsList.

(** ** GoalCreationForm, as the list view opens it *)

(** [new Date(t).toISOString().split('T')[0]]: the calendar day of a valid
    time value, as the date input shows it. *)
Class Calendar := {
  isoDay : Z -> string
}.

Module GoalCreationForm.
Import JS Types.
Local Open Scope eff_scope.

(** [Omit<Milestone, 'id' | 'completed' | 'completedDate'>] *)
Module MilestoneEntry.
Record t := mk {
  title : string;
  description : option string;
  targetDate : Date;
  frequency : option string
}.
End MilestoneEntry.

(** [Omit<Metric, 'id' | 'history'>] *)
Module MetricEntry.
Record t := mk {
  name : string;
  type : string;
  target : MetricValue;
  current : MetricValue;
  unit : option string;
  frequency : option string
}.
End MetricEntry.

(** [Omit<Routine, 'id' | 'lastCompleted' | 'nextDue'>] *)
Module RoutineEntry.
Record t := mk {
  name : string;
  description : option string;
  frequency : string;
  steps : list string
}.
End RoutineEntry.

Record State := {
  title : string;
  description : string;
  domain : string;
  targetDate : string;
  milestones : list MilestoneEntry.t;
  metrics : list MetricEntry.t;
  weeklyActions : list string;
  dailyHabits : list string;
  routines : list RoutineEntry.t;
  resources : list string;
  obstacles : list string;
  successCriteria : list string
}.

(** [a || b] on strings *)
Definition orElse (a b : string) : string :=
  match a with
  | EmptyString => b
  | _ => a
  end.

Definition milestoneEntry (m : Milestone.t) : MilestoneEntry.t :=
  {| MilestoneEntry.title := Milestone.title m;
     MilestoneEntry.description := Milestone.description m;
     MilestoneEntry.targetDate := Milestone.targetDate m;
     MilestoneEntry.frequency := Milestone.frequency m |}.

Definition metricEntry (m : Metric.t) : MetricEntry.t :=
  {| MetricEntry.name := Metric.name m;
     MetricEntry.type := Metric.type m;
     MetricEntry.target := Metric.target m;
     MetricEntry.current := Metric.current m;
     MetricEntry.unit := Metric.unit m;
     MetricEntry.frequency := Metric.frequency m |}.

Definition routineEntry (r : Routine.t) : RoutineEntry.t :=
  {| RoutineEntry.name := Routine.name r;
     RoutineEntry.description := Routine.description r;
     RoutineEntry.frequency := Routine.frequency r;
     RoutineEntry.steps := Routine.steps r |}.

(** The initial values of the twelve [useState] cells. *)
Definition init `{Calendar} (initialData : option Goal.t) : State :=
  match initialData with
  | Some g =>
      {| title := orElse (Goal.title g) "";
         description := orElse (Goal.description g) "";
         domain := orElse (Goal.domain g) "personal";
         targetDate := match Goal.targetDate g with
                       | Some (DateMs t) => isoDay t
                       | _ => ""
                       end;
         milestones := List.map milestoneEntry (Goal.milestones g);
         metrics := List.map metricEntry (Goal.metrics g);
         weeklyActions := Goal.weeklyActions g;
         dailyHabits := Goal.dailyHabits g;
         routines := List.map routineEntry (Goal.routines g);
         resources := Goal.resources g;
         obstacles := Goal.obstacles g;
         successCriteria := Goal.successCriteria g |}
  | None =>
      {| title := "";
         description := "";
         domain := "personal";
         targetDate := "";
         milestones := [];
         metrics := [];
         weeklyActions := [""];
         dailyHabits := [""];
         routines := [];
         resources := [""];
         obstacles := [""];
         successCriteria := [""] |}
  end.

(** *** The editors of the list-valued cells, as updaters of the cell *)

(** [prev.filter((_, i) => keep(i))] from index [i] on *)
Fixpoint keepIndices {A} (keep : nat -> bool) (i : nat) (prev : list A) : list A :=
  match prev with
  | [] => []
  | x :: rest => (if keep i then [x] else []) ++ keepIndices keep (S i) rest
  end.

(** [prev => [...prev, '']] *)
Definition addArrayItem (prev : list string) : list string := prev ++ [""].

(** [prev => prev.map((item, i) => i === index ? value : item)] *)
Definition updateArrayItem (index : nat) (value : string) (prev : list string)
  : list string :=
  imap (fun i item => if Nat.eqb i index then value else item) prev.

(** [prev => prev.filter((_, i) => i !== index)]; [removeMilestone],
    [removeMetric] and [removeRoutine] are the same updater. *)
Definition removeArrayItem {A} (index : nat) (prev : list A) : list A :=
  keepIndices (fun i => negb (Nat.eqb i index)) 0 prev.

Definition withSteps (steps : list string) (r : RoutineEntry.t) : RoutineEntry.t :=
  {| RoutineEntry.name := RoutineEntry.name r;
     RoutineEntry.description := RoutineEntry.description r;
     RoutineEntry.frequency := RoutineEntry.frequency r;
     RoutineEntry.steps := steps |}.

Definition addRoutineStep (routineIndex : nat) (prev : list RoutineEntry.t)
  : list RoutineEntry.t :=
  imap (fun i r => if Nat.eqb i routineIndex
                   then withSteps (RoutineEntry.steps r ++ [""]) r else r) prev.

Definition updateRoutineStep (routineIndex stepIndex : nat) (value : string)
  (prev : list RoutineEntry.t) : list RoutineEntry.t :=
  imap (fun i r => if Nat.eqb i routineIndex
                   then withSteps (imap (fun si s => if Nat.eqb si stepIndex then value else s)
                                        (RoutineEntry.steps r)) r
                   else r) prev.

Definition removeRoutineStep (routineIndex stepIndex : nat)
  (prev : list RoutineEntry.t) : list RoutineEntry.t :=
  imap (fun i r => if Nat.eqb i routineIndex
                   then withSteps (keepIndices (fun si => negb (Nat.eqb si stepIndex)) 0
                                     (RoutineEntry.steps r)) r
                   else r) prev.

(** *** Submitting *)

(** The object [goalData] of [handleSubmit]. *)
Record Submission := {
  s_title : string;
  s_description : string;
  s_domain : string;
  s_status : string;
  s_targetDate : option Date;
  s_milestones : list Milestone.t;
  s_metrics : list Metric.t;
  s_weeklyActions : list string;
  s_dailyHabits : list string;
  s_routines : list Routine.t;
  s_resources : list string;
  s_obstacles : list string;
  s_successCriteria : list string
}.

(** [l.filter(x => x.trim() !== '')] *)
Definition nonBlank (l : list string) : list string :=
  List.filter (fun x => negb (String.eqb (trim x) "")) l.

Section WithPlatform.
Context `{Platform}.

Definition submitMilestone (m : MilestoneEntry.t) : Eff.t Milestone.t :=
  id <- Eff.randomUUID ;;
  Eff.ret {| Milestone.id := Dyn.ToString id;
             Milestone.title := MilestoneEntry.title m;
             Milestone.description := MilestoneEntry.description m;
             Milestone.targetDate := MilestoneEntry.targetDate m;
             Milestone.completed := false;
             Milestone.completedDate := None;
             Milestone.frequency := MilestoneEntry.frequency m |}.

Definition submitMetric (m : MetricEntry.t) : Eff.t Metric.t :=
  id <- Eff.randomUUID ;;
  Eff.ret {| Metric.id := Dyn.ToString id;
             Metric.name := MetricEntry.name m;
             Metric.type := MetricEntry.type m;
             Metric.target := MetricEntry.target m;
             Metric.current := MetricEntry.current m;
             Metric.unit := MetricEntry.unit m;
             Metric.frequency := MetricEntry.frequency m;
             Metric.history := [] |}.

Definition submitRoutine (r : RoutineEntry.t) : Eff.t Routine.t :=
  id <- Eff.randomUUID ;;
  Eff.ret {| Routine.id := Dyn.ToString id;
             Routine.name := RoutineEntry.name r;
             Routine.description := RoutineEntry.description r;
             Routine.frequency := RoutineEntry.frequency r;
             Routine.steps := RoutineEntry.steps r;
             Routine.lastCompleted := None;
             Routine.nextDue := None |}.

Definition goalData (f : State) : Eff.t Submission :=
  milestones <- Eff.mapM submitMilestone (milestones f) ;;
  metrics <- Eff.mapM submitMetric (metrics f) ;;
  routines <- Eff.mapM submitRoutine (routines f) ;;
  Eff.ret {| s_title := title f;
             s_description := description f;
             s_domain := domain f;
             s_status := "active";
             s_targetDate := match targetDate f with
                             | EmptyString => None
                             | day => Some (Date_parse (JStr day))
                             end;
             s_milestones := milestones;
             s_metrics := metrics;
             s_weeklyActions := nonBlank (weeklyActions f);
             s_dailyHabits := nonBlank (dailyHabits f);
             s_routines := routines;
             s_resources := nonBlank (resources f);
             s_obstacles := nonBlank (obstacles f);
             s_successCriteria := nonBlank (successCriteria f) |}.

(** What a write of [goalData] does to the fields of a document: the
    thirteen fields are replaced, except that a [targetDate] that is
    [undefined] is not written. *)
Definition merged (s : Submission) (d : Goal.t) : Goal.t :=
  Goal.mk (Goal.id d) (Goal.userId d) (s_title s) (s_description s) (s_domain s)
    (s_status s)
    (match s_targetDate s with
     | Some t => Some t
     | None => Goal.targetDate d
     end)
    (Goal.createdAt d) (Goal.updatedAt d) (s_milestones s) (s_metrics s)
    (s_weeklyActions s) (s_dailyHabits s) (s_routines s) (s_resources s)
    (s_obstacles s) (s_successCriteria s) (Goal.reflections d).

(** [{ ...goalData, userId: user.uid, createdAt: new Date(), updatedAt: new Date(),
       reflections: [] }] *)
Definition created (s : Submission) (u : User) (created updated : Z) : Goal.t :=
  Goal.mk "" (uid u) (s_title s) (s_description s) (s_domain s) (s_status s)
    (s_targetDate s) (DateMs created) (DateMs updated) (s_milestones s)
    (s_metrics s) (s_weeklyActions s) (s_dailyHabits s) (s_routines s)
    (s_resources s) (s_obstacles s) (s_successCriteria s) [].

(** [handleSubmit] of the form opened for a new goal: [onClose] hides the
    form once the document is added; a failed write is logged and the form
    stays. *)
Definition handleSubmitNew (f : State) (newId : string) (created_at updated_at : Z)
  (w : Firestore.WriteOutcome) (sc : GoalsList.Screen) (wd : World)
  : Eff.t (GoalsList.Screen * World) :=
  match GoalsList.user (GoalsList.listed sc) with
  | None => Eff.ret (sc, wd)
  | Some u =>
      s <- goalData f ;;
      match Firestore.addDoc newId (created s u created_at updated_at) w
              (goals_collection wd) with
      | Some goals' =>
          Eff.ret ({| GoalsList.listed := GoalsList.listed sc;
                      GoalsList.showCreateForm := false;
                      GoalsList.editingGoal := GoalsList.editingGoal sc;
                      GoalsList.showDeleteConfirm := GoalsList.showDeleteConfirm sc |},
                   {| goals_collection := goals'; console := console wd |})
      | None =>
          Eff.ret (sc, {| goals_collection := goals_collection wd;
                          console := console wd ++ ["Error saving goal:"] |})
      end
  end.

(** [handleSubmit] of the form opened on [initialData], with
    [handleEditGoal] as [onSubmit].  [handleEditGoal] catches the failure of
    its write, so [onClose], which clears [editingGoal], always runs. *)
Definition handleSubmitEdit (initialData : Goal.t) (f : State) (now : Z)
  (w : Firestore.WriteOutcome) (sc : GoalsList.Screen) (wd : World)
  : Eff.t (GoalsList.Screen * World) :=
  match GoalsList.user (GoalsList.listed sc) with
  | None => Eff.ret (sc, wd)
  | Some _ =>
      s <- goalData f ;;
      let r := GoalsList.handleEditGoal (Goal.id initialData) (merged s) now w sc wd in
      Eff.ret ({| GoalsList.listed := GoalsList.listed (fst r);
                  GoalsList.showCreateForm := GoalsList.showCreateForm (fst r);
                  GoalsList.editingGoal := None;
                  GoalsList.showDeleteConfirm := GoalsList.showDeleteConfirm (fst r) |},
               snd r)
  end.

End WithPlatform.
End GoalCreationForm.

(** ** NotificationBell *)

Module NotificationBell.
Import JS Types.

Record Notification := {
  id : string;
  type : string;
  title : string;
  message : string;
  date : Date;
  read : bool
}.

Record State := {
  user : option User;
  notifications : list Notification
}.

Definition quote : string := String (ascii_of_nat 34) EmptyString.

Definition week : Z := 7 * 24 * 60 * 60 * 1000.

(** [new Date(t)] for an integral [t]: [TimeClip] *)
Definition dateAt (t : Z) : Date :=
  if Z.abs t <=? 8640000000000000 then DateMs t else InvalidDate.

(** [(a, b) => b.date.getTime() - a.date.getTime()] is negative: [a] is
    the later of the two.  A difference with an invalid date is NaN, which
    [sort] treats as zero. *)
Definition later (a b : Notification) : bool :=
  match date a, date b with
  | DateMs x, DateMs y => y <? x
  | _, _ => false
  end.

(** [l.sort(compare)]: stable, the latest date first. *)
Fixpoint insert (x : Notification) (l : list Notification) : list Notification :=
  match l with
  | [] => [x]
  | y :: l' => if later y x then y :: insert x l' else x :: l
  end.

Definition sort (l : list Notification) : list Notification :=
  List.fold_right insert [] l.

Section WithPlatform.
Context `{Platform}.

Definition milestoneNotice (goal : Goal.t) (milestone : Milestone.t) : Notification :=
  {| id := "milestone-" +:+ Milestone.id milestone;
     type := "milestone";
     title := "Upcoming Milestone";
     message := quote +:+ Milestone.title milestone +:+ quote +:+ " for goal "
                +:+ quote +:+ Goal.title goal +:+ quote +:+ " is due on "
                +:+ toLocaleDateString (Milestone.targetDate milestone);
     date := Milestone.targetDate milestone;
     read := false |}.

Definition upcomingMilestones (weekFromNow : Date) (goal : Goal.t) : list Notification :=
  List.map (milestoneNotice goal)
    (List.filter (fun m => (negb (Milestone.completed m)
                            && Date_leb (Milestone.targetDate m) weekFromNow)%bool)
                 (Goal.milestones goal)).

Definition reviewNotice (now : Z) (goal : Goal.t) : Notification :=
  {| id := "review-" +:+ Goal.id goal;
     type := "review";
     title := "Review Needed";
     message := "It's time for a weekly review of your goal " +:+ quote
                +:+ Goal.title goal +:+ quote;
     date := DateMs now;
     read := false |}.

(** [goal.reflections[goal.reflections.length - 1]] decides: no reflection,
    or a last one older than a week. *)
Definition reviewNeeded (now : Z) (goal : Goal.t) : list Notification :=
  match List.last (List.map Some (Goal.reflections goal)) None with
  | None => [reviewNotice now goal]
  | Some lastReflection =>
      match Reflection.date lastReflection with
      | DateMs lastReviewTime =>
          if lastReviewTime + week <? now then [reviewNotice now goal] else []
      | InvalidDate => []
      end
  end.

Definition goalNotice (goal : Goal.t) (targetDate : Date) : Notification :=
  {| id := "goal-" +:+ Goal.id goal;
     type := "goal";
     title := "Goal Deadline Approaching";
     message := "Your goal " +:+ quote +:+ Goal.title goal +:+ quote
                +:+ " is due on " +:+ toLocaleDateString targetDate;
     date := targetDate;
     read := false |}.

Definition deadlineNear (weekFromNow : Date) (goal : Goal.t) : list Notification :=
  match Goal.targetDate goal with
  | Some targetDate =>
      if Date_leb targetDate weekFromNow then [goalNotice goal targetDate] else []
  | None => []
  end.

(** The documents of the signed-in user whose status is [active]. *)
Definition activeGoals (u : User) (r : Firestore.ReadOutcome) (wd : World)
  : option (list Goal.t) :=
  Firestore.getDocs
    (fun g => (String.eqb (Goal.userId g) (uid u) && String.eqb (Goal.status g) "active")%bool)
    r (goals_collection wd).

(** One poll at time [now].  The three passes push in source order and the
    result replaces the previous list; without a signed-in user, or when the
    read fails, the list is left as it was. *)
Definition checkNotifications (now : Z) (r : Firestore.ReadOutcome) (wd : World)
  (st : State) : State :=
  match user st with
  | None => st
  | Some u =>
      let weekFromNow := dateAt (now + week) in
      match activeGoals u r wd with
      | None => st
      | Some goals =>
          let newNotifications :=
            List.concat (List.map (upcomingMilestones weekFromNow) goals)
            ++ List.concat (List.map (reviewNeeded now) goals)
            ++ List.concat (List.map (deadlineNear weekFromNow) goals) in
          {| user := user st; notifications := sort newNotifications |}
      end
  end.

End WithPlatform.

(** [notifications.filter(n => !n.read).length], the number on the badge *)
Definition unreadCount (st : State) : nat :=
  length (List.filter (fun n => negb (read n)) (notifications st)).

End NotificationBell.

(** ** DomainOverview *)

Module DomainOverview.
Import JS Types.

(** The six cards of the overview, by domain id. *)
Definition domains : list string :=
  ["health"; "financial"; "family"; "personal"; "community"; "home"].

Record DomainStats := {
  totalGoals : nat;
  activeGoals : nat;
  completedGoals : nat;
  upcomingMilestones : nat
}.

(** The signed-in user, the statistics by domain id and the [loading]
    flag; the user document and the review dates it holds are edited by
    other handlers and are left out. *)
Record State := {
  user : option User;
  domainStats : gmap string DomainStats;
  loading : bool
}.

(** [a > b] on two dates: false when either side is invalid. *)
Definition Date_gtb (a b : Date) : bool :=
  match a, b with
  | DateMs x, DateMs y => y <? x
  | _, _ => false
  end.

(** [m => !m.completed && new Date(m.targetDate) > now
          && new Date(m.targetDate) <= new Date(now.getTime() + 7 * 24 * 60 * 60 * 1000)] *)
Definition upcoming (now : Z) (m : Milestone.t) : bool :=
  (negb (Milestone.completed m)
   && Date_gtb (Milestone.targetDate m) (DateMs now)
   && Date_leb (Milestone.targetDate m) (NotificationBell.dateAt (now + NotificationBell.week)))%bool.

(** The statistics of one domain, from the goals its query returned. *)
Definition tally (now : Z) (goals : list Goal.t) : DomainStats :=
  {| totalGoals := length goals;
     activeGoals := length (List.filter (fun g => String.eqb (Goal.status g) "active") goals);
     completedGoals :=
       length (List.filter (fun g => String.eqb (Goal.status g) "completed") goals);
     upcomingMilestones :=
       List.fold_left
         (fun count goal =>
            (count + length (List.filter (upcoming now) (Goal.milestones goal)))%nat)
         goals 0%nat |}.

(** The goals of the user in one domain. *)
Definition domainGoals (u : User) (id : string) (r : Firestore.ReadOutcome) (wd : World)
  : option (list Goal.t) :=
  Firestore.getDocs
    (fun g => (String.eqb (Goal.userId g) (uid u) && String.eqb (Goal.domain g) id)%bool)
    r (goals_collection wd).

(** The loop over the cards: one query and one clock reading per card,
    given by domain id; the first query that fails ends the loop. *)
Fixpoint gather (u : User) (read : string -> Firestore.ReadOutcome) (clock : string -> Z)
  (wd : World) (cards : list string) (stats : gmap string DomainStats)
  : option (gmap string DomainStats) :=
  match cards with
  | [] => Some stats
  | id :: rest =>
      match domainGoals u id (read id) wd with
      | Some goals => gather u read clock wd rest (<[id := tally (clock id) goals]> stats)
      | None => None
      end
  end.

(** The effect that loads the overview.  [profile] is the outcome of
    reading the user document; the store is the same for the six queries.
    Any failed read is logged and leaves the statistics as they were. *)
Definition fetchData (profile : Firestore.ReadOutcome)
  (read : string -> Firestore.ReadOutcome) (clock : string -> Z)
  (st : State) (wd : World) : State * World :=
  match user st with
  | None => (st, wd)
  | Some u =>
      let failed :=
        ({| user := user st; domainStats := domainStats st; loading := false |},
         {| goals_collection := goals_collection wd;
            console := console wd ++ ["Error fetching data:"%string] |}) in
      match profile with
      | Firestore.Failed => failed
      | Firestore.Delivered =>
          match gather u read clock wd domains ∅ with
          | Some stats =>
              ({| user := user st; domainStats := stats; loading := false |}, wd)
          | None => failed
          end
      end
  end.

(** What the six cards show, in order:
    [domains.map(({ id, ... }) => { const stats = domainStats[id] || { totalGoals: 0, ... }; ... })].
    The lookup is made at the six card ids only; none of them names a
    property that an object inherits, so [domainStats[id]] is the entry that
    was stored under [id], or [undefined]. *)
Definition cards (st : State) : list (string * DomainStats) :=
  List.map
    (fun id =>
       (id,
        match domainStats st !! id with
        | Some stats => stats
        | None => {| totalGoals := 0; activeGoals := 0; completedGoals := 0;
                     upcomingMilestones := 0 |}
        end))
    domains.

End DomainOverview.

(** ** Fresh identifiers *)

Module Fresh.
Import JS.

(** [l.map(x => g(crypto.randomUUID(), x))] when the first draw is number
    [n]: the [i]-th element receives draw [n + i]. *)
Fixpoint numbered `{Platform} {A B} (g : value -> A -> B) (n : nat) (l : list A)
  : list B :=
  match l with
  | [] => []
  | x :: l' => g (JStr (uuid n)) x :: numbered g (S n) l'
  end.

(** The identifiers of draws [from], ..., [from + count - 1]. *)
Definition draws `{Platform} (from count : nat) : list value :=
  List.map (fun k => JStr (uuid k)) (seq from count).

End Fresh.

(** ** Shapes of extraction replies

    [transform] reads three structured collections with [.map] and their
    elements with a property access; these are the only places where it can
    throw. *)

Module Shape.
Import JS.

Definition nullish (v : value) : bool :=
  match v with
  | JUndefined | JNull => true
  | _ => false
  end.

(** The element is not [null]. *)
Definition present (m : value) : bool := negb (nullish m).

(** [(raw || []).map(m => m.k ...)] completes: [raw] is falsy, or an array
    none of whose elements is [null]. *)
Definition mappable (raw : value) : bool :=
  match JS.or raw (JArr []) with
  | JArr l => forallb (fun m => negb (nullish m)) l
  | _ => false
  end.

(** [new Date(raw)] is not evaluated, or completes. *)
Definition datable (raw : value) : bool :=
  (negb (truthy raw) || Dyn.stringifies raw)%bool.

(** [extractMilestone] completes on [m]: [m] is not [null] and
    [new Date(m.targetDate)] completes. *)
Definition dated (m : value) : bool :=
  (negb (nullish m) && Dyn.stringifies (Dyn.prop m "targetDate"))%bool.

(** The elements [(raw || []).map] runs over *)
Definition items (raw : value) : list value :=
  match JS.or raw (JArr []) with
  | JArr l => l
  | _ => []
  end.

(** [transform] completes: the reply is not [null], its [targetDate] is
    falsy or converts to a date, [milestones] is falsy or an array of
    elements on which [extractMilestone] completes, and [metrics] and
    [routines] are falsy or arrays without [null]. *)
Definition accepted (parsedData : value) : bool :=
  (negb (nullish parsedData)
   && datable (Dyn.prop parsedData "targetDate")
   && mappable (Dyn.prop parsedData "milestones")
   && forallb dated (items (Dyn.prop parsedData "milestones"))
   && mappable (Dyn.prop parsedData "metrics")
   && mappable (Dyn.prop parsedData "routines"))%bool.

(** The field [k] is a string that is not empty once trimmed. *)
Definition nonBlank (parsedData : value) (k : string) : bool :=
  match Dyn.prop parsedData k with
  | JStr s => negb (String.eqb (trim s) "")
  | _ => false
  end.

Section WithPlatform.
Context `{Platform}.

(** What [extractMilestone], [extractMetric] and [extractRoutine] return on
    an element that is not [null], given the identifier drawn. *)
Definition milestoneOf (id m : value) : Draft.Milestone.t :=
  {| Draft.Milestone.id := id;
     Draft.Milestone.title := Dyn.prop m "title";
     Draft.Milestone.description := Dyn.prop m "description";
     Draft.Milestone.targetDate := Dyn.dateOf (Dyn.prop m "targetDate");
     Draft.Milestone.completed := JBool false;
     Draft.Milestone.frequency := JS.or (Dyn.prop m "frequency") (JStr "once") |}.

Definition metricOf (id m : value) : Draft.Metric.t :=
  {| Draft.Metric.id := id;
     Draft.Metric.name := Dyn.prop m "name";
     Draft.Metric.type := Dyn.prop m "type";
     Draft.Metric.target := Dyn.prop m "target";
     Draft.Metric.current := JNum (S754_zero false);
     Draft.Metric.unit := Dyn.prop m "unit";
     Draft.Metric.frequency := Dyn.prop m "frequency";
     Draft.Metric.history := JArr [] |}.

Definition routineOf (id r : value) : Draft.Routine.t :=
  {| Draft.Routine.id := id;
     Draft.Routine.name := Dyn.prop r "name";
     Draft.Routine.description := Dyn.prop r "description";
     Draft.Routine.frequency := Dyn.prop r "frequency";
     Draft.Routine.steps := Dyn.prop r "steps";
     Draft.Routine.lastCompleted := JNull;
     Draft.Routine.nextDue := JNull |}.

(** The draft [transform] builds from an accepted reply when the first
    identifier it draws is number [n]. *)
Definition transformed (parsedData : value) (n : nat) : Draft.Goal.t :=
  let ms := items (Dyn.prop parsedData "milestones") in
  let mt := items (Dyn.prop parsedData "metrics") in
  let rt := items (Dyn.prop parsedData "routines") in
  {| Draft.Goal.title := Dyn.prop parsedData "title";
     Draft.Goal.description := Dyn.prop parsedData "description";
     Draft.Goal.domain := Dyn.prop parsedData "domain";
     Draft.Goal.targetDate :=
       if truthy (Dyn.prop parsedData "targetDate")
       then Dyn.dateOf (Dyn.prop parsedData "targetDate") else JUndefined;
     Draft.Goal.status := JStr "active";
     Draft.Goal.milestones := Some (Fresh.numbered milestoneOf n ms);
     Draft.Goal.metrics := Some (Fresh.numbered metricOf (n + length ms) mt);
     Draft.Goal.weeklyActions := JS.or (Dyn.prop parsedData "weeklyActions") (JArr []);
     Draft.Goal.dailyHabits := JS.or (Dyn.prop parsedData "dailyHabits") (JArr []);
     Draft.Goal.routines :=
       Some (Fresh.numbered routineOf (n + length ms + length mt) rt);
     Draft.Goal.resources := JS.or (Dyn.prop parsedData "resources") (JArr []);
     Draft.Goal.obstacles := JS.or (Dyn.prop parsedData "obstacles") (JArr []);
     Draft.Goal.successCriteria := JS.or (Dyn.prop parsedData "successCriteria") (JArr []);
     Draft.Goal.reflections := JArr [] |}.

End WithPlatform.
End Shape.

(** ** Outcomes of a write from the goal-detail view *)

Module Persist.
Import Types.

(** Whether a write to document [gid] lands. *)
Definition lands (w : Firestore.WriteOutcome) (gid : string) (wd : World) : bool :=
  match w, goals_collection wd !! gid with
  | Firestore.Accepted, Some _ => true
  | _, _ => false
  end.

(** What a mutation leaves behind, given the record [local] it shows once
    the write has landed and the [error] it logs otherwise. *)
Definition settled (local : Goal.t) (error : string) (w : Firestore.WriteOutcome)
  (st : GoalDetails.State) (wd : World) (r : GoalDetails.State * World) : Prop :=
  if lands w (GoalDetails.goalId st) wd
  then GoalDetails.goal (fst r) = Some local /\ console (snd r) = console wd
  else fst r = st
       /\ goals_collection (snd r) = goals_collection wd
       /\ console (snd r) = console wd ++ [error].

End Persist.

(** ** Notifications in time *)

Module Timeline.
Import JS.

(** The time value of a notification's date, 0 for an invalid date. *)
Definition stamp (n : NotificationBell.Notification) : Z :=
  match NotificationBell.date n with
  | DateMs t => t
  | InvalidDate => 0
  end.

Definition dated (n : NotificationBell.Notification) : Prop :=
  exists t, NotificationBell.date n = DateMs t.

End Timeline.

(** ** What the guided questionnaire has collected

    [filled step g]: the draft [g] holds what the questions before [step]
    ask for, and no success criteria yet.  [inv st]: the dialog is at one
    of the twelve questions; while it is open nothing was handed over and
    the draft is filled up to the current question; a goal that was handed
    over is filled up to the last question, and the draft then holds the
    success criteria it lacks. *)

Module Guided.
Import JS.

Definition filled (step : Z) (g : Draft.Goal.t) : Prop :=
  (2 <= step -> exists tag, In tag AIGoalCreation.domains /\ Draft.Goal.domain g = JStr tag)
  /\ (3 <= step -> exists s, Draft.Goal.title g = JStr s /\ trim s <> EmptyString)
  /\ (4 <= step -> exists s, Draft.Goal.description g = JStr s /\ trim s <> EmptyString)
  /\ (5 <= step -> exists d, Draft.Goal.targetDate g = JDate d)
  /\ Draft.Goal.successCriteria g = JArr [].

Definition inv (st : AIGoalCreation.State) : Prop :=
  1 <= AIGoalCreation.currentStep st <= 12
  /\ match AIGoalCreation.created st with
     | Some g =>
         AIGoalCreation.closed st = true
         /\ filled 12 g
         /\ Draft.Goal.successCriteria (AIGoalCreation.goalData st) <> JArr []
     | None =>
         AIGoalCreation.closed st = false ->
         filled (AIGoalCreation.currentStep st) (AIGoalCreation.goalData st)
     end.

End Guided.

(** ** The real number behind a Number *)

Module Binary64.

(** The value of a positive finite Number with mantissa [m] and exponent [e]. *)
Definition F2R (m : positive) (e : Z) : R := (IZR (Z.pos m) * powerRZ 2 e)%R.

End Binary64.

(** ** Concrete data used to exercise the statements *)

Module Sample.
Import JS Types.

Fixpoint tally (n : nat) : string :=
  match n with
  | O => EmptyString
  | S k => String "i" (tally k)
  end.

#[local] Instance platform : Platform :=
  {| uuid := fun n => "uuid-" +:+ tally n;
     Date_parse := fun _ => InvalidDate;
     parseInt := fun _ => S754_nan;
     Date_plusMonths := fun now _ => DateMs (now + 7776000000);
     Date_plusYears := fun now _ => DateMs (now + 31536000000);
     toLocaleDateString := fun _ => "1/1/2027";
     Value_toString := fun _ => "[object Object]" |}.

Definition milestone (id : string) (done : bool) (due : Z) : Milestone.t :=
  {| Milestone.id := id;
     Milestone.title := "Run 1k";
     Milestone.description := None;
     Milestone.targetDate := DateMs due;
     Milestone.completed := done;
     Milestone.completedDate := None;
     Milestone.frequency := Some "once" |}.

Definition metric : Metric.t :=
  {| Metric.id := "k1";
     Metric.name := "Weekly distance";
     Metric.type := "number";
     Metric.target := VNumber (Number_of_Z 20);
     Metric.current := VNumber (Number_of_Z 5);
     Metric.unit := Some "km";
     Metric.frequency := Some "weekly";
     Metric.history := [(DateMs 1700000000000, VNumber (Number_of_Z 5))] |}.

Definition goal : Goal.t :=
  {| Goal.id := "g1";
     Goal.userId := "u1";
     Goal.title := "Run 5k";
     Goal.description := "x";
     Goal.domain := "health";
     Goal.status := "active";
     Goal.targetDate := Some (DateMs 1800000000000);
     Goal.createdAt := DateMs 1700000000000;
     Goal.updatedAt := DateMs 1700000000000;
     Goal.milestones :=
       [milestone "m1" true 1790000300000; milestone "m2" false 1790000400000;
        milestone "m3" false 1795000000000];
     Goal.metrics := [metric];
     Goal.weeklyActions := [];
     Goal.dailyHabits := [];
     Goal.routines := [];
     Goal.resources := [];
     Goal.obstacles := [];
     Goal.successCriteria := [];
     Goal.reflections := [] |}.

Definition world : World :=
  {| goals_collection := {[ "g1" := goal ]}; console := [] |}.

Definition details : GoalDetails.State :=
  {| GoalDetails.user := Some {| uid := "u1" |};
     GoalDetails.goalId := "g1";
     GoalDetails.goal := Some goal |}.

Definition bell : NotificationBell.State :=
  {| NotificationBell.user := Some {| uid := "u1" |};
     NotificationBell.notifications := [] |}.

(** [{"title":"Run 5k","milestones":[{"title":"Run 1k","targetDate":"2026-12-01"}],"weeklyActions":["Stretch"]}] *)
Definition firstReply : value :=
  JObj [("title", JStr "Run 5k");
        ("milestones",
         JArr [JObj [("title", JStr "Run 1k"); ("targetDate", JStr "2026-12-01")]]);
        ("weeklyActions", JArr [JStr "Stretch"])].

(** [{"title":"Run 5k","description":"x","domain":"health"}] *)
Definition complete : value :=
  JObj [("title", JStr "Run 5k"); ("description", JStr "x"); ("domain", JStr "health")].

(** [{"title":"Run 5k","description":"x"}] *)
Definition withoutDomain : value :=
  JObj [("title", JStr "Run 5k"); ("description", JStr "x")].

(** [{"title":"Run 5k","description":"x","domain":"health","milestones":"soon"}] *)
Definition milestonesAsText : value :=
  JObj [("title", JStr "Run 5k"); ("description", JStr "x"); ("domain", JStr "health");
        ("milestones", JStr "soon")].

(** [{"title":"Run 5k","description":"x","domain":"health","targetDate":{"toString":1}}] *)
Definition dateAsObject : value :=
  JObj [("title", JStr "Run 5k"); ("description", JStr "x"); ("domain", JStr "health");
        ("targetDate", JObj [("toString", JNum (Number_of_Z 1))])].

(** [{"title":"Run 5k","description":"x","domain":"health","milestones":[{"title":"Run 1k","targetDate":[{"toString":1}]}]}] *)
Definition milestoneDateAsObject : value :=
  JObj [("title", JStr "Run 5k"); ("description", JStr "x"); ("domain", JStr "health");
        ("milestones",
         JArr [JObj [("title", JStr "Run 1k");
                     ("targetDate", JArr [JObj [("toString", JNum (Number_of_Z 1))]])]])].

(** The guided flow at a given step, with an answer typed in. *)
Definition guided (step : Z) (gd : Draft.Goal.t) (answer : string)
  : AIGoalCreation.State :=
  {| AIGoalCreation.messages := AIGoalCreation.messages AIGoalCreation.initialState;
     AIGoalCreation.input := answer;
     AIGoalCreation.currentStep := step;
     AIGoalCreation.suggestions := [];
     AIGoalCreation.goalData := gd;
     AIGoalCreation.created := None;
     AIGoalCreation.closed := false |}.

#[local] Instance calendar : Calendar := {| isoDay := fun _ => "2027-01-15"%string |}.

Definition screen : GoalsList.Screen :=
  {| GoalsList.listed := {| GoalsList.user := Some {| uid := "u1" |};
                            GoalsList.goals := [Goal.set_id "g1" goal] |};
     GoalsList.showCreateForm := true;
     GoalsList.editingGoal := Some (Goal.set_id "g1" goal);
     GoalsList.showDeleteConfirm := Some "g1"%string |}.

(** The manual form with one milestone, one metric and a blank weekly action. *)
Definition form : GoalCreationForm.State :=
  {| GoalCreationForm.title := "Run 5k";
     GoalCreationForm.description := "x";
     GoalCreationForm.domain := "health";
     GoalCreationForm.targetDate := "";
     GoalCreationForm.milestones :=
       [ {| GoalCreationForm.MilestoneEntry.title := "Run 1k";
            GoalCreationForm.MilestoneEntry.description := None;
            GoalCreationForm.MilestoneEntry.targetDate := DateMs 1790000400000;
            GoalCreationForm.MilestoneEntry.frequency := Some "once"%string |} ];
     GoalCreationForm.metrics := [GoalCreationForm.metricEntry metric];
     GoalCreationForm.weeklyActions := ["Stretch"; "  "]%string;
     GoalCreationForm.dailyHabits := [""%string];
     GoalCreationForm.routines := [];
     GoalCreationForm.resources := [""%string];
     GoalCreationForm.obstacles := [""%string];
     GoalCreationForm.successCriteria := [""%string] |}.

(** A pasted transcript: three lines that say something, one blank. *)
Definition panel : FreeformAIChat.Panel :=
  {| FreeformAIChat.chat := FreeformAIChat.initialState;
     FreeformAIChat.editMode := false;
     FreeformAIChat.showTranscriptInput := true;
     FreeformAIChat.transcript :=
       String.concat (String (ascii_of_nat 10) EmptyString)
         ["What would you like to achieve?"; "  I want to run 5k "; ""; "By when?"]%string;
     FreeformAIChat.created := None;
     FreeformAIChat.closed := false |}.

(** Twelve answers to the guided questions. *)
Definition answers : list AIGoalCreation.Event :=
  List.concat
    (List.map (fun a => [AIGoalCreation.Typed a;
                         AIGoalCreation.Sent (OpenAI.ChatOk [Some "Good."%string])
                                             1790000000000])
       ["Health"; "Run 5k"; "To feel better"; "6 months"; "Run 1k, Run 3k";
        "Distance: 5, Pace"; "Run twice"; "Stretch"; "Warm up, Run"; "Shoes";
        "Rain"; "Finish a 5k race"]%string).

Definition overview : DomainOverview.State :=
  {| DomainOverview.user := Some {| uid := "u1" |};
     DomainOverview.domainStats := ∅;
     DomainOverview.loading := true |}.

(** A goal in the domain that has no card. *)
Definition atWork : Goal.t :=
  Goal.mk "" "u1" "Ship the release" "x" "work" "active" None
    (DateMs 1700000000000) (DateMs 1700000000000) [] [] [] [] [] [] [] [] [].

End Sample.

Import JS Types.

(** * Properties

    ** Milestone toggles and the store *)

Section MilestoneToggle.
Variables (milestoneId : string) (completed : bool) (now : Z).

Lemma toggled_length ms :
  length (GoalDetails.toggledMilestones milestoneId completed now ms) = length ms.
Proof. apply List.length_map. Qed.

Lemma toggled_ids ms :
  List.map Milestone.id (GoalDetails.toggledMilestones milestoneId completed now ms)
  = List.map Milestone.id ms.
Proof.
  unfold GoalDetails.toggledMilestones. rewrite List.map_map.
  apply List.map_ext. intros m. destruct (String.eqb _ _); reflexivity.
Qed.

Lemma toggled_nth ms i :
  nth_error (GoalDetails.toggledMilestones milestoneId completed now ms) i
  = option_map (fun m => if String.eqb (Milestone.id m) milestoneId
                         then GoalDetails.setCompleted completed now m else m)
               (nth_error ms i).
Proof. apply nth_error_map. Qed.

Lemma toggled_absent ms :
  (forall m, In m ms -> Milestone.id m <> milestoneId) ->
  GoalDetails.toggledMilestones milestoneId completed now ms = ms.
Proof.
  intros Hno. unfold GoalDetails.toggledMilestones.
  induction ms as [|m ms IH]; simpl; [reflexivity|].
  destruct (String.eqb_spec (Milestone.id m) milestoneId) as [E|_].
  - exfalso. apply (Hno m); [now left | exact E].
  - f_equal. apply IH. intros m' Hin. apply Hno. now right.
Qed.
End MilestoneToggle.

Lemma persistThen_cases fields local error w st wd :
  match w, goals_collection wd !! GoalDetails.goalId st with
  | Firestore.Accepted, Some d =>
      GoalDetails.persistThen fields local error w st wd
      = (GoalDetails.set_goal local st,
         {| goals_collection := <[GoalDetails.goalId st := fields d]> (goals_collection wd);
            console := console wd |})
  | _, _ =>
      GoalDetails.persistThen fields local error w st wd
      = (st, {| goals_collection := goals_collection wd;
                console := console wd ++ [error] |})
  end.
Proof.
  unfold GoalDetails.persistThen, Firestore.updateDoc.
  destruct w; destruct (goals_collection wd !! GoalDetails.goalId st); reflexivity.
Qed.

Ltac case_write :=
  match goal with
  | |- context [Firestore.updateDoc ?a ?b ?c ?d] => destruct (Firestore.updateDoc a b c d)
  end.

(** What a merge of [milestones] and [updatedAt] does to the collection:
    every document keeps its other fields, and only the document written
    to can differ at all. *)
Lemma updateDoc_frame goalId ms' t w (goals : gmap string Goal.t) :
  let goals' :=
    match Firestore.updateDoc goalId
            (fun d => Goal.set_updatedAt t (Goal.set_milestones ms' d)) w goals with
    | Some goals' => goals'
    | None => goals
    end in
  forall k d, goals !! k = Some d ->
    exists d', goals' !! k = Some d'
      /\ Goal.besidesMilestones d' = Goal.besidesMilestones d
      /\ (d' = d \/ (k = goalId /\ Goal.milestones d' = ms')).
Proof.
  intros goals' k d Hk. subst goals'. unfold Firestore.updateDoc.
  destruct w; [|eauto].
  destruct (goals !! goalId) as [d0|] eqn:E0; [|eauto].
  destruct (decide (goalId = k)) as [->|Hne].
  - rewrite lookup_insert_eq. rewrite Hk in E0. inversion E0; subst d0.
    eexists; split; [reflexivity|]. split; [reflexivity|]. right. split; reflexivity.
  - rewrite lookup_insert_ne by exact Hne. eauto.
Qed.

(** C10: toggling a milestone keeps the length and the order of the list,
    leaves every milestone with another id as it is, changes only
    [completed] and [completedDate] of a milestone with the given id, and
    returns the list itself when no milestone has that id.  In the detail
    view the local goal keeps every field but [milestones] (and
    [updatedAt], which it does not touch); in the store, here and in the
    list view, every document keeps every field but [milestones] and
    [updatedAt], and only the document written to can differ. *)
Theorem C10_toggle_changes_only_the_named_milestone
  (milestoneId : string) (completed : bool) (now : Z) (goal : Goal.t) :
  let ms := Goal.milestones goal in
  let ms' := GoalDetails.toggledMilestones milestoneId completed now ms in
  (length ms' = length ms /\ List.map Milestone.id ms' = List.map Milestone.id ms)
  /\ (forall i m, nth_error ms i = Some m ->
        if String.eqb (Milestone.id m) milestoneId
        then exists m', nth_error ms' i = Some m'
             /\ Milestone.completed m' = completed
             /\ Milestone.completedDate m' = (if completed then Some (DateMs now) else None)
             /\ Milestone.id m' = Milestone.id m
             /\ Milestone.title m' = Milestone.title m
             /\ Milestone.description m' = Milestone.description m
             /\ Milestone.targetDate m' = Milestone.targetDate m
             /\ Milestone.frequency m' = Milestone.frequency m
        else nth_error ms' i = Some m)
  /\ ((forall m, In m ms -> Milestone.id m <> milestoneId) -> ms' = ms)
  /\ (forall w u gid wd,
        let st := {| GoalDetails.user := Some u; GoalDetails.goalId := gid;
                     GoalDetails.goal := Some goal |} in
        let r := GoalDetails.toggleMilestone milestoneId completed now w st wd in
        (exists g', GoalDetails.goal (fst r) = Some g'
           /\ (g' = goal \/ Goal.milestones g' = ms')
           /\ Goal.besidesMilestones g' = Goal.besidesMilestones goal
           /\ Goal.updatedAt g' = Goal.updatedAt goal)
        /\ (forall k d, goals_collection wd !! k = Some d ->
              exists d', goals_collection (snd r) !! k = Some d'
                /\ Goal.besidesMilestones d' = Goal.besidesMilestones d
                /\ (d' = d \/ (k = gid /\ Goal.milestones d' = ms'))))
  /\ (forall w u goalId gs wd,
        List.find (fun g => String.eqb (Goal.id g) goalId) gs = Some goal ->
        let st := {| GoalsList.user := Some u; GoalsList.goals := gs |} in
        let r := GoalsList.handleToggleMilestone goalId milestoneId completed now w st wd in
        fst r = st
        /\ (forall k d, goals_collection wd !! k = Some d ->
              exists d', goals_collection (snd r) !! k = Some d'
                /\ Goal.besidesMilestones d' = Goal.besidesMilestones d
                /\ (d' = d \/ (k = goalId /\ Goal.milestones d' = ms')))).
Proof.
  intros ms ms'.
  split; [split; [apply toggled_length | apply toggled_ids]|].
  split.
  { intros i m Hi. subst ms'. rewrite toggled_nth, Hi. simpl.
    destruct (String.eqb (Milestone.id m) milestoneId); [|reflexivity].
    eexists; split; [reflexivity|]. simpl. repeat split; reflexivity. }
  split; [apply toggled_absent|].
  split.
  - intros w u gid wd st r. subst st r.
    unfold GoalDetails.toggleMilestone, GoalDetails.persistThen.
    cbn [GoalDetails.user GoalDetails.goal GoalDetails.goalId]. fold ms ms'.
    split.
    + case_write; cbn [fst GoalDetails.goal GoalDetails.set_goal].
      * exists (Goal.set_milestones ms' goal). repeat split. now right.
      * exists goal. repeat split. now left.
    + intros k d Hk.
      pose proof (updateDoc_frame gid ms' (DateMs now) w (goals_collection wd) k d Hk) as F.
      cbv zeta in F. revert F.
      case_write; cbn [snd goals_collection]; exact (fun F => F).
  - intros w u goalId gs wd Hfind st r. subst st r.
    unfold GoalsList.handleToggleMilestone.
    cbn [GoalsList.user GoalsList.goals]. rewrite Hfind. fold ms ms'.
    split.
    + case_write; reflexivity.
    + intros k d Hk.
      pose proof (updateDoc_frame goalId ms' (DateMs now) w (goals_collection wd) k d Hk) as F.
      cbv zeta in F. revert F.
      case_write; cbn [snd goals_collection]; exact (fun F => F).
Qed.

(** ** Writes from the goal-detail view *)

Lemma updated_nth metricId value now ms i :
  nth_error (GoalDetails.updatedMetrics metricId value now ms) i
  = option_map (fun m => if String.eqb (Metric.id m) metricId
                         then GoalDetails.withSample value now m else m)
               (nth_error ms i).
Proof. apply nth_error_map. Qed.

Lemma persistThen_landed fields local error w st wd :
  Persist.lands w (GoalDetails.goalId st) wd = true ->
  exists d, goals_collection wd !! GoalDetails.goalId st = Some d
    /\ GoalDetails.persistThen fields local error w st wd
       = (GoalDetails.set_goal local st,
          {| goals_collection := <[GoalDetails.goalId st := fields d]> (goals_collection wd);
             console := console wd |}).
Proof.
  unfold Persist.lands. intros L. pose proof (persistThen_cases fields local error w st wd) as C.
  destruct w; [|discriminate].
  destruct (goals_collection wd !! GoalDetails.goalId st) as [d|]; [|discriminate].
  exists d. split; [reflexivity | exact C].
Qed.

Lemma persistThen_lost fields local error w st wd :
  Persist.lands w (GoalDetails.goalId st) wd = false ->
  GoalDetails.persistThen fields local error w st wd
  = (st, {| goals_collection := goals_collection wd; console := console wd ++ [error] |}).
Proof.
  unfold Persist.lands. intros L. pose proof (persistThen_cases fields local error w st wd) as C.
  destruct w; [|exact C].
  destruct (goals_collection wd !! GoalDetails.goalId st) as [d|]; [discriminate | exact C].
Qed.

Lemma persistThen_settled fields local error w st wd :
  Persist.settled local error w st wd (GoalDetails.persistThen fields local error w st wd).
Proof.
  unfold Persist.settled. destruct (Persist.lands w (GoalDetails.goalId st) wd) eqn:L.
  - destruct (persistThen_landed fields local error w st wd L) as (d & _ & ->).
    split; reflexivity.
  - rewrite (persistThen_lost fields local error w st wd L). repeat split.
Qed.

(** C5, as amended: each of the four goal-detail mutations changes the
    local goal only once the write has landed; when the write is rejected
    (or the document is missing) the local state and the store are left as
    they were and the error is logged. *)
Theorem C5_local_state_changes_only_after_the_write
  (u : User) (gid : string) (goal : Goal.t) (wd : World)
  (w : Firestore.WriteOutcome) (now : Z) :
  let st := {| GoalDetails.user := Some u; GoalDetails.goalId := gid;
               GoalDetails.goal := Some goal |} in
  (forall status,
      Persist.settled (Goal.set_status status goal) "Error updating goal status:" w st wd
        (GoalDetails.updateGoalStatus status now w st wd))
  /\ (forall milestoneId completed,
        Persist.settled (Goal.set_milestones
                   (GoalDetails.toggledMilestones milestoneId completed now
                      (Goal.milestones goal)) goal)
          "Error updating milestone:" w st wd
          (GoalDetails.toggleMilestone milestoneId completed now w st wd))
  /\ (forall metricId value,
        Persist.settled (Goal.set_metrics
                   (GoalDetails.updatedMetrics metricId value now (Goal.metrics goal)) goal)
          "Error updating metric:" w st wd
          (GoalDetails.updateMetric metricId value now w st wd))
  /\ (forall (P : Platform) reflection n,
        exists r,
          GoalDetails.addReflection reflection now w st wd n = (Eff.Normal r, S n)
          /\ Persist.settled (Goal.set_reflections
                        (Goal.reflections goal
                         ++ [GoalDetails.newReflection (uuid n) u reflection]) goal)
               "Error adding reflection:" w st wd r).
Proof.
  intros st. repeat split; intros; try apply persistThen_settled.
  unfold GoalDetails.addReflection, st.
  cbn [GoalDetails.user GoalDetails.goal]. unfold Eff.bind, Eff.randomUUID, Eff.ret.
  eexists. split; [reflexivity|].
  apply persistThen_settled.
Qed.

(** C5 as stated fails: after a rejected write of status [completed] the
    local goal does not show that status. *)
Lemma C5_rejected_write_is_not_shown :
  option_map Goal.status
    (GoalDetails.goal
       (fst (GoalDetails.updateGoalStatus "completed" 1790000000000
               Firestore.Rejected Sample.details Sample.world)))
  <> Some "completed"%string.
Proof. vm_compute. discriminate. Qed.

(** C7, as amended: the list that [updateMetric] builds gives every metric
    with the given id the old history followed by the one sample
    [(now, value)] and the new current value, with its other fields
    unchanged, and leaves the other metrics as they are; once the write has
    landed this list is the local goal's and the document's; when the write
    is rejected (or the document is missing) no sample is appended, the
    state and the store are as they were and the error is logged. *)
Theorem C7_metric_update_appends_one_sample
  (metricId : string) (value : MetricValue) (now : Z) (goal : Goal.t) :
  let ms := Goal.metrics goal in
  let ms' := GoalDetails.updatedMetrics metricId value now ms in
  length ms' = length ms
  /\ (forall i m, nth_error ms i = Some m ->
        if String.eqb (Metric.id m) metricId
        then exists m', nth_error ms' i = Some m'
             /\ Metric.history m' = Metric.history m ++ [(DateMs now, value)]
             /\ Metric.current m' = value
             /\ Metric.id m' = Metric.id m
             /\ Metric.name m' = Metric.name m
             /\ Metric.type m' = Metric.type m
             /\ Metric.target m' = Metric.target m
             /\ Metric.unit m' = Metric.unit m
             /\ Metric.frequency m' = Metric.frequency m
        else nth_error ms' i = Some m)
  /\ (forall w u gid wd,
        let st := {| GoalDetails.user := Some u; GoalDetails.goalId := gid;
                     GoalDetails.goal := Some goal |} in
        let r := GoalDetails.updateMetric metricId value now w st wd in
        if Persist.lands w gid wd
        then GoalDetails.goal (fst r) = Some (Goal.set_metrics ms' goal)
             /\ option_map Goal.metrics (goals_collection (snd r) !! gid) = Some ms'
        else r = (st, {| goals_collection := goals_collection wd;
                         console := console wd ++ ["Error updating metric:"] |})).
Proof.
  intros ms ms'. split; [apply List.length_map|]. split.
  - intros i m Hi. subst ms'. rewrite updated_nth, Hi. simpl.
    destruct (String.eqb (Metric.id m) metricId); [|reflexivity].
    eexists; split; [reflexivity|]. simpl. repeat split; reflexivity.
  - intros w u gid wd st r. subst st r. unfold GoalDetails.updateMetric.
    cbn [GoalDetails.user GoalDetails.goal]. fold ms ms'.
    destruct (Persist.lands w gid wd) eqn:L.
    + match goal with |- context [GoalDetails.persistThen ?f ?l ?e ?w ?s ?d] =>
        destruct (persistThen_landed f l e w s d L) as (d0 & Hd & ->) end.
      split; [reflexivity|]. cbn [snd goals_collection GoalDetails.goalId].
      rewrite lookup_insert_eq. reflexivity.
    + match goal with |- context [GoalDetails.persistThen ?f ?l ?e ?w ?s ?d] =>
        rewrite (persistThen_lost f l e w s d L) end.
      reflexivity.
Qed.

(** C7 as stated fails: after a rejected write of the value 8 the metric
    [k1] of the sample goal keeps its history of one entry and its current
    value 5, in the local goal and in the document. *)
Lemma C7_rejected_update_appends_nothing :
  let value := VNumber (Number_of_Z 8) in
  let r := GoalDetails.updateMetric "k1" value 1790000000000 Firestore.Rejected
             Sample.details Sample.world in
  option_map Goal.metrics (GoalDetails.goal (fst r)) = Some [Sample.metric]
  /\ option_map Goal.metrics (goals_collection (snd r) !! "g1"%string) = Some [Sample.metric]
  /\ Metric.id Sample.metric = "k1"%string
  /\ Metric.history Sample.metric
     <> Metric.history Sample.metric ++ [(DateMs 1790000000000, value)]
  /\ Metric.current Sample.metric <> value.
Proof.
  cbv zeta. split; [vm_compute; reflexivity|]. split; [vm_compute; reflexivity|].
  split; [reflexivity|]. split; vm_compute; discriminate.
Qed.

(** ** The notification poll *)

Lemma insert_In x y l :
  In x (NotificationBell.insert y l) <-> x = y \/ In x l.
Proof.
  induction l as [|z l IH]; simpl.
  - intuition congruence.
  - destruct (NotificationBell.later z y); simpl; rewrite ?IH; intuition congruence.
Qed.

Lemma sort_In x l : In x (NotificationBell.sort l) <-> In x l.
Proof.
  unfold NotificationBell.sort. induction l as [|y l IH]; simpl; [tauto|].
  rewrite insert_In, IH. intuition congruence.
Qed.

Lemma getDocs_In p (goals : gmap string Goal.t) k d :
  goals !! k = Some d -> p (Goal.set_id k d) = true ->
  exists l, Firestore.getDocs p Firestore.Delivered goals = Some l
            /\ In (Goal.set_id k d) l.
Proof.
  intros Hk Hp. eexists; split; [reflexivity|].
  apply List.filter_In. split; [|exact Hp].
  apply List.in_map_iff. exists (k, d). split; [reflexivity|].
  apply list_elem_of_In, elem_of_map_to_list. exact Hk.
Qed.

Lemma due_milestone_is_listed `{Platform} (now : Z) (wd : World)
  (st : NotificationBell.State) (u : User) (k : string) (d : Goal.t)
  (m : Milestone.t) (due : Z) :
  NotificationBell.user st = Some u ->
  Z.abs (now + NotificationBell.week) <= 8640000000000000 ->
  goals_collection wd !! k = Some d ->
  Goal.userId d = uid u ->
  Goal.status d = "active"%string ->
  In m (Goal.milestones d) ->
  Milestone.completed m = false ->
  Milestone.targetDate m = DateMs due ->
  due <= now + NotificationBell.week ->
  In (NotificationBell.milestoneNotice (Goal.set_id k d) m)
     (NotificationBell.notifications
        (NotificationBell.checkNotifications now Firestore.Delivered wd st)).
Proof.
  intros Hu Hrange Hk Huid Hst Hm Hc Hd Hdue.
  unfold NotificationBell.checkNotifications. rewrite Hu.
  unfold NotificationBell.activeGoals.
  destruct (getDocs_In
              (fun g => (String.eqb (Goal.userId g) (uid u)
                         && String.eqb (Goal.status g) "active")%bool)
              (goals_collection wd) k d Hk) as (l & -> & Hl).
  { cbn [Goal.set_id Goal.userId Goal.status]. rewrite Huid, Hst.
    rewrite String.eqb_refl. reflexivity. }
  cbn [NotificationBell.notifications]. apply sort_In.
  apply List.in_or_app. left.
  apply List.in_concat. eexists. split.
  - apply List.in_map. exact Hl.
  - unfold NotificationBell.upcomingMilestones. apply List.in_map.
    apply List.filter_In. split; [exact Hm|].
    rewrite Hc, Hd. unfold NotificationBell.dateAt.
    destruct (Z.leb_spec (Z.abs (now + NotificationBell.week)) 8640000000000000); [|lia].
    simpl. apply Z.leb_le. exact Hdue.
Qed.

(** C8: after a poll, for every incomplete milestone of an active goal of
    the signed-in user whose target date is at most seven days after the
    poll time, the list holds a notification of type [milestone], titled
    [Upcoming Milestone], identified by the milestone's id, dated at the
    milestone's target date, unread, whose message names the milestone, the
    goal and the date. *)
Theorem C8_due_milestone_is_notified (P : Platform) (now : Z) (wd : World)
  (st : NotificationBell.State) (u : User) (k : string) (d : Goal.t)
  (m : Milestone.t) (due : Z) :
  NotificationBell.user st = Some u ->
  Z.abs (now + NotificationBell.week) <= 8640000000000000 ->
  goals_collection wd !! k = Some d ->
  Goal.userId d = uid u ->
  Goal.status d = "active"%string ->
  In m (Goal.milestones d) ->
  Milestone.completed m = false ->
  Milestone.targetDate m = DateMs due ->
  due <= now + NotificationBell.week ->
  exists n,
    In n (NotificationBell.notifications
            (NotificationBell.checkNotifications now Firestore.Delivered wd st))
    /\ NotificationBell.id n = ("milestone-" +:+ Milestone.id m)%string
    /\ NotificationBell.type n = "milestone"%string
    /\ NotificationBell.title n = "Upcoming Milestone"%string
    /\ NotificationBell.message n
       = (String (ascii_of_nat 34) "" +:+ Milestone.title m +:+ String (ascii_of_nat 34) ""
          +:+ " for goal "
          +:+ String (ascii_of_nat 34) "" +:+ Goal.title d +:+ String (ascii_of_nat 34) ""
             +:+ " is due on "
          +:+ toLocaleDateString (DateMs due))%string
    /\ NotificationBell.date n = DateMs due
    /\ NotificationBell.read n = false.
Proof.
  intros Hu Hrange Hk Huid Hst Hm Hc Hd Hdue.
  exists (NotificationBell.milestoneNotice (Goal.set_id k d) m).
  split; [exact (due_milestone_is_listed now wd st u k d m due Hu Hrange Hk Huid Hst Hm Hc Hd Hdue)|].
  unfold NotificationBell.milestoneNotice.
  cbn [NotificationBell.id NotificationBell.type NotificationBell.title
       NotificationBell.message NotificationBell.date NotificationBell.read
       Goal.set_id Goal.title].
  rewrite Hd. repeat split; reflexivity.
Qed.

(** C8 at the sample store: milestone [m2] is due in less than a week. *)
Lemma C8_witness :
  exists n,
    In n (NotificationBell.notifications
            (NotificationBell.checkNotifications (H := Sample.platform)
               1790000000000 Firestore.Delivered Sample.world Sample.bell))
    /\ NotificationBell.id n = "milestone-m2"%string
    /\ NotificationBell.title n = "Upcoming Milestone"%string
    /\ NotificationBell.date n = DateMs 1790000400000.
Proof.
  destruct (C8_due_milestone_is_notified Sample.platform 1790000000000 Sample.world
              Sample.bell {| uid := "u1" |} "g1" Sample.goal
              (Sample.milestone "m2" false 1790000400000) 1790000400000)
    as (n & Hn & Hid & _ & Ht & _ & Hd & _).
  - reflexivity.
  - vm_compute. discriminate.
  - vm_compute. reflexivity.
  - reflexivity.
  - reflexivity.
  - simpl. right. left. reflexivity.
  - reflexivity.
  - reflexivity.
  - vm_compute. discriminate.
  - exists n. split; [exact Hn|]. split; [exact Hid|]. split; [exact Ht | exact Hd].
Defined.

(** ** Saving a draft *)

Section Numbered.
Context `{Platform} {A B : Type} (g : value -> A -> B).

Lemma mapM_numbered l n :
  Eff.mapM (fun x => Eff.bind Eff.randomUUID (fun id => Eff.ret (g id x))) l n
  = (Eff.Normal (Fresh.numbered g n l), (n + length l)%nat).
Proof.
  revert n. induction l as [|x l IH]; intros n; simpl.
  - unfold Eff.ret. f_equal. lia.
  - unfold Eff.bind at 1. unfold Eff.bind at 1. unfold Eff.randomUUID at 1.
    unfold Eff.ret at 1. unfold Eff.bind at 1. rewrite IH. unfold Eff.ret.
    f_equal. lia.
Qed.

Lemma numbered_length l n : length (Fresh.numbered g n l) = length l.
Proof. revert n. induction l; intros; simpl; congruence. Qed.

Lemma numbered_Forall (Q : B -> Prop) l n :
  (forall i x, Q (g i x)) -> Forall Q (Fresh.numbered g n l).
Proof.
  intros HQ. revert n. induction l; intros; simpl; constructor; auto.
Qed.

Lemma numbered_ids (key : B -> value) l n :
  (forall i x, key (g i x) = i) ->
  List.map key (Fresh.numbered g n l) = List.map (fun k => JStr (uuid k)) (seq n (length l)).
Proof.
  intros Hk. revert n. induction l as [|x l IH]; intros n; simpl; [reflexivity|].
  rewrite Hk, IH. reflexivity.
Qed.
End Numbered.

(** C9: whatever the accumulated draft holds, the saved goal has every
    milestone incomplete, every metric with an empty history and a current
    value of 0 (false for a boolean metric), no reflections, and for its
    milestones, metrics and routines, in this order, the identifiers drawn
    during the call. *)
Theorem C9_saved_goal_starts_from_scratch (P : Platform) (goalData : Draft.Goal.t) (n : nat) :
  let a := length (Draft.or_nil (Draft.Goal.milestones goalData)) in
  let b := length (Draft.or_nil (Draft.Goal.metrics goalData)) in
  let c := length (Draft.or_nil (Draft.Goal.routines goalData)) in
  exists goal milestones metrics routines,
    FreeformAIChat.handleSaveGoal goalData n = (Eff.Normal goal, (n + a + b + c)%nat)
    /\ Draft.Goal.milestones goal = Some milestones
    /\ Draft.Goal.metrics goal = Some metrics
    /\ Draft.Goal.routines goal = Some routines
    /\ Draft.Goal.reflections goal = JArr []
    /\ Forall (fun m => Draft.Milestone.completed m = JBool false) milestones
    /\ Forall (fun m => Draft.Metric.history m = JArr []
                        /\ Draft.Metric.current m
                           = if is_string "boolean" (Draft.Metric.type m)
                             then JBool false else JNum (S754_zero false)) metrics
    /\ List.map Draft.Milestone.id milestones = Fresh.draws n a
    /\ List.map Draft.Metric.id metrics = Fresh.draws (n + a)%nat b
    /\ List.map Draft.Routine.id routines = Fresh.draws (n + a + b)%nat c.
Proof.
  intros a b c.
  unfold FreeformAIChat.handleSaveGoal.
  unfold FreeformAIChat.saveMilestone, FreeformAIChat.saveMetric, FreeformAIChat.saveRoutine.
  unfold Eff.bind at 1. rewrite mapM_numbered.
  unfold Eff.bind at 1. rewrite mapM_numbered.
  unfold Eff.bind at 1. rewrite mapM_numbered.
  unfold Eff.ret. fold a b c.
  eexists _, _, _, _. split; [reflexivity|].
  cbn [Draft.Goal.milestones Draft.Goal.metrics Draft.Goal.routines Draft.Goal.reflections].
  repeat (split; [reflexivity|]).
  split; [apply numbered_Forall; intros; reflexivity|].
  split; [apply numbered_Forall; intros; split; reflexivity|].
  subst a b c. unfold Fresh.draws.
  split; [apply (numbered_ids _ Draft.Milestone.id); intros; reflexivity|].
  split; [apply (numbered_ids _ Draft.Metric.id); intros; reflexivity|].
  apply (numbered_ids _ Draft.Routine.id); intros; reflexivity.
Qed.

(** ** The extraction transform *)

Section Pure.
Context `{Platform}.

Lemma get_defined v k : Shape.nullish v = false -> Dyn.get v k = Eff.ret (Dyn.prop v k).
Proof. destruct v; simpl; intros E; try discriminate; reflexivity. Qed.

Lemma get_nullish v k n : Shape.nullish v = true -> Dyn.get v k n = (Eff.Thrown, n).
Proof. destruct v; simpl; intros E; try discriminate; reflexivity. Qed.

Section Elements.
Context {B : Type} (ok : value -> bool) (f : value -> Eff.t B) (g : value -> value -> B).
Hypothesis ok_defined : forall x, ok x = true -> Shape.nullish x = false.
Hypothesis f_ok :
  forall x n, ok x = true -> f x n = (Eff.Normal (g (JStr (uuid n)) x), S n).
Hypothesis f_bad :
  forall x n, ok x = false -> f x n = (Eff.Thrown, S n).

Lemma mapM_ok l n :
  forallb ok l = true ->
  Eff.mapM f l n = (Eff.Normal (Fresh.numbered g n l), (n + length l)%nat).
Proof.
  revert n. induction l as [|x l IH]; intros n Hall; simpl.
  - unfold Eff.ret. f_equal. lia.
  - simpl in Hall. apply andb_true_iff in Hall as [Hx Hl].
    unfold Eff.bind at 1. rewrite (f_ok x n Hx).
    unfold Eff.bind at 1. rewrite (IH (S n) Hl). unfold Eff.ret. f_equal. lia.
Qed.

Lemma mapM_bad l n :
  forallb ok l = false -> exists n', Eff.mapM f l n = (Eff.Thrown, n').
Proof.
  revert n. induction l as [|x l IH]; intros n Hall; simpl in *; [discriminate|].
  unfold Eff.bind at 1.
  destruct (ok x) eqn:Hx.
  - rewrite (f_ok x n Hx). simpl in Hall.
    destruct (IH (S n) Hall) as [n' E]. unfold Eff.bind at 1. rewrite E. eauto.
  - rewrite (f_bad x n Hx). eauto.
Qed.

Lemma map_items raw n :
  Shape.mappable raw = true -> forallb ok (Shape.items raw) = true ->
  Dyn.map f (JS.or raw (JArr [])) n
  = (Eff.Normal (Fresh.numbered g n (Shape.items raw)), (n + length (Shape.items raw))%nat).
Proof.
  unfold Shape.mappable, Shape.items. destruct (JS.or raw (JArr [])); try discriminate.
  intros _. apply mapM_ok.
Qed.

Lemma map_refused raw n :
  (Shape.mappable raw && forallb ok (Shape.items raw))%bool = false ->
  exists n', Dyn.map f (JS.or raw (JArr [])) n = (Eff.Thrown, n').
Proof.
  unfold Shape.mappable, Shape.items. destruct (JS.or raw (JArr [])) eqn:E; simpl; eauto.
  intros Hno. apply mapM_bad.
  destruct (forallb ok l) eqn:Hok; [|reflexivity].
  rewrite andb_true_r in Hno. rewrite <- Hno. symmetry.
  apply forallb_forall. intros x Hx. rewrite forallb_forall in Hok.
  rewrite (ok_defined x (Hok x Hx)). reflexivity.
Qed.
End Elements.

Lemma present_defined x : Shape.present x = true -> Shape.nullish x = false.
Proof. unfold Shape.present. apply negb_true_iff. Qed.

Lemma dated_defined x : Shape.dated x = true -> Shape.nullish x = false.
Proof. unfold Shape.dated. rewrite andb_true_iff, negb_true_iff. tauto. Qed.

Lemma mappable_present raw :
  Shape.mappable raw = true -> forallb Shape.present (Shape.items raw) = true.
Proof.
  unfold Shape.mappable, Shape.items, Shape.present.
  destruct (JS.or raw (JArr [])); try discriminate. auto.
Qed.

Lemma mappable_and_present raw :
  (Shape.mappable raw && forallb Shape.present (Shape.items raw))%bool = Shape.mappable raw.
Proof.
  destruct (Shape.mappable raw) eqn:E; [|reflexivity]. apply mappable_present, E.
Qed.

Lemma newDate_converted v n :
  Dyn.stringifies v = true -> Dyn.newDate v n = (Eff.Normal (Dyn.dateOf v), n).
Proof. intros E. unfold Dyn.newDate. rewrite E. reflexivity. Qed.

Lemma newDate_thrown v n :
  Dyn.stringifies v = false -> Dyn.newDate v n = (Eff.Thrown, n).
Proof. intros E. unfold Dyn.newDate. rewrite E. reflexivity. Qed.

Lemma extractMilestone_defined x n :
  Shape.dated x = true ->
  OpenAI.extractMilestone x n = (Eff.Normal (Shape.milestoneOf (JStr (uuid n)) x), S n).
Proof.
  intros Hx. pose proof (dated_defined x Hx) as Hd.
  unfold Shape.dated in Hx. apply andb_true_iff in Hx as [_ Hs].
  unfold OpenAI.extractMilestone. rewrite !(get_defined x _ Hd).
  cbv beta delta [Eff.bind Eff.ret Eff.randomUUID] iota.
  rewrite (newDate_converted _ _ Hs). reflexivity.
Qed.

Lemma extractMilestone_refused x n :
  Shape.dated x = false -> OpenAI.extractMilestone x n = (Eff.Thrown, S n).
Proof.
  intros Hx. unfold OpenAI.extractMilestone.
  destruct (Shape.nullish x) eqn:Hn.
  - unfold Eff.bind at 1. unfold Eff.randomUUID at 1.
    unfold Eff.bind at 1. rewrite (get_nullish x _ _ Hn). reflexivity.
  - unfold Shape.dated in Hx. rewrite Hn in Hx. cbn [negb andb] in Hx.
    rewrite !(get_defined x _ Hn).
    cbv beta delta [Eff.bind Eff.ret Eff.randomUUID] iota.
    rewrite (newDate_thrown _ _ Hx). reflexivity.
Qed.

Ltac element_defined :=
  intros x n Hx; apply present_defined in Hx;
  cbv beta delta [OpenAI.extractMetric OpenAI.extractRoutine];
  rewrite !(get_defined x _ Hx); reflexivity.

Ltac element_nullish :=
  intros x n Hx; unfold Shape.present in Hx; apply negb_false_iff in Hx;
  cbv beta delta [OpenAI.extractMetric OpenAI.extractRoutine];
  unfold Eff.bind at 1; unfold Eff.randomUUID at 1;
  unfold Eff.bind at 1; rewrite (get_nullish x _ _ Hx); reflexivity.

Lemma extractMetric_defined x n :
  Shape.present x = true ->
  OpenAI.extractMetric x n = (Eff.Normal (Shape.metricOf (JStr (uuid n)) x), S n).
Proof. revert x n. element_defined. Qed.

Lemma extractMetric_nullish x n :
  Shape.present x = false -> OpenAI.extractMetric x n = (Eff.Thrown, S n).
Proof. revert x n. element_nullish. Qed.

Lemma extractRoutine_defined x n :
  Shape.present x = true ->
  OpenAI.extractRoutine x n = (Eff.Normal (Shape.routineOf (JStr (uuid n)) x), S n).
Proof. revert x n. element_defined. Qed.

Lemma extractRoutine_nullish x n :
  Shape.present x = false -> OpenAI.extractRoutine x n = (Eff.Thrown, S n).
Proof. revert x n. element_nullish. Qed.

Lemma targetDate_converted raw n :
  Shape.datable raw = true ->
  (if truthy raw then Dyn.newDate raw else Eff.ret JUndefined) n
  = (Eff.Normal (if truthy raw then Dyn.dateOf raw else JUndefined), n).
Proof.
  unfold Shape.datable. destruct (truthy raw); cbn [negb orb]; [|reflexivity].
  apply newDate_converted.
Qed.

Lemma targetDate_thrown raw n :
  Shape.datable raw = false ->
  (if truthy raw then Dyn.newDate raw else Eff.ret JUndefined) n = (Eff.Thrown, n).
Proof.
  unfold Shape.datable. destruct (truthy raw); cbn [negb orb]; [|discriminate].
  apply newDate_thrown.
Qed.

Lemma transform_accepted v n :
  Shape.accepted v = true ->
  OpenAI.transform v n
  = (Eff.Normal (Shape.transformed v n),
     (n + length (Shape.items (Dyn.prop v "milestones"))
        + length (Shape.items (Dyn.prop v "metrics"))
        + length (Shape.items (Dyn.prop v "routines")))%nat).
Proof.
  unfold Shape.accepted. rewrite !andb_true_iff, negb_true_iff.
  intros [[[[[Hv Htd] Hms] Hmd] Hmt] Hrt].
  unfold OpenAI.transform. rewrite !(get_defined v _ Hv).
  cbv beta delta [Eff.bind Eff.ret] iota.
  rewrite (targetDate_converted _ _ Htd).
  rewrite (map_items _ _ _ extractMilestone_defined _ _ Hms Hmd).
  rewrite (map_items _ _ _ extractMetric_defined _ _ Hmt (mappable_present _ Hmt)).
  rewrite (map_items _ _ _ extractRoutine_defined _ _ Hrt (mappable_present _ Hrt)).
  reflexivity.
Qed.

Lemma transform_refused v n :
  Shape.accepted v = false -> exists n', OpenAI.transform v n = (Eff.Thrown, n').
Proof.
  unfold Shape.accepted. intros Hacc.
  destruct (Shape.nullish v) eqn:Hv.
  { unfold OpenAI.transform. unfold Eff.bind at 1.
    rewrite (get_nullish v _ _ Hv). eauto. }
  cbn [negb andb] in Hacc.
  unfold OpenAI.transform. rewrite !(get_defined v _ Hv).
  cbv beta delta [Eff.bind Eff.ret] iota.
  destruct (Shape.datable (Dyn.prop v "targetDate")) eqn:Htd.
  2:{ rewrite (targetDate_thrown _ _ Htd). eauto. }
  rewrite (targetDate_converted _ _ Htd). cbn [andb] in Hacc.
  destruct (Shape.mappable (Dyn.prop v "milestones")
            && forallb Shape.dated (Shape.items (Dyn.prop v "milestones")))%bool eqn:Hms.
  2:{ destruct (map_refused _ _ _ dated_defined extractMilestone_defined
                  extractMilestone_refused _ n Hms) as [n' ->]. eauto. }
  apply andb_true_iff in Hms as [Hms Hmd]. cbn [andb] in Hacc.
  rewrite (map_items _ _ _ extractMilestone_defined _ _ Hms Hmd).
  destruct (Shape.mappable (Dyn.prop v "metrics")) eqn:Hmt.
  2:{ rewrite <- mappable_and_present in Hmt.
      match goal with |- context [Dyn.map OpenAI.extractMetric _ ?k] =>
        destruct (map_refused _ _ _ present_defined extractMetric_defined
                    extractMetric_nullish _ k Hmt) as [n' ->] end. eauto. }
  rewrite (map_items _ _ _ extractMetric_defined _ _ Hmt (mappable_present _ Hmt)).
  cbn [andb] in Hacc. rewrite <- mappable_and_present in Hacc.
  match goal with |- context [Dyn.map OpenAI.extractRoutine _ ?k] =>
    destruct (map_refused _ _ _ present_defined extractRoutine_defined
                extractRoutine_nullish _ k Hacc) as [n' ->] end. eauto.
Qed.

End Pure.

Section Freeform.
Context `{Platform}.

Lemma fieldPresent_cases v k n :
  Shape.nullish v = false ->
  if Shape.nonBlank v k
  then OpenAI.fieldPresent v k n = (Eff.Normal true, n)
  else OpenAI.fieldPresent v k n = (Eff.Normal false, n)
       \/ OpenAI.fieldPresent v k n = (Eff.Thrown, n).
Proof.
  intros Hv. unfold OpenAI.fieldPresent, Shape.nonBlank.
  rewrite (get_defined v k Hv). cbv beta delta [Eff.bind Eff.ret] iota.
  destruct (Dyn.prop v k) as [| |b|x|s|l|props|d]; simpl; auto.
  - destruct b; auto.
  - destruct x; auto.
  - destruct s as [|c s]; [cbn; auto|].
    destruct (String.eqb (trim (String c s)) ""); simpl; auto.
Qed.

Lemma every_requiredFields v n :
  Shape.nullish v = false ->
  let all := (Shape.nonBlank v "title" && Shape.nonBlank v "description"
              && Shape.nonBlank v "domain")%bool in
  if all
  then Eff.every (OpenAI.fieldPresent v) OpenAI.requiredFields n = (Eff.Normal true, n)
  else Eff.every (OpenAI.fieldPresent v) OpenAI.requiredFields n = (Eff.Normal false, n)
       \/ Eff.every (OpenAI.fieldPresent v) OpenAI.requiredFields n = (Eff.Thrown, n).
Proof.
  intros Hv. cbv zeta. unfold OpenAI.requiredFields. cbn [Eff.every].
  pose proof (fieldPresent_cases v "title" n Hv) as T.
  pose proof (fieldPresent_cases v "description" n Hv) as D.
  pose proof (fieldPresent_cases v "domain" n Hv) as M.
  unfold Eff.bind, Eff.ret.
  destruct (Shape.nonBlank v "title"); cbn [andb];
    [rewrite T | destruct T as [-> | ->]; auto].
  destruct (Shape.nonBlank v "description"); cbn [andb];
    [rewrite D | destruct D as [-> | ->]; auto].
  destruct (Shape.nonBlank v "domain"); cbn [andb];
    [rewrite M | destruct M as [-> | ->]; auto].
  reflexivity.
Qed.

Lemma accepted_defined v : Shape.accepted v = true -> Shape.nullish v = false.
Proof.
  unfold Shape.accepted. rewrite !andb_true_iff, negb_true_iff. tauto.
Qed.

(** What the inner [try] block leaves in the two variables. *)
Lemma extraction_parsed v n :
  exists n',
    OpenAI.extraction (OpenAI.Parsed v) n
    = (Eff.Normal
         (if Shape.accepted v then Some (Shape.transformed v n) else None,
          (Shape.accepted v && Shape.nonBlank v "title"
           && Shape.nonBlank v "description" && Shape.nonBlank v "domain")%bool),
       n').
Proof.
  unfold OpenAI.extraction, Eff.try_catch.
  destruct (Shape.accepted v) eqn:Hacc.
  - unfold Eff.bind at 1. rewrite (transform_accepted v n Hacc).
    pose proof (every_requiredFields v
                  (n + length (Shape.items (Dyn.prop v "milestones"))
                     + length (Shape.items (Dyn.prop v "metrics"))
                     + length (Shape.items (Dyn.prop v "routines")))%nat
                  (accepted_defined v Hacc)) as E.
    cbv zeta in E. cbn [andb]. unfold Eff.bind, Eff.ret.
    destruct (Shape.nonBlank v "title" && Shape.nonBlank v "description"
              && Shape.nonBlank v "domain")%bool eqn:Hall.
    + rewrite E. eauto.
    + destruct E as [-> | ->]; eauto.
  - unfold Eff.bind at 1.
    destruct (transform_refused v n Hacc) as [n' ->]. cbn [andb]. unfold Eff.ret. eauto.
Qed.

End Freeform.

(** C2, as amended: [conversationComplete] is true exactly when the reply
    parses, [transform] completes on it (the reply is not [null], its
    [targetDate] is falsy or converts to a date, [milestones] is falsy or an
    array of elements that are not [null] and whose [targetDate] converts,
    [metrics] and [routines] are falsy or arrays without [null]), and
    [title], [description] and [domain] are strings that are not blank; the
    two example replies of the specification give true and false. *)
Theorem C2_complete_iff_accepted_shape_and_three_fields (P : Platform) :
  (forall messages reply parsedData n,
      exists r n',
        OpenAI.processConversation messages
          (OpenAI.ApiOk reply (OpenAI.Parsed parsedData)) n = (Eff.Normal r, n')
        /\ (OpenAI.conversationComplete r = true
            <-> Shape.accepted parsedData = true
                /\ Shape.nonBlank parsedData "title" = true
                /\ Shape.nonBlank parsedData "description" = true
                /\ Shape.nonBlank parsedData "domain" = true))
  /\ (forall messages reply n,
        exists r,
          OpenAI.processConversation messages
            (OpenAI.ApiOk reply OpenAI.SyntaxError) n = (Eff.Normal r, n)
          /\ OpenAI.conversationComplete r = false)
  /\ (forall messages n,
        exists r,
          OpenAI.processConversation messages OpenAI.ApiError n = (Eff.Normal r, n)
          /\ OpenAI.conversationComplete r = false)
  /\ (forall messages reply n,
        exists r n',
          OpenAI.processConversation messages
            (OpenAI.ApiOk reply (OpenAI.Parsed Sample.complete)) n = (Eff.Normal r, n')
          /\ OpenAI.conversationComplete r = true)
  /\ (forall messages reply n,
        exists r n',
          OpenAI.processConversation messages
            (OpenAI.ApiOk reply (OpenAI.Parsed Sample.withoutDomain)) n = (Eff.Normal r, n')
          /\ OpenAI.conversationComplete r = false).
Proof.
  assert (G : forall messages reply parsedData n,
      exists r n',
        OpenAI.processConversation messages
          (OpenAI.ApiOk reply (OpenAI.Parsed parsedData)) n = (Eff.Normal r, n')
        /\ OpenAI.conversationComplete r
           = (Shape.accepted parsedData && Shape.nonBlank parsedData "title"
              && Shape.nonBlank parsedData "description"
              && Shape.nonBlank parsedData "domain")%bool).
  { intros messages reply v n. unfold OpenAI.processConversation.
    destruct (extraction_parsed v n) as [n' E].
    unfold Eff.bind. rewrite E. unfold Eff.ret. eexists _, _. split; reflexivity. }
  split.
  { intros messages reply v n. destruct (G messages reply v n) as (r & n' & E & C).
    exists r, n'. split; [exact E|]. rewrite C, !andb_true_iff. tauto. }
  split; [intros; eexists; split; reflexivity|].
  split; [intros; eexists; split; reflexivity|].
  split; intros messages reply n;
    [destruct (G messages reply Sample.complete n) as (r & n' & E & C)
    |destruct (G messages reply Sample.withoutDomain n) as (r & n' & E & C)];
    exists r, n'; (split; [exact E|]); rewrite C; reflexivity.
Qed.

(** C2 as stated fails: a reply with the three fields present and not
    blank, whose [milestones] is a string, gives [false]. *)
Lemma C2_three_fields_are_not_enough :
  exists r n',
    OpenAI.processConversation (H := Sample.platform) []
      (OpenAI.ApiOk None (OpenAI.Parsed Sample.milestonesAsText)) 0%nat = (Eff.Normal r, n')
    /\ OpenAI.conversationComplete r = false
    /\ Shape.nonBlank Sample.milestonesAsText "title" = true
    /\ Shape.nonBlank Sample.milestonesAsText "description" = true
    /\ Shape.nonBlank Sample.milestonesAsText "domain" = true.
Proof. eexists _, _. repeat split. Qed.

(** ** Merging an extraction into the draft *)

Lemma or_nil_truthy raw : truthy (JS.or raw (JArr [])) = true.
Proof. unfold JS.or. destruct (truthy raw) eqn:E; [exact E | reflexivity]. Qed.

Lemma or_or_nil raw prev : JS.or (JS.or raw (JArr [])) prev = JS.or raw (JArr []).
Proof. unfold JS.or at 1. rewrite or_nil_truthy. reflexivity. Qed.

Lemma merge_accepted `{Platform} v n prev :
  Draft.collections (FreeformAIChat.mergeExtracted (Some (Shape.transformed v n)) prev)
  = Draft.collections (Shape.transformed v n).
Proof.
  unfold Draft.collections, FreeformAIChat.mergeExtracted, FreeformAIChat.field, Shape.transformed.
  cbn [Draft.Goal.milestones Draft.Goal.metrics Draft.Goal.weeklyActions
       Draft.Goal.dailyHabits Draft.Goal.routines Draft.Goal.resources
       Draft.Goal.obstacles Draft.Goal.successCriteria Draft.or_list].
  rewrite !or_or_nil. reflexivity.
Qed.

(** C1, as amended: when the reply parses and [transform] completes (no
    list to map holds [null] and every date given converts), each
    of the eight collection fields of the accumulated draft becomes what was
    extracted for it, which is the empty array when the reply has no such
    field or an empty one; when [transform] throws, the reply does not
    parse or the request fails, the eight fields keep their accumulated
    values. *)
Theorem C1_collections_follow_the_last_extraction (P : Platform)
  (reply : option string) (parsedData : value) (st : FreeformAIChat.State) (n : nat) :
  let prev := FreeformAIChat.goalData st in
  let blocked :=
    (String.eqb (trim (FreeformAIChat.input st)) "" || FreeformAIChat.isProcessing st)%bool in
  let field := fun k => Dyn.prop parsedData k in
  let ms := Shape.items (field "milestones") in
  let mt := Shape.items (field "metrics") in
  let rt := Shape.items (field "routines") in
  (exists st' n',
      FreeformAIChat.handleSendMessage
        (OpenAI.ApiOk reply (OpenAI.Parsed parsedData)) st n = (Eff.Normal st', n')
      /\ if blocked then st' = st
         else if Shape.accepted parsedData
         then Draft.collections (FreeformAIChat.goalData st')
              = (Some (Fresh.numbered Shape.milestoneOf n ms),
                 Some (Fresh.numbered Shape.metricOf (n + length ms) mt),
                 JS.or (field "weeklyActions") (JArr []),
                 JS.or (field "dailyHabits") (JArr []),
                 Some (Fresh.numbered Shape.routineOf (n + length ms + length mt) rt),
                 JS.or (field "resources") (JArr []),
                 JS.or (field "obstacles") (JArr []),
                 JS.or (field "successCriteria") (JArr []))
         else Draft.collections (FreeformAIChat.goalData st') = Draft.collections prev)
  /\ (forall api, api = OpenAI.ApiError \/ api = OpenAI.ApiOk reply OpenAI.SyntaxError ->
        exists st',
          FreeformAIChat.handleSendMessage api st n = (Eff.Normal st', n)
          /\ Draft.collections (FreeformAIChat.goalData st') = Draft.collections prev)
  /\ (forall raw, truthy raw = false \/ raw = JArr [] ->
        JS.or raw (JArr []) = JArr []
        /\ forall A (g : value -> value -> A) k, Fresh.numbered g k (Shape.items raw) = [])
  /\ (forall raw x l, raw = JArr (x :: l) ->
        JS.or raw (JArr []) = raw
        /\ forall A (g : value -> value -> A) k,
             length (Fresh.numbered g k (Shape.items raw)) = length (x :: l)).
Proof.
  intros prev blocked field ms mt rt. split; [|split; [|split]].
  - unfold FreeformAIChat.handleSendMessage. fold blocked.
    destruct blocked; [eexists _, _; split; reflexivity|].
    unfold OpenAI.processConversation.
    destruct (extraction_parsed parsedData n) as [n' E].
    unfold Eff.bind. rewrite E. unfold Eff.ret.
    eexists _, _. split; [reflexivity|].
    cbn [FreeformAIChat.goalData OpenAI.extractedData fst].
    destruct (Shape.accepted parsedData).
    + rewrite merge_accepted. reflexivity.
    + reflexivity.
  - intros api [-> | ->]; unfold FreeformAIChat.handleSendMessage; fold blocked;
      destruct blocked; eexists; split; reflexivity.
  - intros raw [Hf | ->]; [|split; reflexivity].
    unfold Shape.items, JS.or. rewrite Hf. split; reflexivity.
  - intros raw x l ->. split; [reflexivity|].
    intros. apply numbered_length.
Qed.

(** C1 as stated fails: the first turn extracts a milestone and a weekly
    action; the second reply names neither field, and both accumulated
    fields become empty arrays. *)
Lemma C1_empty_extraction_erases_the_accumulated_fields :
  exists st1 n1 st2 n2,
    FreeformAIChat.handleSendMessage (H := Sample.platform)
      (OpenAI.ApiOk (Some "What is it for?"%string) (OpenAI.Parsed Sample.firstReply))
      (FreeformAIChat.setInput "I want to run 5k, starting with 1k"
         FreeformAIChat.initialState)
      0%nat = (Eff.Normal st1, n1)
    /\ FreeformAIChat.showSummary st1 = false
    /\ option_map (List.map Draft.Milestone.title)
         (Draft.Goal.milestones (FreeformAIChat.goalData st1)) = Some [JStr "Run 1k"]
    /\ Draft.Goal.weeklyActions (FreeformAIChat.goalData st1) = JArr [JStr "Stretch"]
    /\ FreeformAIChat.handleSendMessage (H := Sample.platform)
         (OpenAI.ApiOk (Some "Great."%string) (OpenAI.Parsed Sample.complete))
         (FreeformAIChat.setInput "It is for my health" st1) n1 = (Eff.Normal st2, n2)
    /\ Draft.Goal.milestones (FreeformAIChat.goalData st2) = Some []
    /\ Draft.Goal.weeklyActions (FreeformAIChat.goalData st2) = JArr [].
Proof.
  eexists _, _, _, _.
  split; [lazy; reflexivity|].
  repeat (split; [lazy; reflexivity|]).
  lazy. reflexivity.
Qed.

(** ** The guided questionnaire *)

Lemma trim_starts_with_text c s : isWhiteSpace c = false -> trim (String c s) <> EmptyString.
Proof.
  intros Hc. unfold trim. cbn [trimStart]. rewrite Hc. cbn [trimEnd].
  destruct (trimEnd s); [rewrite Hc|]; discriminate.
Qed.

Lemma lowered_letter_is_text c :
  In (lowerChar c) ["w"; "h"; "f"; "p"; "c"]%char -> isWhiteSpace c = false.
Proof.
  destruct c as [[] [] [] [] [] [] [] []]; vm_compute; intros H;
    repeat (destruct H as [H | H]; [discriminate H|]); try reflexivity; contradiction.
Qed.

Lemma domain_is_not_blank answer :
  Array_includes AIGoalCreation.domains (toLowerCase answer) = true ->
  String.eqb (trim answer) "" = false.
Proof.
  intros Hin. apply String.eqb_neq.
  destruct answer as [|c s]; [discriminate Hin|].
  apply trim_starts_with_text, lowered_letter_is_text.
  unfold Array_includes, AIGoalCreation.domains in Hin.
  apply existsb_exists in Hin as (tag & Htag & E).
  apply String.eqb_eq in E. cbn [toLowerCase] in E.
  simpl in Htag.
  repeat (destruct Htag as [<- | Htag];
          [inversion E; simpl; tauto|]).
  contradiction.
Qed.

(** C4, as amended: at step 1 the flow advances to step 2, recording the
    lowercased answer as the domain, exactly when the lowercased answer is
    one of the seven tags; otherwise the step, the draft and the question
    stay, and a reminder is posted unless the answer is blank, in which case
    nothing changes at all. *)
Theorem C4_step_one_accepts_exactly_the_seven_domains (P : Platform)
  (aiResponse : string) (now : Z) (st : AIGoalCreation.State) (n : nat) :
  AIGoalCreation.currentStep st = 1 ->
  let answer := AIGoalCreation.input st in
  let asked := AIGoalCreation.messages st ++ [ {| role := "user"; content := answer |} ] in
  exists st',
    AIGoalCreation.handleSendMessage aiResponse now st n = (Eff.Normal st', n)
    /\ (AIGoalCreation.currentStep st' = 2
        <-> Array_includes AIGoalCreation.domains (toLowerCase answer) = true)
    /\ if Array_includes AIGoalCreation.domains (toLowerCase answer)
       then AIGoalCreation.currentStep st' = 2
            /\ AIGoalCreation.goalData st'
               = Draft.set_domain (JStr (toLowerCase answer)) (AIGoalCreation.goalData st)
            /\ AIGoalCreation.messages st'
               = asked ++ [ {| role := "assistant"; content := aiResponse |} ]
       else AIGoalCreation.currentStep st' = 1
            /\ AIGoalCreation.goalData st' = AIGoalCreation.goalData st
            /\ AIGoalCreation.currentQuestion st' = AIGoalCreation.currentQuestion st
            /\ if String.eqb (trim answer) ""
               then st' = st
               else AIGoalCreation.messages st'
                    = asked ++ [ {| role := "assistant";
                                    content := AIGoalCreation.domainReminder |} ].
Proof.
  intros Hstep answer asked. unfold AIGoalCreation.handleSendMessage.
  fold answer. rewrite Hstep.
  destruct (Array_includes AIGoalCreation.domains (toLowerCase answer)) eqn:Hin.
  - rewrite (domain_is_not_blank answer Hin). unfold Eff.ret.
    eexists. split; [reflexivity|]. cbn. repeat split.
  - destruct (String.eqb (trim answer) ""); unfold Eff.ret;
      (eexists; split; [reflexivity|]); cbn; rewrite ?Hstep; repeat split;
      try discriminate; try congruence.
    unfold AIGoalCreation.currentQuestion. cbn. rewrite Hstep. reflexivity.
Qed.

(** C4 at the answer [Health]. *)
Lemma C4_witness :
  exists st',
    AIGoalCreation.handleSendMessage (H := Sample.platform) "Great choice."
      1790000000000 (Sample.guided 1 Draft.initial "Health") 0%nat = (Eff.Normal st', 0%nat)
    /\ AIGoalCreation.currentStep st' = 2
    /\ Draft.Goal.domain (AIGoalCreation.goalData st') = JStr "health".
Proof.
  destruct (C4_step_one_accepts_exactly_the_seven_domains Sample.platform "Great choice."
              1790000000000 (Sample.guided 1 Draft.initial "Health") 0%nat eq_refl)
    as (st' & E & _ & S & G & _).
  exists st'. split; [exact E|]. split; [exact S|]. rewrite G. reflexivity.
Defined.

(** C4 as stated fails: a blank answer matches no domain and no reminder
    is posted. *)
Lemma C4_blank_answer_gets_no_reminder :
  exists st',
    AIGoalCreation.handleSendMessage (H := Sample.platform) "Great choice."
      1790000000000 (Sample.guided 1 Draft.initial "   ") 0%nat = (Eff.Normal st', 0%nat)
    /\ Array_includes AIGoalCreation.domains (toLowerCase "   ") = false
    /\ AIGoalCreation.messages st'
       = AIGoalCreation.messages (Sample.guided 1 Draft.initial "   ").
Proof. eexists. repeat split. Qed.

(** ** Binary64 rounding, as [SpecFloat] computes it *)

Section Digits.

Lemma digits2_size p : digits2_pos p = Pos.size p.
Proof. induction p; simpl; congruence. Qed.

Lemma digits_bounds p :
  2 ^ (Z.pos (digits2_pos p) - 1) <= Z.pos p < 2 ^ Z.pos (digits2_pos p).
Proof.
  rewrite digits2_size. split.
  - pose proof (Pos.size_le p) as L.
    apply Pos2Z.pos_le_pos in L. rewrite Pos2Z.inj_pow in L.
    replace (Z.pos (Pos.size p)) with (1 + (Z.pos (Pos.size p) - 1)) in L by lia.
    rewrite Z.pow_add_r in L by lia. change (2 ^ 1) with 2 in L.
    change (Z.pos p~0) with (2 * Z.pos p) in L. lia.
  - pose proof (Pos.size_gt p) as G.
    apply Pos2Z.pos_lt_pos in G. rewrite Pos2Z.inj_pow in G. exact G.
Qed.

Lemma digits_unique p k :
  2 ^ (k - 1) <= Z.pos p < 2 ^ k -> Z.pos (digits2_pos p) = k.
Proof.
  intros [Lo Hi]. pose proof (digits_bounds p) as [Lo' Hi'].
  assert (0 < k).
  { destruct (Z.lt_ge_cases 0 k) as [|Hk]; [assumption|].
    destruct (Z.eq_dec k 0) as [->|]; [simpl in Hi; lia|].
    rewrite (Z.pow_neg_r 2 k) in Hi by lia. lia. }
  assert (k - 1 < Z.pos (digits2_pos p)).
  { apply (Z.pow_lt_mono_r_iff 2); lia. }
  assert (Z.pos (digits2_pos p) - 1 < k).
  { apply (Z.pow_lt_mono_r_iff 2); lia. }
  lia.
Qed.

End Digits.

Section Shift.

Lemma shr_1_m mrs : 0 <= shr_m mrs -> shr_m (shr_1 mrs) = shr_m mrs / 2.
Proof.
  destruct mrs as [m r s]. cbn [shr_m]. intros Hm.
  rewrite <- Z.div2_div. destruct m as [|[p|p|]|p]; try reflexivity; lia.
Qed.

Lemma iter_shr_m p mrs :
  0 <= shr_m mrs -> shr_m (SpecFloat.iter_pos shr_1 p mrs) = shr_m mrs / 2 ^ Z.pos p.
Proof.
  revert mrs. induction p as [p IH|p IH|]; intros mrs Hm; cbn [SpecFloat.iter_pos].
  - assert (H1 : 0 <= shr_m (shr_1 mrs)).
    { rewrite shr_1_m by assumption. apply Z.div_pos; lia. }
    assert (H2 : 0 <= shr_m (SpecFloat.iter_pos shr_1 p (shr_1 mrs))).
    { rewrite IH by assumption. apply Z.div_pos; [assumption|]. apply Z.pow_pos_nonneg; lia. }
    rewrite IH, IH, shr_1_m by assumption.
    rewrite !Z.div_div by (try apply Z.pow_pos_nonneg; try apply Z.mul_pos_pos;
                           try apply Z.pow_pos_nonneg; lia).
    f_equal. change (Z.pos p~1) with (2 * Z.pos p + 1).
    replace (2 * Z.pos p + 1) with (1 + Z.pos p + Z.pos p) by lia.
    rewrite !Z.pow_add_r by lia. change (2 ^ 1) with 2. ring.
  - assert (H2 : 0 <= shr_m (SpecFloat.iter_pos shr_1 p mrs)).
    { rewrite IH by assumption. apply Z.div_pos; [assumption|]. apply Z.pow_pos_nonneg; lia. }
    rewrite IH, IH by assumption.
    rewrite Z.div_div by (try apply Z.pow_pos_nonneg; lia).
    f_equal. change (Z.pos p~0) with (2 * Z.pos p).
    replace (2 * Z.pos p) with (Z.pos p + Z.pos p) by lia.
    rewrite Z.pow_add_r by lia. reflexivity.
  - apply shr_1_m. assumption.
Qed.

(** Shifting right by [n >= 0] places divides the mantissa by [2^n]. *)
Lemma shr_spec m l e n :
  0 <= m -> 0 <= n ->
  shr_m (fst (shr (shr_record_of_loc m l) e n)) = m / 2 ^ n
  /\ snd (shr (shr_record_of_loc m l) e n) = e + n.
Proof.
  intros Hm Hn.
  assert (Hrec : shr_m (shr_record_of_loc m l) = m) by (destruct l as [|[]]; reflexivity).
  destruct n as [|p|p]; [| |lia]; cbn [shr fst snd].
  - rewrite Hrec, Z.div_1_r. split; [reflexivity | lia].
  - rewrite iter_shr_m by lia. rewrite Hrec. split; reflexivity.
Qed.

Lemma round_nearest_even_near m l :
  round_nearest_even m l = m \/ round_nearest_even m l = m + 1.
Proof. destruct l as [|[]]; simpl; auto. destruct (Z.even m); auto. Qed.

End Shift.

Lemma fexp_normal x : -1074 <= x - 53 -> fexp 53 1024 x = x - 53.
Proof. intros Hx. unfold fexp, SpecFloat.emin. lia. Qed.

Lemma Zdigits2_unique m k : 0 < m -> 2 ^ (k - 1) <= m < 2 ^ k -> Zdigits2 m = k.
Proof.
  intros Hm Hk. destruct m as [|p|p]; try lia. simpl. apply digits_unique. exact Hk.
Qed.

Lemma Zdigits2_bounds m : 0 < m -> 2 ^ (Zdigits2 m - 1) <= m < 2 ^ Zdigits2 m.
Proof. intros Hm. destruct m as [|p|p]; try lia. apply digits_bounds. Qed.

(** A mantissa of [53 + n] digits loses its [n] low digits. *)
Lemma truncated_bounds m n :
  0 < m -> 0 <= n -> Zdigits2 m = 53 + n -> 2 ^ 52 <= m / 2 ^ n < 2 ^ 53.
Proof.
  intros Hm Hn Hd. pose proof (Zdigits2_bounds m Hm) as [Lo Hi]. rewrite Hd in Lo, Hi.
  assert (P : 0 < 2 ^ n) by (apply Z.pow_pos_nonneg; lia).
  replace (53 + n - 1) with (52 + n) in Lo by lia.
  rewrite Z.pow_add_r in Lo, Hi by lia.
  split.
  - apply Z.div_le_lower_bound; lia.
  - apply Z.div_lt_upper_bound; lia.
Qed.

Lemma binary_round_aux_spec mx ex lx :
  0 < mx -> 53 <= Zdigits2 mx -> -1074 <= ex -> ex + (Zdigits2 mx - 53) < 971 ->
  let n := Zdigits2 mx - 53 in
  let lo := mx / 2 ^ n in
  exists m e k,
    binary_round_aux 53 1024 false mx ex lx = S754_finite false m e
    /\ (k = 0 \/ k = 1)
    /\ e = ex + n + k
    /\ (Z.pos m * 2 ^ k = lo \/ Z.pos m * 2 ^ k = lo + 1)
    /\ 2 ^ 52 <= Z.pos m < 2 ^ 53
    /\ (n = 0 -> lx = loc_Exact -> Z.pos m = mx /\ e = ex).
Proof.
  intros Hm Hd Hex Hmax n lo.
  assert (Hn : 0 <= n) by (unfold n; lia).
  pose proof (truncated_bounds mx n Hm Hn ltac:(unfold n; lia)) as Hlo. fold lo in Hlo.
  unfold binary_round_aux, shr_fexp.
  rewrite fexp_normal by lia.
  replace (Zdigits2 mx + ex - 53 - ex) with n by (unfold n; lia).
  pose proof (shr_spec mx lx ex n ltac:(lia) Hn) as [S1 S2].
  assert (S0 : n = 0 -> fst (shr (shr_record_of_loc mx lx) ex n) = shr_record_of_loc mx lx).
  { intros ->. reflexivity. }
  destruct (shr (shr_record_of_loc mx lx) ex n) as [mrs' e'].
  cbn [fst snd] in S1, S2, S0. fold lo in S1. subst e'.
  set (m2 := round_nearest_even (shr_m mrs') (loc_of_shr_record mrs')).
  assert (Hm2 : m2 = lo \/ m2 = lo + 1).
  { unfold m2. rewrite <- S1. apply round_nearest_even_near. }
  assert (Hexact : n = 0 -> lx = loc_Exact -> m2 = mx).
  { intros Hn0 ->. unfold m2. rewrite (S0 Hn0). reflexivity. }
  clearbody m2.
  destruct (Z.lt_ge_cases m2 (2 ^ 53)) as [Hlt | Hge].
  - (* the rounded mantissa still has 53 digits *)
    assert (D2 : Zdigits2 m2 = 53) by (apply Zdigits2_unique; simpl; lia).
    rewrite D2, fexp_normal by lia.
    replace (53 + (ex + n) - 53 - (ex + n)) with 0 by lia.
    cbn [shr shr_record_of_loc shr_m].
    destruct m2 as [|p|p]; try lia.
    replace (ex + n <=? 1024 - 53) with true by (symmetry; apply Z.leb_le; lia).
    exists p, (ex + n), 0. split; [reflexivity|]. split; [now left|].
    split; [lia|]. rewrite Z.mul_1_r. split; [exact Hm2|]. split; [simpl in *; lia|].
    intros Hn0 Hl. split; [apply Hexact; assumption | lia].
  - (* rounding up reached 2^53 *)
    assert (E2 : m2 = 2 ^ 53) by lia.
    subst m2. change (Zdigits2 (2 ^ 53)) with 54.
    rewrite fexp_normal by lia.
    replace (54 + (ex + n) - 53 - (ex + n)) with 1 by lia.
    change (2 ^ 53) with 9007199254740992.
    cbn [shr shr_record_of_loc SpecFloat.iter_pos shr_1 shr_m orb].
    replace (ex + n + 1 <=? 1024 - 53) with true by (symmetry; apply Z.leb_le; lia).
    exists 4503599627370496%positive, (ex + n + 1), 1.
    split; [reflexivity|]. split; [now right|]. split; [lia|].
    split; [right; change (2 ^ 53) with 9007199254740992 in *; lia|].
    split; [simpl; lia|].
    intros Hn0 Hl. specialize (Hexact Hn0 Hl).
    change (2 ^ 53) with 9007199254740992 in *.
    pose proof (Zdigits2_bounds mx Hm) as [_ Hi].
    replace (Zdigits2 mx) with 53 in Hi by (unfold n in Hn0; lia).
    change (2 ^ 53) with 9007199254740992 in *. lia.
Qed.

Lemma p2_pos e : (0 < powerRZ 2 e)%R.
Proof. apply powerRZ_lt. lra. Qed.

Lemma p2_add a b : powerRZ 2 (a + b) = (powerRZ 2 a * powerRZ 2 b)%R.
Proof. apply powerRZ_add. lra. Qed.

Lemma p2_IZR k : 0 <= k -> IZR (2 ^ k) = powerRZ 2 k.
Proof.
  intros Hk. destruct k as [|p|p]; [reflexivity| |lia].
  change (2 ^ Z.pos p) with (Z.pow_pos 2 p). apply Zpower_pos_powerRZ.
Qed.

(** Rounding a positive value [V] located by [(mx, ex)]: the result is
    within one unit in the last place, hence within [2^-52] of itself. *)
Lemma round_R mx ex lx (V : R) :
  0 < mx -> 53 <= Zdigits2 mx -> -1074 <= ex -> ex + (Zdigits2 mx - 53) < 971 ->
  (IZR mx * powerRZ 2 ex <= V <= (IZR mx + 1) * powerRZ 2 ex)%R ->
  exists m e,
    binary_round_aux 53 1024 false mx ex lx = S754_finite false m e
    /\ 2 ^ 52 <= Z.pos m < 2 ^ 53
    /\ ex <= e <= ex + (Zdigits2 mx - 53) + 1
    /\ (- (Binary64.F2R m e / 4503599627370496) <= Binary64.F2R m e - V
        <= Binary64.F2R m e / 4503599627370496)%R.
Proof.
  intros Hm Hd Hex Hmax HV.
  destruct (binary_round_aux_spec mx ex lx Hm Hd Hex Hmax)
    as (m & e & k & E & Hk & He & HD & Hcanon & _).
  set (n := Zdigits2 mx - 53) in *. set (lo := mx / 2 ^ n) in *.
  assert (Hn : 0 <= n) by (unfold n; lia).
  exists m, e. split; [exact E|]. split; [exact Hcanon|]. split; [lia|].
  pose proof (truncated_bounds mx n Hm Hn ltac:(unfold n; lia)) as Hlo. fold lo in Hlo.
  (* the unit in the last place, and the two neighbours *)
  set (U := (powerRZ 2 ex * powerRZ 2 n)%R).
  assert (HU : (0 < U)%R) by (apply Rmult_lt_0_compat; apply p2_pos).
  assert (Hres : Binary64.F2R m e = (IZR (Z.pos m * 2 ^ k) * U)%R).
  { unfold Binary64.F2R, U. rewrite He, !p2_add, mult_IZR, p2_IZR by lia. ring. }
  assert (Hdiv : 2 ^ n * lo <= mx < 2 ^ n * (lo + 1)).
  { assert (P : 0 < 2 ^ n) by (apply Z.pow_pos_nonneg; lia).
    unfold lo. pose proof (Z.mul_div_le mx (2 ^ n) P).
    pose proof (Z.mul_succ_div_gt mx (2 ^ n) P). lia. }
  assert (HloV : (IZR lo * U <= V <= (IZR lo + 1) * U)%R).
  { destruct Hdiv as [D1 D2].
    assert (D2' : mx + 1 <= 2 ^ n * (lo + 1)) by lia.
    apply IZR_le in D1, D2'.
    rewrite mult_IZR, p2_IZR in D1 by lia.
    rewrite mult_IZR, !plus_IZR, p2_IZR in D2' by lia.
    pose proof (p2_pos ex) as Pex. pose proof (p2_pos n) as Pn.
    unfold U. destruct HV as [V1 V2]. split.
    - apply Rle_trans with (IZR mx * powerRZ 2 ex)%R; [|exact V1].
      replace (IZR lo * (powerRZ 2 ex * powerRZ 2 n))%R
        with ((powerRZ 2 n * IZR lo) * powerRZ 2 ex)%R by ring.
      apply Rmult_le_compat_r; lra.
    - apply Rle_trans with ((IZR mx + 1) * powerRZ 2 ex)%R; [exact V2|].
      replace ((IZR lo + 1) * (powerRZ 2 ex * powerRZ 2 n))%R
        with ((powerRZ 2 n * (IZR lo + 1)) * powerRZ 2 ex)%R by ring.
      apply Rmult_le_compat_r; lra. }
  assert (Hlo52 : (4503599627370496 <= IZR lo)%R).
  { apply IZR_le. change (2 ^ 52) with 4503599627370496 in Hlo. lia. }
  rewrite Hres.
  assert (HloU : (4503599627370496 * U <= IZR lo * U)%R)
    by (apply Rmult_le_compat_r; lra).
  destruct HD as [-> | ->]; rewrite ?plus_IZR; lra.
Qed.

Lemma iter_xO p s : Z.pos (Pos.iter xO p s) = Z.pos p * 2 ^ Z.pos s.
Proof.
  induction s as [|s IH] using Pos.peano_ind.
  - simpl. lia.
  - rewrite Pos.iter_succ, Pos2Z.inj_succ, Z.pow_succ_r by lia.
    change (Z.pos (Pos.iter xO p s)~0) with (2 * Z.pos (Pos.iter xO p s)). lia.
Qed.

(** An integer below [2^53] is a Number, exactly: its mantissa is the
    integer padded with zeros to 53 digits. *)
Lemma Number_of_Z_normal n :
  0 < n < 2 ^ 53 ->
  exists m e,
    Number_of_Z n = S754_finite false m e
    /\ 2 ^ 52 <= Z.pos m < 2 ^ 53
    /\ -52 <= e <= 0
    /\ Z.pos m = n * 2 ^ (- e).
Proof.
  intros [Hn Hhi]. destruct n as [|p|p]; try lia.
  unfold Number_of_Z, binary_normalize, binary_round, JS.prec, JS.emax.
  pose proof (digits_bounds p) as [Lo Hi].
  set (d := Z.pos (digits2_pos p)) in *.
  assert (Hd : 1 <= d <= 53).
  { split; [unfold d; lia|].
    destruct (Z.le_gt_cases d 53) as [|Hgt]; [assumption|].
    assert (2 ^ 53 <= 2 ^ (d - 1)) by (apply Z.pow_le_mono_r; lia). lia. }
  rewrite fexp_normal by lia.
  unfold shl_align.
  destruct (d + 0 - 53 - 0) as [|s|s] eqn:Es; try lia.
  - (* already 53 digits *)
    destruct (binary_round_aux_spec (Z.pos p) 0 loc_Exact) as (m & e & k & E & _ & _ & _ & C & X);
      [lia | simpl; fold d; lia | lia | simpl; fold d; lia |].
    destruct X as [Xm Xe]; [simpl; fold d; lia | reflexivity |].
    exists m, e. split; [exact E|]. split; [exact C|]. split; [lia|].
    rewrite Xm, Xe. simpl. lia.
  - (* padded with [53 - d] zeros *)
    assert (Hs : Z.pos s = 53 - d) by lia.
    pose proof (iter_xO p s) as Hmz. set (mz := Pos.iter xO p s) in *.
    assert (P : 0 < 2 ^ Z.pos s) by (apply Z.pow_pos_nonneg; lia).
    assert (Hcanon : 2 ^ 52 <= Z.pos mz < 2 ^ 53).
    { assert (E52 : 2 ^ 52 = 2 ^ (d - 1) * 2 ^ Z.pos s)
        by (rewrite <- Z.pow_add_r by lia; f_equal; lia).
      assert (E53 : 2 ^ 53 = 2 ^ d * 2 ^ Z.pos s)
        by (rewrite <- Z.pow_add_r by lia; f_equal; lia).
      rewrite Hmz, E52, E53. split.
      - apply Z.mul_le_mono_nonneg_r; lia.
      - apply Z.mul_lt_mono_pos_r; lia. }
    assert (Dz : Zdigits2 (Z.pos mz) = 53) by (apply Zdigits2_unique; simpl; lia).
    destruct (binary_round_aux_spec (Z.pos mz) (d + 0 - 53) loc_Exact)
      as (m & e & k & E & _ & _ & _ & C & X); [lia | lia | lia | lia |].
    destruct X as [Xm Xe]; [lia | reflexivity |].
    exists m, e. split; [exact E|]. split; [exact C|]. split; [lia|].
    rewrite Xm, Xe, Hmz. f_equal. f_equal. lia.
Qed.

Lemma scaled_F2R m e n : e <= 0 -> Z.pos m = n * 2 ^ (- e) -> Binary64.F2R m e = IZR n.
Proof.
  intros He Hm. unfold Binary64.F2R. rewrite Hm, mult_IZR, p2_IZR by lia.
  rewrite Rmult_assoc, <- p2_add. replace (- e + e) with 0 by lia. simpl. ring.
Qed.

Lemma F2R_pos m e : (0 < Binary64.F2R m e)%R.
Proof.
  unfold Binary64.F2R. apply Rmult_lt_0_compat; [|apply p2_pos].
  apply IZR_lt. lia.
Qed.

(** Division of two normal Numbers. *)
Lemma Number_div_R mx ex my ey :
  2 ^ 52 <= Z.pos mx < 2 ^ 53 -> 2 ^ 52 <= Z.pos my < 2 ^ 53 ->
  -52 <= ex <= 0 -> -52 <= ey <= 0 ->
  exists m e,
    Number_div (S754_finite false mx ex) (S754_finite false my ey) = S754_finite false m e
    /\ 2 ^ 52 <= Z.pos m < 2 ^ 53
    /\ -105 <= e <= 1
    /\ (- (Binary64.F2R m e / 4503599627370496) <= Binary64.F2R m e - Binary64.F2R mx ex / Binary64.F2R my ey
        <= Binary64.F2R m e / 4503599627370496)%R.
Proof.
  intros Hmx Hmy Hex Hey.
  unfold Number_div, SFdiv, SFdiv_core_binary, JS.prec, JS.emax. cbn [xorb].
  rewrite (Zdigits2_unique (Z.pos mx) 53), (Zdigits2_unique (Z.pos my) 53)
    by (simpl; lia).
  rewrite fexp_normal by lia.
  replace (Z.min (53 + ex - (53 + ey) - 53) (ex - ey)) with (ex - ey - 53) by lia.
  replace (ex - ey - (ex - ey - 53)) with 53 by lia.
  cbv iota. rewrite Z.shiftl_mul_pow2 by lia.
  pose proof (Z_div_mod (Z.pos mx * 2 ^ 53) (Z.pos my) ltac:(lia)) as DM.
  destruct (Z.div_eucl (Z.pos mx * 2 ^ 53) (Z.pos my)) as [q r].
  destruct DM as [DM Hr].
  change (2 ^ 52) with 4503599627370496 in *.
  change (2 ^ 53) with 9007199254740992 in *.
  assert (Hq : 4503599627370496 <= q < 18014398509481984) by nia.
  assert (Dq : Zdigits2 q = 53 \/ Zdigits2 q = 54).
  { destruct (Z.lt_ge_cases q 9007199254740992).
    - left. apply Zdigits2_unique; simpl; lia.
    - right. apply Zdigits2_unique; simpl; lia. }
  destruct (round_R q (ex - ey - 53) (new_location (Z.pos my) r)
              (Binary64.F2R mx ex / Binary64.F2R my ey))
    as (m & e & E & C & He & A); [lia | lia | lia | lia | |].
  - (* the quotient locates the exact ratio *)
    unfold Binary64.F2R.
    replace (ex - ey - 53) with (ex + (- ey + -53)) by lia.
    rewrite !p2_add.
    pose proof (p2_pos ex) as Pa. pose proof (p2_pos ey) as Pb.
    pose proof (p2_pos (- ey)) as Pb'.
    assert (Ib : (powerRZ 2 ey * powerRZ 2 (- ey) = 1)%R).
    { rewrite <- p2_add. replace (ey + - ey) with 0 by lia. reflexivity. }
    assert (I53 : (powerRZ 2 (-53) * 9007199254740992 = 1)%R).
    { change 9007199254740992%R with (IZR (2 ^ 53)). rewrite p2_IZR by lia.
      rewrite <- p2_add. reflexivity. }
    assert (Hmy0 : (0 < IZR (Z.pos my))%R) by (apply IZR_lt; lia).
    assert (Q1 : (IZR (Z.pos my) * IZR q <= IZR (Z.pos mx) * 9007199254740992)%R).
    { rewrite <- !mult_IZR. apply IZR_le. lia. }
    assert (Q2 : (IZR (Z.pos mx) * 9007199254740992 <= IZR (Z.pos my) * (IZR q + 1))%R).
    { change 1%R with (IZR 1). rewrite <- plus_IZR, <- !mult_IZR. apply IZR_le. lia. }
    set (a := powerRZ 2 ex) in *. set (b := powerRZ 2 ey) in *.
    set (b' := powerRZ 2 (- ey)) in *. set (h := powerRZ 2 (-53)) in *.
    set (X := IZR (Z.pos mx)) in *. set (Y := IZR (Z.pos my)) in *.
    assert (Hh : (0 < h)%R) by apply p2_pos.
    replace (X * a / (Y * b))%R with ((X * 9007199254740992 / Y) * (a * (b' * h)))%R.
    2:{ replace b' with (/ b)%R by (apply Rmult_eq_reg_l with b; [rewrite Ib; field|]; lra).
        replace h with (/ 9007199254740992)%R
          by (apply Rmult_eq_reg_r with 9007199254740992%R; [rewrite I53; field|]; lra).
        field. lra. }
    assert (Hs : (0 < a * (b' * h))%R) by (repeat apply Rmult_lt_0_compat; assumption).
    split; apply Rmult_le_compat_r; try lra.
    + apply Rmult_le_reg_r with Y; [assumption|].
      replace (X * 9007199254740992 / Y * Y)%R with (X * 9007199254740992)%R by (field; lra).
      lra.
    + apply Rmult_le_reg_r with Y; [assumption|].
      replace (X * 9007199254740992 / Y * Y)%R with (X * 9007199254740992)%R by (field; lra).
      lra.
  - exists m, e. split; [exact E|]. split; [exact C|]. split; [lia | exact A].
Qed.

(** Multiplication of two normal Numbers of moderate exponent. *)
Lemma Number_mul_R mx ex my ey :
  2 ^ 52 <= Z.pos mx < 2 ^ 53 -> 2 ^ 52 <= Z.pos my < 2 ^ 53 ->
  -105 <= ex <= 1 -> -52 <= ey <= 0 ->
  exists m e,
    Number_mul (S754_finite false mx ex) (S754_finite false my ey) = S754_finite false m e
    /\ 2 ^ 52 <= Z.pos m < 2 ^ 53
    /\ (- (Binary64.F2R m e / 4503599627370496) <= Binary64.F2R m e - Binary64.F2R mx ex * Binary64.F2R my ey
        <= Binary64.F2R m e / 4503599627370496)%R.
Proof.
  intros Hmx Hmy Hex Hey.
  unfold Number_mul, SFmul, JS.prec, JS.emax. cbn [xorb].
  change (2 ^ 52) with 4503599627370496 in *.
  change (2 ^ 53) with 9007199254740992 in *.
  assert (HP : 2 ^ 104 <= Z.pos (mx * my) < 2 ^ 106).
  { rewrite Pos2Z.inj_mul.
    change (2 ^ 104) with (4503599627370496 * 4503599627370496).
    change (2 ^ 106) with (9007199254740992 * 9007199254740992). nia. }
  assert (DP : Zdigits2 (Z.pos (mx * my)) = 105 \/ Zdigits2 (Z.pos (mx * my)) = 106).
  { destruct (Z.lt_ge_cases (Z.pos (mx * my)) (2 ^ 105)).
    - left. apply Zdigits2_unique; [lia|]. change (105 - 1) with 104. lia.
    - right. apply Zdigits2_unique; [lia|]. change (106 - 1) with 105. lia. }
  destruct (round_R (Z.pos (mx * my)) (ex + ey) loc_Exact (Binary64.F2R mx ex * Binary64.F2R my ey))
    as (m & e & E & C & He & A); [lia | lia | lia | lia | |].
  - unfold Binary64.F2R. rewrite Pos2Z.inj_mul, mult_IZR, p2_add.
    pose proof (p2_pos ex). pose proof (p2_pos ey).
    assert (0 < IZR (Z.pos mx))%R by (apply IZR_lt; lia).
    assert (0 < IZR (Z.pos my))%R by (apply IZR_lt; lia).
    split; [right; ring|].
    replace (IZR (Z.pos mx) * powerRZ 2 ex * (IZR (Z.pos my) * powerRZ 2 ey))%R
      with (IZR (Z.pos mx) * IZR (Z.pos my) * (powerRZ 2 ex * powerRZ 2 ey))%R by ring.
    apply Rmult_le_compat_r.
    + apply Rmult_le_pos; lra.
    + lra.
  - exists m, e. split; [exact E|]. split; [exact C | exact A].
Qed.

(** [Math.round] takes the floor of the value plus one half. *)
Lemma floor_half_up_R m e :
  (IZR (floor_half_up (Z.pos m) e) <= Binary64.F2R m e + 1 / 2 < IZR (floor_half_up (Z.pos m) e) + 1)%R.
Proof.
  unfold floor_half_up, Binary64.F2R. destruct (Z.leb_spec 0 e) as [He | He].
  - rewrite mult_IZR, p2_IZR by lia. lra.
  - set (N := 2 * Z.pos m + 2 ^ (- e)). set (D := 2 ^ (1 - e)).
    assert (PD : 0 < D) by (apply Z.pow_pos_nonneg; lia).
    pose proof (Z.mul_div_le N D PD) as L1.
    pose proof (Z.mul_succ_div_gt N D PD) as L2.
    set (r := N / D) in *.
    apply IZR_le in L1. apply IZR_lt in L2.
    assert (ED : IZR D = (2 * powerRZ 2 (- e))%R).
    { unfold D. rewrite p2_IZR by lia. replace (1 - e) with (1 + - e) by lia.
      rewrite p2_add. simpl. ring. }
    assert (EN : IZR N = (2 * IZR (Z.pos m) + powerRZ 2 (- e))%R).
    { unfold N. rewrite plus_IZR, mult_IZR, p2_IZR by lia. reflexivity. }
    rewrite mult_IZR in L1. rewrite mult_IZR, succ_IZR in L2. rewrite ED, EN in *.
    pose proof (p2_pos (- e)) as Pn. pose proof (p2_pos e) as Pe.
    assert (I : (powerRZ 2 e * powerRZ 2 (- e) = 1)%R).
    { rewrite <- p2_add. replace (e + - e) with 0 by lia. reflexivity. }
    set (w := powerRZ 2 (- e)) in *. set (v := powerRZ 2 e) in *.
    set (M := IZR (Z.pos m)) in *.
    (* multiply the goal by [2 * w] *)
    assert (G : (2 * w * (M * v + 1 / 2) = 2 * M + w)%R).
    { replace (2 * w * (M * v + 1 / 2))%R with (2 * M * (v * w) + w)%R by field.
      rewrite I. ring. }
    split.
    + apply Rmult_le_reg_l with (2 * w)%R; [lra|]. rewrite G. lra.
    + apply Rmult_lt_reg_l with (2 * w)%R; [lra|]. rewrite G. lra.
Qed.

Lemma Math_round_finite m e :
  Math_round (S754_finite false m e) = Number_of_Z (floor_half_up (Z.pos m) e).
Proof.
  unfold Math_round, Number_of_Z.
  destruct (Z.eqb_spec (floor_half_up (Z.pos m) e) 0) as [-> | _]; reflexivity.
Qed.

(** ** The displayed percentage *)

Lemma percentage_is_nearest c t :
  0 <= c <= t -> 0 < t < 2 ^ 32 ->
  exists r,
    Math_round (Number_mul (Number_div (Number_of_Z c) (Number_of_Z t)) (Number_of_Z 100))
    = Number_of_Z r
    /\ 2 * Z.abs (t * r - 100 * c) <= t.
Proof.
  intros Hc Ht. change (2 ^ 32) with 4294967296 in Ht.
  destruct (Number_of_Z_normal t) as (mt & et & Et & Ct & Het & Vt);
    [change (2 ^ 53) with 9007199254740992; lia|].
  destruct (Z.eq_dec c 0) as [-> | Hc0].
  { exists 0. rewrite Et. split; [reflexivity | lia]. }
  destruct (Number_of_Z_normal c) as (mc & ec & Ec & Cc & Hec & Vc);
    [change (2 ^ 53) with 9007199254740992; lia|].
  rewrite Ec, Et.
  destruct (Number_div_R mc ec mt et Cc Ct Hec Het) as (md & ed & Ed & Cd & Hed & Ad).
  rewrite Ed.
  change (Number_of_Z 100) with (S754_finite false 7036874417766400 (-46)).
  destruct (Number_mul_R md ed 7036874417766400 (-46) Cd ltac:(simpl; lia) Hed ltac:(lia))
    as (mp & ep & Ep & Cp & Ap).
  rewrite Ep, Math_round_finite.
  set (r := floor_half_up (Z.pos mp) ep).
  exists r. split; [reflexivity|].
  pose proof (floor_half_up_R mp ep) as [R1 R2]. fold r in R1, R2.
  assert (V100 : Binary64.F2R 7036874417766400 (-46) = 100%R).
  { unfold Binary64.F2R.
    replace (IZR (Z.pos 7036874417766400)) with (100 * IZR (2 ^ 46))%R
      by (rewrite <- mult_IZR; reflexivity).
    rewrite p2_IZR by lia. rewrite Rmult_assoc, <- p2_add. simpl. ring. }
  apply scaled_F2R in Vc, Vt; try lia.
  rewrite Vc, Vt in Ad. rewrite V100 in Ap.
  pose proof (F2R_pos md ed) as Pd. pose proof (F2R_pos mp ep) as Pp.
  set (d := Binary64.F2R md ed) in *. set (p := Binary64.F2R mp ep) in *.
  assert (HT : (1 <= IZR t <= 4294967296)%R) by (split; apply IZR_le; lia).
  assert (HC : (1 <= IZR c <= IZR t)%R) by (split; apply IZR_le; lia).
  set (X := (IZR c / IZR t)%R) in *.
  assert (HX : (X * IZR t = IZR c)%R) by (unfold X; field; lra).
  assert (HX1 : (0 < X <= 1)%R).
  { split.
    - unfold X. apply Rdiv_lt_0_compat; lra.
    - apply Rmult_le_reg_r with (IZR t); [lra|]. rewrite HX. lra. }
  (* the product is within 2^-43 of the exact percentage *)
  assert (Hnear : (- / 8796093022208 <= p - 100 * X <= / 8796093022208)%R) by lra.
  assert (Hscaled : (- / 2048 <= IZR t * (p - 100 * X) <= / 2048)%R).
  { destruct Hnear as [N1 N2]. split.
    - apply Rle_trans with (IZR t * - / 8796093022208)%R; [lra|].
      apply Rmult_le_compat_l; lra.
    - apply Rle_trans with (IZR t * / 8796093022208)%R; [|lra].
      apply Rmult_le_compat_l; lra. }
  replace (IZR t * (p - 100 * X))%R with (IZR t * p - 100 * IZR c)%R in Hscaled
    by (rewrite <- HX; ring).
  assert (U1 : (IZR t * IZR r <= IZR t * (p + 1 / 2))%R)
    by (apply Rmult_le_compat_l; lra).
  assert (U2 : (IZR t * (p + 1 / 2) < IZR t * (IZR r + 1))%R)
    by (apply Rmult_lt_compat_l; lra).
  assert (Z1 : 2 * (t * r) < 200 * c + t + 1).
  { apply lt_IZR. rewrite !plus_IZR, !mult_IZR. lra. }
  assert (Z2 : 200 * c - t - 1 < 2 * (t * r) + 2 * t - 2 * t).
  { apply lt_IZR. rewrite !minus_IZR, !plus_IZR, !mult_IZR. lra. }
  lia.
Qed.

(** C6: for a goal with fewer than 2^32 milestones, both views show an
    integer [r] with [|r - 100 * completed / total| <= 1/2], that is the
    percentage rounded to a nearest integer, and 0 when there is no
    milestone; with one of three milestones completed they show 33. *)
Theorem C6_progress_is_the_rounded_share (goal : Goal.t) :
  let total := Z.of_nat (length (Goal.milestones goal)) in
  let completed :=
    Z.of_nat (length (List.filter Milestone.completed (Goal.milestones goal))) in
  total < 2 ^ 32 ->
  exists r : Z,
    GoalDetails.getProgressPercentage goal = Number_of_Z r
    /\ GoalsList.getProgressPercentage goal = Number_of_Z r
    /\ (total = 0 -> r = 0)
    /\ 2 * Z.abs (total * r - 100 * completed) <= total
    /\ 0 <= r <= 100
    /\ (total = 3 -> completed = 1 -> r = 33).
Proof.
  intros total completed Hsmall.
  assert (Hc : 0 <= completed <= total).
  { unfold completed, total. split; [lia|].
    apply Nat2Z.inj_le, List.filter_length_le. }
  unfold GoalDetails.getProgressPercentage, GoalsList.getProgressPercentage.
  fold total completed.
  destruct (Z.ltb_spec 0 total) as [Hpos | Hzero].
  - destruct (percentage_is_nearest completed total Hc (conj Hpos Hsmall)) as (r & E & Hr).
    exists r. rewrite E. repeat split; try reflexivity; try lia; nia.
  - exists 0. repeat split; try reflexivity; lia.
Qed.

(** C6 at the sample goal: one of its three milestones is completed. *)
Lemma C6_witness :
  GoalDetails.getProgressPercentage Sample.goal = Number_of_Z 33
  /\ GoalsList.getProgressPercentage Sample.goal = Number_of_Z 33.
Proof.
  destruct (C6_progress_is_the_rounded_share Sample.goal ltac:(vm_compute; reflexivity))
    as (r & E1 & E2 & _ & _ & _ & H33).
  rewrite E1, E2, (H33 eq_refl eq_refl). split; reflexivity.
Defined.

(** At an exact half the product can fall just below it: 29 of 200 gives
    14.499999999999998, shown as 14; 14 and 15 are both nearest to 14.5. *)
Lemma progress_at_a_tie :
  Math_round (Number_mul (Number_div (Number_of_Z 29) (Number_of_Z 200)) (Number_of_Z 100))
  = Number_of_Z 14.
Proof. vm_compute. reflexivity. Qed.

(** ** Halving a time value *)

Lemma shr_1_even k :
  0 < k ->
  shr_1 {| shr_m := 2 * k; shr_r := false; shr_s := false |}
  = {| shr_m := k; shr_r := false; shr_s := false |}.
Proof. intros Hk. destruct k as [|q|q]; try lia. reflexivity. Qed.

(** Shifting out zeros leaves the location exact. *)
Lemma iter_shr_exact p k :
  0 < k ->
  SpecFloat.iter_pos shr_1 p {| shr_m := k * 2 ^ Z.pos p; shr_r := false; shr_s := false |}
  = {| shr_m := k; shr_r := false; shr_s := false |}.
Proof.
  revert k. induction p as [p IH|p IH|]; intros k Hk; cbn [SpecFloat.iter_pos].
  - assert (P : 0 < 2 ^ Z.pos p) by (apply Z.pow_pos_nonneg; lia).
    replace (k * 2 ^ Z.pos p~1) with (2 * ((k * 2 ^ Z.pos p) * 2 ^ Z.pos p)).
    2:{ replace (Z.pos p~1) with (1 + Z.pos p + Z.pos p) by lia.
        rewrite !Z.pow_add_r by lia. change (2 ^ 1) with 2. ring. }
    rewrite shr_1_even by nia. rewrite IH by nia. apply IH. exact Hk.
  - assert (P : 0 < 2 ^ Z.pos p) by (apply Z.pow_pos_nonneg; lia).
    replace (k * 2 ^ Z.pos p~0) with ((k * 2 ^ Z.pos p) * 2 ^ Z.pos p).
    2:{ replace (Z.pos p~0) with (Z.pos p + Z.pos p) by lia.
        rewrite !Z.pow_add_r by lia. ring. }
    rewrite IH by nia. apply IH. exact Hk.
  - change (2 ^ 1) with 2. rewrite Z.mul_comm. apply shr_1_even. exact Hk.
Qed.

(** A 53-digit mantissa followed by [n] zeros rounds to itself. *)
Lemma binary_round_aux_exact m n ex :
  2 ^ 52 <= Z.pos m < 2 ^ 53 -> 0 < n -> -1074 <= ex -> ex + n <= 971 ->
  binary_round_aux 53 1024 false (Z.pos m * 2 ^ n) ex loc_Exact
  = S754_finite false m (ex + n).
Proof.
  intros Hm Hn Hex Hmax.
  assert (P : 0 < 2 ^ n) by (apply Z.pow_pos_nonneg; lia).
  assert (D : Zdigits2 (Z.pos m * 2 ^ n) = 53 + n).
  { apply Zdigits2_unique; [nia|].
    replace (53 + n - 1) with (52 + n) by lia.
    rewrite !Z.pow_add_r by lia. split.
    - apply Z.mul_le_mono_nonneg_r; lia.
    - apply Z.mul_lt_mono_pos_r; lia. }
  unfold binary_round_aux, shr_fexp. rewrite D, fexp_normal by lia.
  replace (53 + n + ex - 53 - ex) with n by lia.
  destruct n as [|p|p]; try lia.
  cbn [shr shr_record_of_loc]. rewrite iter_shr_exact by lia.
  cbn [loc_of_shr_record shr_m round_nearest_even].
  rewrite (Zdigits2_unique (Z.pos m) 53) by (simpl; lia).
  rewrite fexp_normal by lia.
  replace (53 + (ex + Z.pos p) - 53 - (ex + Z.pos p)) with 0 by lia.
  cbn [shr shr_record_of_loc shr_m].
  replace (ex + Z.pos p <=? 1024 - 53) with true by (symmetry; apply Z.leb_le; lia).
  reflexivity.
Qed.

(** [new Date(t * 0.5)] for a positive time value [t] in the range of
    [Date] is the date at [t / 2]. *)
Lemma half_time t :
  0 < t <= 8640000000000000 ->
  Date_of_Number (Number_mul (getTime (DateMs t)) (S754_finite false 4503599627370496 (-53)))
  = DateMs (t / 2).
Proof.
  intros Ht. cbn [getTime].
  destruct (Number_of_Z_normal t) as (m & e & E & C & He & V);
    [change (2 ^ 53) with 9007199254740992; lia|].
  rewrite E. unfold Number_mul, SFmul, JS.prec, JS.emax. cbn [xorb].
  rewrite Pos2Z.inj_mul. change (Z.pos 4503599627370496) with (2 ^ 52).
  rewrite binary_round_aux_exact by lia.
  unfold Date_of_Number, Number_trunc.
  replace (0 <=? e + -53 + 52) with false by (symmetry; apply Z.leb_gt; lia).
  assert (Q : Z.pos m / 2 ^ (- (e + -53 + 52)) = t / 2).
  { rewrite V. replace (- (e + -53 + 52)) with (1 + - e) by lia.
    rewrite Z.pow_add_r by lia. change (2 ^ 1) with 2.
    apply Z.div_mul_cancel_r; [lia|].
    apply Z.pow_nonzero; lia. }
  rewrite Q.
  assert (0 <= t / 2 <= 8640000000000000).
  { split; [apply Z.div_pos; lia|]. apply Z.div_le_upper_bound; lia. }
  replace (Z.abs (t / 2) <=? 8640000000000000) with true
    by (symmetry; apply Z.leb_le; lia).
  reflexivity.
Qed.

Section GuidedMilestones.
Context `{Platform}.

Lemma guidedMilestone_dated t milestone n :
  0 < t <= 8640000000000000 ->
  exists m,
    AIGoalCreation.guidedMilestone (JDate (DateMs t)) milestone n = (Eff.Normal m, S n)
    /\ Draft.Milestone.targetDate m = JDate (DateMs (t / 2)).
Proof.
  intros Ht. unfold AIGoalCreation.guidedMilestone.
  cbv beta delta [Eff.bind Eff.ret Eff.randomUUID Dyn.getTime] iota.
  eexists. split; [reflexivity|].
  cbn [Draft.Milestone.targetDate]. rewrite (half_time t Ht). reflexivity.
Qed.

Lemma guidedMilestones_dated t l n :
  0 < t <= 8640000000000000 ->
  exists ms,
    Eff.mapM (AIGoalCreation.guidedMilestone (JDate (DateMs t))) l n
    = (Eff.Normal ms, (n + length l)%nat)
    /\ length ms = length l
    /\ Forall (fun m => Draft.Milestone.targetDate m = JDate (DateMs (t / 2))) ms.
Proof.
  intros Ht. revert n. induction l as [|x l IH]; intros n; cbn [Eff.mapM].
  - exists []. unfold Eff.ret. split; [f_equal; simpl; lia|]. split; [reflexivity | constructor].
  - destruct (guidedMilestone_dated t x n Ht) as (m & Em & Dm).
    destruct (IH (S n)) as (ms & Ems & Lms & Fms).
    exists (m :: ms). unfold Eff.bind at 1. rewrite Em.
    unfold Eff.bind at 1. rewrite Ems. unfold Eff.ret.
    split; [f_equal; simpl; lia|]. split; [simpl; congruence|].
    constructor; assumption.
Qed.

(** C3: at step 5, for every target date [t] in the range of [Date] and
    every answer, each synthesized milestone is dated [t / 2], half the
    target's epoch time; the clock is not read, and for a clock value
    [now >= 2] this is earlier than [now + (t - now) / 2]. *)
Theorem C3_step_five_halves_the_epoch_time aiResponse now st n t :
  AIGoalCreation.currentStep st = 5 ->
  String.eqb (trim (AIGoalCreation.input st)) "" = false ->
  Draft.Goal.targetDate (AIGoalCreation.goalData st) = JDate (DateMs t) ->
  0 < t <= 8640000000000000 ->
  exists st' n' ms,
    AIGoalCreation.handleSendMessage aiResponse now st n = (Eff.Normal st', n')
    /\ AIGoalCreation.currentStep st' = 6
    /\ Draft.Goal.milestones (AIGoalCreation.goalData st') = Some ms
    /\ length ms = length (split "," (AIGoalCreation.input st))
    /\ Forall (fun m => Draft.Milestone.targetDate m = JDate (DateMs (t / 2))) ms
    /\ (2 <= now -> t / 2 < now + (t - now) / 2).
Proof.
  intros Hstep Hin Ht Hrange. unfold AIGoalCreation.handleSendMessage.
  rewrite Hin, Hstep, Ht.
  destruct (guidedMilestones_dated t (split "," (AIGoalCreation.input st)) n Hrange)
    as (ms & E & L & F).
  unfold Eff.bind. rewrite E. unfold Eff.ret.
  eexists _, _, ms. split; [reflexivity|].
  split; [reflexivity|]. split; [reflexivity|]. split; [exact L|]. split; [exact F|].
  intros Hnow. pose proof (Z.div_mod t 2). pose proof (Z.mod_pos_bound t 2).
  pose proof (Z.div_mod (t - now) 2). pose proof (Z.mod_pos_bound (t - now) 2). lia.
Qed.

End GuidedMilestones.

(** C3 at target date 1800000000000 with the clock at 1790000000000: both
    milestones are dated 900000000000, not 1795000000000. *)
Lemma C3_at_the_failing_input :
  exists st' n' ms,
    AIGoalCreation.handleSendMessage (H := Sample.platform) "Good checkpoints."
      1790000000000
      (Sample.guided 5
         (Draft.set_targetDate (JDate (DateMs 1800000000000)) Draft.initial)
         "Run 1k, Run 3k")
      0%nat = (Eff.Normal st', n')
    /\ Draft.Goal.milestones (AIGoalCreation.goalData st') = Some ms
    /\ length ms = 2%nat
    /\ Forall (fun m => Draft.Milestone.targetDate m = JDate (DateMs 900000000000)) ms
    /\ 900000000000 < 1790000000000 + (1800000000000 - 1790000000000) / 2.
Proof.
  destruct (C3_step_five_halves_the_epoch_time (H := Sample.platform)
              "Good checkpoints." 1790000000000
              (Sample.guided 5
                 (Draft.set_targetDate (JDate (DateMs 1800000000000)) Draft.initial)
                 "Run 1k, Run 3k")
              0%nat 1800000000000 eq_refl eq_refl eq_refl ltac:(lia))
    as (st' & n' & ms & E & _ & M & L & F & D).
  exists st', n', ms. split; [exact E|]. split; [exact M|]. split; [exact L|].
  split; [exact F|]. apply D. lia.
Defined.

(** * Further properties of the handlers

    Properties of the code around the claims above: the other handlers of
    the same components, the functions they call and the forms that call
    them. *)

(** ** What the notification poll lists *)

Section Bell.
Context `{Platform}.

Lemma getDocs_inv p (goals : gmap string Goal.t) l g :
  Firestore.getDocs p Firestore.Delivered goals = Some l -> In g l ->
  exists k d, goals !! k = Some d /\ g = Goal.set_id k d /\ p g = true.
Proof.
  unfold Firestore.getDocs. intros E Hg. inversion E; subst l; clear E.
  apply List.filter_In in Hg as [Hg Hp].
  apply List.in_map_iff in Hg as ([k d] & <- & Hkd).
  apply list_elem_of_In, elem_of_map_to_list in Hkd.
  exists k, d. auto.
Qed.

Lemma activeGoals_inv u wd l g :
  NotificationBell.activeGoals u Firestore.Delivered wd = Some l -> In g l ->
  exists k d, goals_collection wd !! k = Some d /\ g = Goal.set_id k d
              /\ Goal.userId d = uid u /\ Goal.status d = "active"%string.
Proof.
  unfold NotificationBell.activeGoals. intros E Hg.
  destruct (getDocs_inv _ _ _ _ E Hg) as (k & d & Hk & -> & Hp).
  apply andb_true_iff in Hp as [Hu Hs].
  apply String.eqb_eq in Hu, Hs. exists k, d. auto.
Qed.

Lemma Date_leb_inv a b :
  Date_leb a b = true -> exists x y, a = DateMs x /\ b = DateMs y /\ x <= y.
Proof.
  destruct a as [|x], b as [|y]; simpl; try discriminate.
  intros E. apply Z.leb_le in E. eauto.
Qed.

Lemma dateAt_inv t y :
  NotificationBell.dateAt t = DateMs y -> y = t.
Proof.
  unfold NotificationBell.dateAt. destruct (Z.abs t <=? 8640000000000000); congruence.
Qed.

Lemma last_Some_inv {A} (l : list A) r :
  List.last (List.map Some l) None = Some r -> exists l', l = l' ++ [r].
Proof.
  induction l as [|x l IH]; [discriminate|].
  destruct l as [|y l].
  - simpl. intros E. inversion E. exists []. reflexivity.
  - intros E. change (List.last (List.map Some (y :: l)) None = Some r) in E.
    destruct (IH E) as [l' ->]. exists (x :: l'). reflexivity.
Qed.

Lemma last_None_inv {A} (l : list A) :
  List.last (List.map Some l) None = None -> l = [].
Proof.
  induction l as [|x l IH]; [reflexivity|].
  destruct l as [|y l]; [discriminate|].
  intros E. change (List.last (List.map Some (y :: l)) None = None) in E.
  discriminate (IH E).
Qed.

Lemma last_snoc {A} (l : list A) r :
  List.last (List.map Some (l ++ [r])) None = Some r.
Proof.
  rewrite List.map_app. apply List.last_last.
Qed.

End Bell.

(** X1: after a poll that reads the store, every notification in the list comes
    from a document of the signed-in user whose status is [active]: it is the
    notice of one of its incomplete milestones whose target date is valid and at
    most seven days after the poll, or its review notice, the goal having no
    reflection or a last one dated more than seven days before the poll, or its
    deadline notice, its target date being valid and at most seven days after
    the poll. *)
Theorem X1_bell_notices_are_justified (P : Platform) (now : Z) (wd : World)
  (st : NotificationBell.State) (u : User) (n : NotificationBell.Notification) :
  NotificationBell.user st = Some u ->
  In n (NotificationBell.notifications
          (NotificationBell.checkNotifications now Firestore.Delivered wd st)) ->
  exists k d,
    goals_collection wd !! k = Some d
    /\ Goal.userId d = uid u
    /\ Goal.status d = "active"%string
    /\ ((exists m due,
           In m (Goal.milestones d) /\ Milestone.completed m = false
           /\ Milestone.targetDate m = DateMs due /\ due <= now + NotificationBell.week
           /\ n = NotificationBell.milestoneNotice (Goal.set_id k d) m)
        \/ (n = NotificationBell.reviewNotice now (Goal.set_id k d)
            /\ (Goal.reflections d = []
                \/ exists earlier r t,
                     Goal.reflections d = earlier ++ [r]
                     /\ Reflection.date r = DateMs t /\ t + NotificationBell.week < now))
        \/ (exists due,
              Goal.targetDate d = Some (DateMs due) /\ due <= now + NotificationBell.week
              /\ n = NotificationBell.goalNotice (Goal.set_id k d) (DateMs due))).
Proof.
  intros Hu Hn. unfold NotificationBell.checkNotifications in Hn. rewrite Hu in Hn.
  destruct (NotificationBell.activeGoals u Firestore.Delivered wd) as [goals|] eqn:E;
    [|discriminate E].
  cbn [NotificationBell.notifications] in Hn. apply (proj1 (sort_In _ _)) in Hn.
  rewrite !List.in_app_iff, !List.in_concat in Hn.
  destruct Hn as [(l & Hl & Hn) | [(l & Hl & Hn) | (l & Hl & Hn)]];
    apply List.in_map_iff in Hl as (g & <- & Hg);
    destruct (activeGoals_inv u wd goals g E Hg) as (k & d & Hk & -> & Hd & Hs);
    exists k, d; (split; [exact Hk|]); (split; [exact Hd|]); (split; [exact Hs|]).
  - left. unfold NotificationBell.upcomingMilestones in Hn.
    apply List.in_map_iff in Hn as (m & <- & Hm).
    apply List.filter_In in Hm as [Hm Hc]. apply andb_true_iff in Hc as [Hc Hle].
    apply negb_true_iff in Hc.
    destruct (Date_leb_inv _ _ Hle) as (x & y & Hx & Hy & Hxy).
    apply dateAt_inv in Hy. subst y.
    exists m, x. auto.
  - right. left. unfold NotificationBell.reviewNeeded in Hn.
    cbn [Goal.set_id Goal.reflections] in Hn.
    destruct (List.last (List.map Some (Goal.reflections d)) None) as [r|] eqn:L.
    + destruct (last_Some_inv _ _ L) as [earlier Hr].
      destruct (Reflection.date r) as [|t] eqn:Ht; [destruct Hn|].
      destruct (Z.ltb_spec (t + NotificationBell.week) now) as [Hlt|]; [|destruct Hn].
      destruct Hn as [<- | []]. split; [reflexivity|]. right. exists earlier, r, t. auto.
    + apply last_None_inv in L. destruct Hn as [<- | []]. auto.
  - right. right. unfold NotificationBell.deadlineNear in Hn.
    cbn [Goal.set_id Goal.targetDate] in Hn.
    destruct (Goal.targetDate d) as [td|] eqn:T; [|destruct Hn].
    destruct (Date_leb td _) eqn:Hle; [|destruct Hn].
    destruct (Date_leb_inv _ _ Hle) as (x & y & -> & Hy & Hxy).
    apply dateAt_inv in Hy. subst y.
    destruct Hn as [<- | []]. exists x. auto.
Qed.

(** X1 at the sample store and the notice of milestone [m2]. *)
Lemma X1_bell_notices_are_justified_witness :
  exists k d,
    goals_collection Sample.world !! k = Some d
    /\ Goal.userId d = "u1"%string
    /\ Goal.status d = "active"%string.
Proof.
  destruct (X1_bell_notices_are_justified Sample.platform 1790000000000 Sample.world
              Sample.bell {| uid := "u1" |}
              (NotificationBell.milestoneNotice (H := Sample.platform)
                 (Goal.set_id "g1" Sample.goal) (Sample.milestone "m2" false 1790000400000))
              eq_refl)
    as (k & d & Hk & Hu & Hs & _).
  - vm_compute. left. reflexivity.
  - exists k, d. split; [exact Hk|]. split; [exact Hu | exact Hs].
Defined.

Lemma activeGoals_In `{Platform} u wd k d :
  goals_collection wd !! k = Some d -> Goal.userId d = uid u ->
  Goal.status d = "active"%string ->
  exists l, NotificationBell.activeGoals u Firestore.Delivered wd = Some l
            /\ In (Goal.set_id k d) l.
Proof.
  intros Hk Hd Hs. unfold NotificationBell.activeGoals.
  apply getDocs_In; [exact Hk|].
  cbn [Goal.set_id Goal.userId Goal.status]. rewrite Hd, Hs, !String.eqb_refl. reflexivity.
Qed.

Lemma review_due_is_listed `{Platform} (now : Z) (wd : World)
  (st : NotificationBell.State) (u : User) (k : string) (d : Goal.t) :
  NotificationBell.user st = Some u ->
  goals_collection wd !! k = Some d ->
  Goal.userId d = uid u ->
  Goal.status d = "active"%string ->
  (Goal.reflections d = []
   \/ exists earlier r t,
        Goal.reflections d = earlier ++ [r]
        /\ Reflection.date r = DateMs t /\ t + NotificationBell.week < now) ->
  In (NotificationBell.reviewNotice now (Goal.set_id k d))
     (NotificationBell.notifications
        (NotificationBell.checkNotifications now Firestore.Delivered wd st)).
Proof.
  intros Hu Hk Hd Hs Hr. unfold NotificationBell.checkNotifications. rewrite Hu.
  destruct (activeGoals_In u wd k d Hk Hd Hs) as (l & -> & Hl).
  cbn [NotificationBell.notifications]. apply sort_In.
  apply List.in_or_app. right. apply List.in_or_app. left.
  apply List.in_concat. eexists. split; [apply List.in_map; exact Hl|].
  unfold NotificationBell.reviewNeeded. cbn [Goal.set_id Goal.reflections].
  destruct Hr as [-> | (earlier & r & t & -> & Ht & Hlt)].
  - simpl. now left.
  - rewrite last_snoc, Ht.
    destruct (Z.ltb_spec (t + NotificationBell.week) now); [now left | lia].
Qed.

(** X2: after a poll, for every active goal of the signed-in user that has
    no reflection, or whose last reflection is dated more than seven days
    before the poll, the list holds a notification of type [review], titled
    [Review Needed], identified by the goal's id, dated at the poll time,
    unread, whose message names the goal. *)
Theorem X2_bell_asks_for_a_review_after_a_week (P : Platform) (now : Z) (wd : World)
  (st : NotificationBell.State) (u : User) (k : string) (d : Goal.t) :
  NotificationBell.user st = Some u ->
  goals_collection wd !! k = Some d ->
  Goal.userId d = uid u ->
  Goal.status d = "active"%string ->
  (Goal.reflections d = []
   \/ exists earlier r t,
        Goal.reflections d = earlier ++ [r]
        /\ Reflection.date r = DateMs t /\ t + NotificationBell.week < now) ->
  exists n,
    In n (NotificationBell.notifications
            (NotificationBell.checkNotifications now Firestore.Delivered wd st))
    /\ NotificationBell.id n = ("review-" +:+ k)%string
    /\ NotificationBell.type n = "review"%string
    /\ NotificationBell.title n = "Review Needed"%string
    /\ NotificationBell.message n
       = ("It's time for a weekly review of your goal " +:+ String (ascii_of_nat 34) ""
          +:+ Goal.title d +:+ String (ascii_of_nat 34) "")%string
    /\ NotificationBell.date n = DateMs now
    /\ NotificationBell.read n = false.
Proof.
  intros Hu Hk Hd Hs Hr. exists (NotificationBell.reviewNotice now (Goal.set_id k d)).
  split; [exact (review_due_is_listed now wd st u k d Hu Hk Hd Hs Hr)|].
  repeat split; reflexivity.
Qed.

(** X2 at the sample store, whose goal has no reflection. *)
Lemma X2_bell_asks_for_a_review_after_a_week_witness :
  exists n,
    In n (NotificationBell.notifications
            (NotificationBell.checkNotifications (H := Sample.platform)
               1790000000000 Firestore.Delivered Sample.world Sample.bell))
    /\ NotificationBell.id n = "review-g1"%string
    /\ NotificationBell.title n = "Review Needed"%string
    /\ NotificationBell.date n = DateMs 1790000000000.
Proof.
  destruct (X2_bell_asks_for_a_review_after_a_week Sample.platform 1790000000000 Sample.world
              Sample.bell {| uid := "u1" |} "g1" Sample.goal)
    as (n & Hn & Hid & _ & Ht & _ & Hd & _).
  - reflexivity.
  - vm_compute. reflexivity.
  - reflexivity.
  - reflexivity.
  - left. reflexivity.
  - exists n. split; [exact Hn|]. split; [exact Hid|]. split; [exact Ht | exact Hd].
Defined.

Lemma near_deadline_is_listed `{Platform} (now : Z) (wd : World)
  (st : NotificationBell.State) (u : User) (k : string) (d : Goal.t) (due : Z) :
  NotificationBell.user st = Some u ->
  Z.abs (now + NotificationBell.week) <= 8640000000000000 ->
  goals_collection wd !! k = Some d ->
  Goal.userId d = uid u ->
  Goal.status d = "active"%string ->
  Goal.targetDate d = Some (DateMs due) ->
  due <= now + NotificationBell.week ->
  In (NotificationBell.goalNotice (Goal.set_id k d) (DateMs due))
     (NotificationBell.notifications
        (NotificationBell.checkNotifications now Firestore.Delivered wd st)).
Proof.
  intros Hu Hrange Hk Hd Hs Ht Hdue. unfold NotificationBell.checkNotifications. rewrite Hu.
  destruct (activeGoals_In u wd k d Hk Hd Hs) as (l & -> & Hl).
  cbn [NotificationBell.notifications]. apply sort_In.
  apply List.in_or_app. right. apply List.in_or_app. right.
  apply List.in_concat. eexists. split; [apply List.in_map; exact Hl|].
  unfold NotificationBell.deadlineNear. cbn [Goal.set_id Goal.targetDate]. rewrite Ht.
  unfold NotificationBell.dateAt.
  destruct (Z.leb_spec (Z.abs (now + NotificationBell.week)) 8640000000000000); [|lia].
  simpl. destruct (Z.leb_spec due (now + NotificationBell.week)); [now left | lia].
Qed.

(** X3: after a poll, for every active goal of the signed-in user whose
    target date is valid and at most seven days after the poll, a date in the
    past included, the list holds a notification of type [goal], titled
    [Goal Deadline Approaching], identified by the goal's id, dated at the
    target date, unread, whose message names the goal and the date. *)
Theorem X3_bell_announces_a_near_deadline (P : Platform) (now : Z) (wd : World)
  (st : NotificationBell.State) (u : User) (k : string) (d : Goal.t) (due : Z) :
  NotificationBell.user st = Some u ->
  Z.abs (now + NotificationBell.week) <= 8640000000000000 ->
  goals_collection wd !! k = Some d ->
  Goal.userId d = uid u ->
  Goal.status d = "active"%string ->
  Goal.targetDate d = Some (DateMs due) ->
  due <= now + NotificationBell.week ->
  exists n,
    In n (NotificationBell.notifications
            (NotificationBell.checkNotifications now Firestore.Delivered wd st))
    /\ NotificationBell.id n = ("goal-" +:+ k)%string
    /\ NotificationBell.type n = "goal"%string
    /\ NotificationBell.title n = "Goal Deadline Approaching"%string
    /\ NotificationBell.message n
       = ("Your goal " +:+ String (ascii_of_nat 34) "" +:+ Goal.title d
          +:+ String (ascii_of_nat 34) "" +:+ " is due on "
          +:+ toLocaleDateString (DateMs due))%string
    /\ NotificationBell.date n = DateMs due
    /\ NotificationBell.read n = false.
Proof.
  intros Hu Hrange Hk Hd Hs Ht Hdue.
  exists (NotificationBell.goalNotice (Goal.set_id k d) (DateMs due)).
  split; [exact (near_deadline_is_listed now wd st u k d due Hu Hrange Hk Hd Hs Ht Hdue)|].
  repeat split; reflexivity.
Qed.

(** X3 at the sample store, polled five days before the target date. *)
Lemma X3_bell_announces_a_near_deadline_witness :
  exists n,
    In n (NotificationBell.notifications
            (NotificationBell.checkNotifications (H := Sample.platform)
               1799500000000 Firestore.Delivered Sample.world Sample.bell))
    /\ NotificationBell.id n = "goal-g1"%string
    /\ NotificationBell.title n = "Goal Deadline Approaching"%string
    /\ NotificationBell.date n = DateMs 1800000000000.
Proof.
  destruct (X3_bell_announces_a_near_deadline Sample.platform 1799500000000 Sample.world
              Sample.bell {| uid := "u1" |} "g1" Sample.goal 1800000000000)
    as (n & Hn & Hid & _ & Ht & _ & Hd & _).
  - reflexivity.
  - vm_compute. discriminate.
  - vm_compute. reflexivity.
  - reflexivity.
  - reflexivity.
  - reflexivity.
  - vm_compute. discriminate.
  - exists n. split; [exact Hn|]. split; [exact Hid|]. split; [exact Ht | exact Hd].
Defined.

Lemma later_stamp a b :
  Timeline.dated a -> Timeline.dated b -> NotificationBell.later a b = (Timeline.stamp b <? Timeline.stamp a).
Proof.
  intros [x Hx] [y Hy]. unfold NotificationBell.later, Timeline.stamp. rewrite Hx, Hy. reflexivity.
Qed.

Lemma insert_Forall (Q : NotificationBell.Notification -> Prop) x l :
  Q x -> Forall Q l -> Forall Q (NotificationBell.insert x l).
Proof.
  intros Hx Hl. apply List.Forall_forall. intros y Hy. apply (proj1 (insert_In _ _ _)) in Hy as [-> | Hy]; [exact Hx|].
  rewrite List.Forall_forall in Hl. auto.
Qed.

Lemma sort_Forall (Q : NotificationBell.Notification -> Prop) l :
  Forall Q l -> Forall Q (NotificationBell.sort l).
Proof.
  intros Hl. apply List.Forall_forall. intros y Hy. apply (proj1 (sort_In _ _)) in Hy.
  rewrite List.Forall_forall in Hl. auto.
Qed.

Lemma insert_sorted x l :
  Timeline.dated x -> Forall Timeline.dated l ->
  StronglySorted Z.ge (List.map Timeline.stamp l) ->
  StronglySorted Z.ge (List.map Timeline.stamp (NotificationBell.insert x l)).
Proof.
  intros Hx Hl Hs. induction l as [|y l IH]; simpl.
  - constructor; constructor.
  - inversion Hl as [|? ? Hy Hl']; subst.
    simpl in Hs. inversion Hs as [|? ? Hs' Hall]; subst.
    rewrite (later_stamp y x Hy Hx).
    destruct (Z.ltb_spec (Timeline.stamp x) (Timeline.stamp y)) as [Hlt | Hge]; simpl.
    + constructor; [apply IH; assumption|].
      apply List.Forall_forall. intros t Ht. apply List.in_map_iff in Ht as (z & <- & Hz).
      apply (proj1 (insert_In _ _ _)) in Hz as [-> | Hz]; [lia|].
      rewrite List.Forall_forall in Hall. apply Hall. apply List.in_map. exact Hz.
    + constructor; [constructor; assumption|].
      constructor; [lia|].
      rewrite List.Forall_forall in Hall |- *. intros t Ht. specialize (Hall t Ht). lia.
Qed.

Lemma sort_sorted l :
  Forall Timeline.dated l -> StronglySorted Z.ge (List.map Timeline.stamp (NotificationBell.sort l)).
Proof.
  intros Hl. unfold NotificationBell.sort. induction Hl as [|x l Hx Hl IH]; simpl.
  - constructor.
  - apply insert_sorted; [exact Hx | apply (sort_Forall Timeline.dated l Hl) | exact IH].
Qed.

Lemma dated_stamp l :
  Forall Timeline.dated l -> List.map NotificationBell.date l = List.map DateMs (List.map Timeline.stamp l).
Proof.
  induction 1 as [|x l [t Hx] _ IH]; simpl; [reflexivity|].
  rewrite IH. unfold Timeline.stamp. rewrite Hx. reflexivity.
Qed.

Lemma Forall_concat_map {A B} (Q : B -> Prop) (f : A -> list B) l :
  (forall a, Forall Q (f a)) -> Forall Q (List.concat (List.map f l)).
Proof.
  intros Hf. induction l; simpl; [constructor|]. apply List.Forall_app; auto.
Qed.

Section Produced.
Context `{Platform}.

Lemma upcoming_valid (Q : NotificationBell.Notification -> Prop) w g :
  (forall m t, Milestone.targetDate m = DateMs t -> Q (NotificationBell.milestoneNotice g m)) ->
  Forall Q (NotificationBell.upcomingMilestones w g).
Proof.
  intros HQ. unfold NotificationBell.upcomingMilestones.
  apply List.Forall_forall. intros n Hn. apply List.in_map_iff in Hn as (m & <- & Hm).
  apply List.filter_In in Hm as [_ Hc]. apply andb_true_iff in Hc as [_ Hle].
  destruct (Date_leb_inv _ _ Hle) as (x & _ & Hx & _). eapply HQ; eassumption.
Qed.

Lemma review_valid (Q : NotificationBell.Notification -> Prop) now g :
  Q (NotificationBell.reviewNotice now g) -> Forall Q (NotificationBell.reviewNeeded now g).
Proof.
  intros HQ. unfold NotificationBell.reviewNeeded.
  destruct (List.last _ _) as [r|]; [|repeat constructor; exact HQ].
  destruct (Reflection.date r); [constructor|].
  destruct (_ <? _); repeat constructor; exact HQ.
Qed.

Lemma deadline_valid (Q : NotificationBell.Notification -> Prop) w g :
  (forall t, Q (NotificationBell.goalNotice g (DateMs t))) ->
  Forall Q (NotificationBell.deadlineNear w g).
Proof.
  intros HQ. unfold NotificationBell.deadlineNear.
  destruct (Goal.targetDate g) as [td|]; [|constructor].
  destruct (Date_leb td w) eqn:Hle; [|constructor].
  destruct (Date_leb_inv _ _ Hle) as (x & _ & -> & _). repeat constructor. apply HQ.
Qed.

Lemma produced (Q : NotificationBell.Notification -> Prop) now w goals :
  (forall g m t, Milestone.targetDate m = DateMs t -> Q (NotificationBell.milestoneNotice g m)) ->
  (forall g, Q (NotificationBell.reviewNotice now g)) ->
  (forall g t, Q (NotificationBell.goalNotice g (DateMs t))) ->
  Forall Q (List.concat (List.map (NotificationBell.upcomingMilestones w) goals)
            ++ List.concat (List.map (NotificationBell.reviewNeeded now) goals)
            ++ List.concat (List.map (NotificationBell.deadlineNear w) goals)).
Proof.
  intros Hm Hr Hg.
  apply List.Forall_app; split; [|apply List.Forall_app; split];
    apply Forall_concat_map; intros g.
  - apply upcoming_valid. intros. eapply Hm. eassumption.
  - apply review_valid, Hr.
  - apply deadline_valid, Hg.
Qed.

End Produced.

(** X4: the list a poll computes holds valid dates only and is ordered by date,
    the latest first; every notification in it is unread, so the badge shows the
    length of the list. *)
Theorem X4_bell_lists_latest_first_and_all_unread (P : Platform) (now : Z) (wd : World)
  (u : User) (shown : list NotificationBell.Notification) :
  let st' :=
    NotificationBell.checkNotifications now Firestore.Delivered wd
      {| NotificationBell.user := Some u; NotificationBell.notifications := shown |} in
  (exists times,
      List.map NotificationBell.date (NotificationBell.notifications st')
      = List.map DateMs times
      /\ StronglySorted Z.ge times)
  /\ NotificationBell.unreadCount st' = length (NotificationBell.notifications st').
Proof.
  intros st'. subst st'. unfold NotificationBell.checkNotifications.
  cbn [NotificationBell.user]. unfold NotificationBell.activeGoals, Firestore.getDocs.
  cbn [NotificationBell.notifications NotificationBell.unreadCount].
  match goal with |- context [NotificationBell.sort ?l] => set (pushed := l) end.
  assert (D : Forall Timeline.dated pushed).
  { apply produced; intros; eexists; reflexivity || eassumption. }
  assert (U : Forall (fun n => NotificationBell.read n = false) pushed).
  { apply produced; intros; reflexivity. }
  split.
  - exists (List.map Timeline.stamp (NotificationBell.sort pushed)). split.
    + apply dated_stamp, sort_Forall, D.
    + apply sort_sorted, D.
  - apply sort_Forall in U. unfold NotificationBell.unreadCount.
    cbn [NotificationBell.notifications].
    induction U as [|x l Hx _ IH]; simpl; [reflexivity|]. rewrite Hx. simpl. f_equal. exact IH.
Qed.

(** ** The goal-detail view and the store *)

(** X5: when the goal shown is the stored document, then after each of the four
    mutations the goal shown is what a fresh fetch would load, except that after
    a landed write the stored [updatedAt] is the time of the write while the
    goal shown keeps the old one; after a rejected write both are as before. *)
Theorem X5_detail_view_matches_a_fresh_fetch_up_to_updatedAt (P : Platform)
  (u : User) (gid : string) (d : Goal.t) (wd : World)
  (w : Firestore.WriteOutcome) (now : Z) :
  goals_collection wd !! gid = Some d ->
  let st := {| GoalDetails.user := Some u; GoalDetails.goalId := gid;
               GoalDetails.goal := Some (Goal.set_id gid d) |} in
  let agrees := fun r : GoalDetails.State * World =>
    exists shown,
      GoalDetails.goal (fst r) = Some shown
      /\ GoalDetails.goal (fst (GoalDetails.fetchGoal Firestore.Delivered (fst r) (snd r)))
         = Some (match w with
                 | Firestore.Accepted => Goal.set_updatedAt (DateMs now) shown
                 | Firestore.Rejected => shown
                 end) in
  (forall status, agrees (GoalDetails.updateGoalStatus status now w st wd))
  /\ (forall milestoneId completed,
        agrees (GoalDetails.toggleMilestone milestoneId completed now w st wd))
  /\ (forall metricId value, agrees (GoalDetails.updateMetric metricId value now w st wd))
  /\ (forall reflection n,
        exists r, GoalDetails.addReflection reflection now w st wd n = (Eff.Normal r, S n)
                  /\ agrees r).
Proof.
  intros Hk st agrees.
  assert (A : forall fields local error,
             (forall x, Goal.set_id gid (Goal.set_updatedAt (DateMs now) (fields x))
                        = Goal.set_updatedAt (DateMs now) (fields (Goal.set_id gid x))) ->
             local = fields (Goal.set_id gid d) ->
             agrees (GoalDetails.persistThen
                       (fun x => Goal.set_updatedAt (DateMs now) (fields x))
                       local error w st wd)).
  { intros fields local error Hc ->. unfold agrees.
    pose proof (persistThen_cases (fun x => Goal.set_updatedAt (DateMs now) (fields x))
                  (fields (Goal.set_id gid d)) error w st wd) as C.
    cbn [GoalDetails.goalId st] in C. rewrite Hk in C.
    destruct w; rewrite C; cbn [fst snd GoalDetails.set_goal GoalDetails.goal st];
      eexists; (split; [reflexivity|]);
      unfold GoalDetails.fetchGoal, Firestore.getDoc;
      cbn [fst snd GoalDetails.user GoalDetails.goalId GoalDetails.set_goal
           goals_collection st].
    - rewrite lookup_insert_eq. cbn [GoalDetails.goal GoalDetails.set_goal fst].
      rewrite Hc. reflexivity.
    - rewrite Hk. reflexivity. }
  split; [|split; [|split]].
  - intros status. unfold GoalDetails.updateGoalStatus. cbn [GoalDetails.user GoalDetails.goal st].
    apply (A (Goal.set_status status)); reflexivity.
  - intros milestoneId completed. unfold GoalDetails.toggleMilestone.
    cbn [GoalDetails.user GoalDetails.goal st].
    apply (A (Goal.set_milestones _)); reflexivity.
  - intros metricId value. unfold GoalDetails.updateMetric.
    cbn [GoalDetails.user GoalDetails.goal st].
    apply (A (Goal.set_metrics _)); reflexivity.
  - intros reflection n. unfold GoalDetails.addReflection.
    cbn [GoalDetails.user GoalDetails.goal st].
    unfold Eff.bind, Eff.randomUUID, Eff.ret. eexists. split; [reflexivity|].
    apply (A (Goal.set_reflections _)); reflexivity.
Qed.

(** X5 at the sample goal, paused. *)
Lemma X5_detail_view_matches_a_fresh_fetch_up_to_updatedAt_witness :
  exists shown,
    GoalDetails.goal
      (fst (GoalDetails.updateGoalStatus "paused" 1790000000000 Firestore.Accepted
              Sample.details Sample.world)) = Some shown
    /\ Goal.status shown = "paused"%string
    /\ GoalDetails.goal
         (fst (GoalDetails.fetchGoal Firestore.Delivered
                 (fst (GoalDetails.updateGoalStatus "paused" 1790000000000
                         Firestore.Accepted Sample.details Sample.world))
                 (snd (GoalDetails.updateGoalStatus "paused" 1790000000000
                         Firestore.Accepted Sample.details Sample.world))))
       = Some (Goal.set_updatedAt (DateMs 1790000000000) shown).
Proof.
  destruct (X5_detail_view_matches_a_fresh_fetch_up_to_updatedAt Sample.platform
              {| uid := "u1" |} "g1" Sample.goal Sample.world Firestore.Accepted
              1790000000000) as (S & _).
  - vm_compute. reflexivity.
  - destruct (S "paused"%string) as (shown & Hs & Hf).
    exists shown. split; [exact Hs|]. split; [|exact Hf].
    vm_compute in Hs. inversion Hs. reflexivity.
Defined.

(** X6: of two toggles of the same milestone id the later one decides; toggles
    of different ids commute; completing and then reopening the milestones of an
    id gives the list back when they were open and had no completion date. *)
Theorem X6_milestone_toggles_compose (a b : string) (ca cb : bool) (ta tb : Z)
  (ms : list Milestone.t) :
  let toggle := GoalDetails.toggledMilestones in
  toggle a cb tb (toggle a ca ta ms) = toggle a cb tb ms
  /\ (a <> b -> toggle a ca ta (toggle b cb tb ms) = toggle b cb tb (toggle a ca ta ms))
  /\ ((forall m, In m ms -> Milestone.id m = a ->
         Milestone.completed m = false /\ Milestone.completedDate m = None) ->
      toggle a false tb (toggle a true ta ms) = ms).
Proof.
  intros toggle. subst toggle. unfold GoalDetails.toggledMilestones.
  split; [|split].
  - rewrite List.map_map. apply List.map_ext. intros m.
    destruct (String.eqb_spec (Milestone.id m) a) as [E|N].
    + cbn [GoalDetails.setCompleted Milestone.id]. rewrite (proj2 (String.eqb_eq _ _) E).
      reflexivity.
    + rewrite (proj2 (String.eqb_neq _ _) N). reflexivity.
  - intros Hab. rewrite !List.map_map. apply List.map_ext. intros m.
    destruct (String.eqb_spec (Milestone.id m) a) as [Ea|Na];
      destruct (String.eqb_spec (Milestone.id m) b) as [Eb|Nb];
      cbn [GoalDetails.setCompleted Milestone.id];
      rewrite ?(proj2 (String.eqb_eq _ _) Ea), ?(proj2 (String.eqb_eq _ _) Eb),
              ?(proj2 (String.eqb_neq _ _) Na), ?(proj2 (String.eqb_neq _ _) Nb);
      try reflexivity.
    congruence.
  - intros Hopen. rewrite List.map_map.
    rewrite <- (List.map_id ms) at 2. apply List.map_ext_in. intros m Hm.
    destruct (String.eqb_spec (Milestone.id m) a) as [E|N].
    + cbn [GoalDetails.setCompleted Milestone.id]. rewrite (proj2 (String.eqb_eq _ _) E).
      destruct (Hopen m Hm E) as [Hc Hd]. destruct m; simpl in *. subst. reflexivity.
    + rewrite (proj2 (String.eqb_neq _ _) N). reflexivity.
Qed.

Lemma updateDoc_missing gid fields w (goals : gmap string Goal.t) :
  goals !! gid = None -> Firestore.updateDoc gid fields w goals = None.
Proof. intros E. unfold Firestore.updateDoc. rewrite E. destruct w; reflexivity. Qed.

Lemma persistThen_missing fields local error w st wd :
  goals_collection wd !! GoalDetails.goalId st = None ->
  GoalDetails.persistThen fields local error w st wd
  = (st, {| goals_collection := goals_collection wd; console := console wd ++ [error] |}).
Proof.
  intros E. unfold GoalDetails.persistThen. rewrite (updateDoc_missing _ _ _ _ E). reflexivity.
Qed.

(** X7: a landed delete closes the confirmation, removes the document and leaves
    every other document as it is; afterwards no mutation of a detail view still
    open on that goal, no fetch and no toggle from the list view changes the
    collection, and the detail view keeps showing what it showed. A rejected
    delete only logs. *)
Theorem X7_deleted_goal_is_not_written_again (P : Platform) (gid : string) (u : User)
  (sc : GoalsList.Screen) (wd : World) :
  GoalsList.user (GoalsList.listed sc) = Some u ->
  let r := GoalsList.handleDeleteGoal gid Firestore.Accepted sc wd in
  let untouched := fun (st : GoalDetails.State) (r' : GoalDetails.State * World) =>
    fst r' = st /\ goals_collection (snd r') = goals_collection (snd r) in
  GoalsList.showDeleteConfirm (fst r) = None
  /\ goals_collection (snd r) !! gid = None
  /\ (forall k, k <> gid -> goals_collection (snd r) !! k = goals_collection wd !! k)
  /\ (forall st w now wd',
        GoalDetails.goalId st = gid -> goals_collection wd' = goals_collection (snd r) ->
        (forall status, untouched st (GoalDetails.updateGoalStatus status now w st wd'))
        /\ (forall milestoneId completed,
              untouched st (GoalDetails.toggleMilestone milestoneId completed now w st wd'))
        /\ (forall metricId value,
              untouched st (GoalDetails.updateMetric metricId value now w st wd'))
        /\ (forall reflection n,
              exists r' n', GoalDetails.addReflection reflection now w st wd' n
                            = (Eff.Normal r', n')
                            /\ untouched st r')
        /\ goals_collection
             (snd (GoalDetails.fetchGoal Firestore.Delivered st wd')) = goals_collection (snd r)
        /\ GoalDetails.goal (fst (GoalDetails.fetchGoal Firestore.Delivered st wd'))
           = GoalDetails.goal st)
  /\ (forall st milestoneId completed now w wd',
        goals_collection wd' = goals_collection (snd r) ->
        goals_collection
          (snd (GoalsList.handleToggleMilestone gid milestoneId completed now w st wd'))
        = goals_collection (snd r))
  /\ GoalsList.handleDeleteGoal gid Firestore.Rejected sc wd
     = (sc, {| goals_collection := goals_collection wd;
               console := console wd ++ ["Error deleting goal:"%string] |}).
Proof.
  intros Hu r untouched. subst r untouched. unfold GoalsList.handleDeleteGoal. rewrite Hu.
  cbn [Firestore.deleteDoc fst snd goals_collection GoalsList.showDeleteConfirm].
  split; [reflexivity|]. split; [apply lookup_delete_eq|].
  split; [intros k Hk; apply lookup_delete_ne; congruence|].
  split; [|split; [|reflexivity]].
  - intros st w now wd' Hg Hwd.
    assert (M : goals_collection wd' !! GoalDetails.goalId st = None).
    { rewrite Hwd, Hg. apply lookup_delete_eq. }
    assert (U : forall fields local error,
               let r' := GoalDetails.persistThen fields local error w st wd' in
               fst r' = st /\ goals_collection (snd r') = delete gid (goals_collection wd)).
    { intros. subst r'. rewrite (persistThen_missing _ _ _ _ _ _ M). split; [reflexivity|].
      exact Hwd. }
    split; [|split; [|split; [|split; [|split]]]].
    + intros status. unfold GoalDetails.updateGoalStatus.
      destruct (GoalDetails.user st), (GoalDetails.goal st); try apply U; auto.
    + intros milestoneId completed. unfold GoalDetails.toggleMilestone.
      destruct (GoalDetails.user st), (GoalDetails.goal st); try apply U; auto.
    + intros metricId value. unfold GoalDetails.updateMetric.
      destruct (GoalDetails.user st), (GoalDetails.goal st); try apply U; auto.
    + intros reflection n. unfold GoalDetails.addReflection.
      destruct (GoalDetails.user st), (GoalDetails.goal st);
        unfold Eff.bind, Eff.randomUUID, Eff.ret; eexists _, _;
        (split; [reflexivity|]); try apply U; auto.
    + unfold GoalDetails.fetchGoal, Firestore.getDoc.
      destruct (GoalDetails.user st); [rewrite M|]; exact Hwd.
    + unfold GoalDetails.fetchGoal, Firestore.getDoc.
      destruct (GoalDetails.user st); [rewrite M|]; reflexivity.
  - intros st milestoneId completed now w wd' Hwd.
    unfold GoalsList.handleToggleMilestone.
    destruct (GoalsList.user st); [|exact Hwd].
    destruct (find _ _); [|exact Hwd].
    rewrite updateDoc_missing; [exact Hwd|]. rewrite Hwd. apply lookup_delete_eq.
Qed.

(** X7 at the sample store. *)
Lemma X7_deleted_goal_is_not_written_again_witness :
  goals_collection
    (snd (GoalsList.handleDeleteGoal "g1" Firestore.Accepted Sample.screen Sample.world))
  !! "g1"%string = None
  /\ GoalsList.showDeleteConfirm
       (fst (GoalsList.handleDeleteGoal "g1" Firestore.Accepted Sample.screen Sample.world))
     = None.
Proof.
  destruct (X7_deleted_goal_is_not_written_again Sample.platform "g1" {| uid := "u1" |}
              Sample.screen Sample.world eq_refl) as (C & G & _).
  split; [exact G | exact C].
Defined.

(** ** The editors of the manual form *)

Lemma imap_at {A} (f : A -> A) (k : nat) (l : list A) :
  imap (fun i x => if Nat.eqb i k then f x else x) l = alter f k l.
Proof.
  apply list_eq. intros i. rewrite list_lookup_imap.
  destruct (Nat.eqb_spec i k) as [->|N].
  - rewrite list_lookup_alter_eq. reflexivity.
  - rewrite list_lookup_alter_ne by congruence. destruct (l !! i); reflexivity.
Qed.

Lemma keepIndices_all {A} (keep : nat -> bool) (o : nat) (l : list A) :
  (forall j, (o <= j)%nat -> keep j = true) -> GoalCreationForm.keepIndices keep o l = l.
Proof.
  revert o. induction l as [|x l IH]; intros o Hk; [reflexivity|].
  simpl. rewrite (Hk o) by lia. simpl. f_equal. apply IH. intros j Hj. apply Hk. lia.
Qed.

Lemma keepIndices_but {A} (k o : nat) (l : list A) :
  GoalCreationForm.keepIndices (fun i => negb (Nat.eqb i (o + k))) o l = delete k l.
Proof.
  revert k o. induction l as [|x l IH]; intros k o; [reflexivity|].
  simpl. destruct k as [|k].
  - rewrite Nat.add_0_r, Nat.eqb_refl. simpl. apply keepIndices_all.
    intros j Hj. destruct (Nat.eqb_spec j o); [lia | reflexivity].
  - destruct (Nat.eqb_spec o (o + S k)) as [E|_]; [lia|]. simpl. f_equal.
    replace (o + S k)%nat with (S o + k)%nat by lia. apply IH.
Qed.

Lemma removeArrayItem_delete {A} (index : nat) (l : list A) :
  GoalCreationForm.removeArrayItem index l = delete index l.
Proof. apply (keepIndices_but index 0). Qed.

Lemma updateArrayItem_insert (index : nat) (value : string) (l : list string) :
  GoalCreationForm.updateArrayItem index value l = <[index := value]> l.
Proof.
  unfold GoalCreationForm.updateArrayItem. rewrite list_insert_alter. apply imap_at.
Qed.

(** X8: the editors of the list cells of the manual form are the list operations
    at an index: an update replaces the entry at the index, a removal deletes
    it, both do nothing beyond the end of the list, an entry added is empty and
    last, and the step editors act on the steps of the routine at the index
    only. *)
Theorem X8_form_editors_change_the_addressed_entry_only (index stepIndex : nat)
  (value : string) (l : list string) (routines : list GoalCreationForm.RoutineEntry.t) :
  let steps := GoalCreationForm.RoutineEntry.steps in
  GoalCreationForm.updateArrayItem index value l = <[index := value]> l
  /\ GoalCreationForm.removeArrayItem index l = delete index l
  /\ ((length l <= index)%nat ->
      GoalCreationForm.updateArrayItem index value l = l
      /\ GoalCreationForm.removeArrayItem index l = l)
  /\ GoalCreationForm.removeArrayItem (length l) (GoalCreationForm.addArrayItem l) = l
  /\ GoalCreationForm.updateArrayItem (length l) value (GoalCreationForm.addArrayItem l)
     = l ++ [value]
  /\ GoalCreationForm.addRoutineStep index routines
     = alter (fun r => GoalCreationForm.withSteps (steps r ++ [""%string]) r) index routines
  /\ GoalCreationForm.updateRoutineStep index stepIndex value routines
     = alter (fun r => GoalCreationForm.withSteps (<[stepIndex := value]> (steps r)) r)
             index routines
  /\ GoalCreationForm.removeRoutineStep index stepIndex routines
     = alter (fun r => GoalCreationForm.withSteps (delete stepIndex (steps r)) r)
             index routines.
Proof.
  intros steps. subst steps.
  split; [apply updateArrayItem_insert|].
  split; [apply removeArrayItem_delete|].
  split.
  { intros Hge. rewrite updateArrayItem_insert, removeArrayItem_delete.
    split; [apply list_insert_ge; exact Hge|].
    apply list_eq. intros j. rewrite list_lookup_delete.
    destruct (decide (j < index)%nat); [reflexivity|].
    rewrite !lookup_ge_None_2 by lia. reflexivity. }
  split.
  { rewrite removeArrayItem_delete. unfold GoalCreationForm.addArrayItem.
    rewrite delete_middle. apply app_nil_r. }
  split.
  { rewrite updateArrayItem_insert. unfold GoalCreationForm.addArrayItem.
    rewrite <- (Nat.add_0_r (length l)). rewrite insert_app_r. reflexivity. }
  split; [apply imap_at|].
  split.
  - unfold GoalCreationForm.updateRoutineStep.
    rewrite <- imap_at. apply imap_ext. intros i r _.
    destruct (Nat.eqb i index); [|reflexivity].
    f_equal. apply updateArrayItem_insert.
  - unfold GoalCreationForm.removeRoutineStep.
    rewrite <- imap_at. apply imap_ext. intros i r _.
    destruct (Nat.eqb i index); [|reflexivity].
    f_equal. apply removeArrayItem_delete.
Qed.

(** ** Submitting the manual form *)

Section Form.
Context `{Platform}.

Lemma numbered_map {A B C} (g : value -> A -> B) (h : B -> C) (k : A -> C) l n :
  (forall i x, h (g i x) = k x) ->
  List.map h (Fresh.numbered g n l) = List.map k l.
Proof.
  intros E. revert n. induction l as [|x l IH]; intros n; simpl; [reflexivity|].
  rewrite E, IH. reflexivity.
Qed.

Lemma numbered_names {A B} (g : value -> A -> B) (key : B -> string) l n :
  (forall k x, key (g (JStr (uuid k)) x) = uuid k) ->
  List.map key (Fresh.numbered g n l) = List.map uuid (seq n (length l)).
Proof.
  intros E. revert n. induction l as [|x l IH]; intros n; simpl; [reflexivity|].
  rewrite E, IH. reflexivity.
Qed.

Lemma goalData_runs f n :
  let a := length (GoalCreationForm.milestones f) in
  let b := length (GoalCreationForm.metrics f) in
  let c := length (GoalCreationForm.routines f) in
  exists s,
    GoalCreationForm.goalData f n = (Eff.Normal s, (n + a + b + c)%nat)
    /\ GoalCreationForm.s_title s = GoalCreationForm.title f
    /\ GoalCreationForm.s_description s = GoalCreationForm.description f
    /\ GoalCreationForm.s_domain s = GoalCreationForm.domain f
    /\ GoalCreationForm.s_status s = "active"%string
    /\ List.map GoalCreationForm.milestoneEntry (GoalCreationForm.s_milestones s)
       = GoalCreationForm.milestones f
    /\ Forall (fun m => Milestone.completed m = false /\ Milestone.completedDate m = None)
         (GoalCreationForm.s_milestones s)
    /\ List.map Milestone.id (GoalCreationForm.s_milestones s)
       = List.map uuid (seq n a)
    /\ List.map GoalCreationForm.metricEntry (GoalCreationForm.s_metrics s)
       = GoalCreationForm.metrics f
    /\ Forall (fun m => Metric.history m = []) (GoalCreationForm.s_metrics s)
    /\ List.map Metric.id (GoalCreationForm.s_metrics s)
       = List.map uuid (seq (n + a) b)
    /\ List.map GoalCreationForm.routineEntry (GoalCreationForm.s_routines s)
       = GoalCreationForm.routines f
    /\ Forall (fun r => Routine.lastCompleted r = None /\ Routine.nextDue r = None)
         (GoalCreationForm.s_routines s)
    /\ List.map Routine.id (GoalCreationForm.s_routines s)
       = List.map uuid (seq (n + a + b) c)
    /\ GoalCreationForm.s_weeklyActions s
       = GoalCreationForm.nonBlank (GoalCreationForm.weeklyActions f)
    /\ GoalCreationForm.s_dailyHabits s
       = GoalCreationForm.nonBlank (GoalCreationForm.dailyHabits f)
    /\ GoalCreationForm.s_resources s
       = GoalCreationForm.nonBlank (GoalCreationForm.resources f)
    /\ GoalCreationForm.s_obstacles s
       = GoalCreationForm.nonBlank (GoalCreationForm.obstacles f)
    /\ GoalCreationForm.s_successCriteria s
       = GoalCreationForm.nonBlank (GoalCreationForm.successCriteria f).
Proof.
  intros a b c. unfold GoalCreationForm.goalData.
  unfold GoalCreationForm.submitMilestone, GoalCreationForm.submitMetric,
    GoalCreationForm.submitRoutine.
  unfold Eff.bind at 1. rewrite mapM_numbered.
  unfold Eff.bind at 1. rewrite mapM_numbered.
  unfold Eff.bind at 1. rewrite mapM_numbered.
  unfold Eff.ret. fold a b c.
  eexists. split; [reflexivity|].
  cbn [GoalCreationForm.s_title GoalCreationForm.s_description GoalCreationForm.s_domain
       GoalCreationForm.s_status GoalCreationForm.s_milestones GoalCreationForm.s_metrics
       GoalCreationForm.s_routines GoalCreationForm.s_weeklyActions
       GoalCreationForm.s_dailyHabits GoalCreationForm.s_resources
       GoalCreationForm.s_obstacles GoalCreationForm.s_successCriteria].
  repeat (split; [reflexivity|]).
  split.
  { rewrite <- (List.map_id (GoalCreationForm.milestones f)) at 2.
    apply numbered_map. intros i [t d td fr]. reflexivity. }
  split; [apply numbered_Forall; intros; split; reflexivity|].
  split; [apply numbered_names; intros; reflexivity|].
  split.
  { rewrite <- (List.map_id (GoalCreationForm.metrics f)) at 2.
    apply numbered_map. intros i []. reflexivity. }
  split; [apply numbered_Forall; intros; reflexivity|].
  split; [apply numbered_names; intros; reflexivity|].
  split.
  { rewrite <- (List.map_id (GoalCreationForm.routines f)) at 2.
    apply numbered_map. intros i []. reflexivity. }
  split; [apply numbered_Forall; intros; split; reflexivity|].
  split; [apply numbered_names; intros; reflexivity|].
  repeat split.
Qed.
End Form.

Lemma nonBlank_In l x :
  In x (GoalCreationForm.nonBlank l) <-> In x l /\ trim x <> EmptyString.
Proof.
  unfold GoalCreationForm.nonBlank. rewrite List.filter_In, negb_true_iff, String.eqb_neq.
  reflexivity.
Qed.

(** X9: a landed save of the edit form closes the form and replaces the
    document's fields: the status becomes [active], every milestone is stored as
    not completed, without a completion date and under a new identifier, every
    metric with an empty history, with the titles, dates and other entries of
    the form, which are those of the goal when the form was not touched; the
    reflections, the owner and the creation date stay, and [updatedAt] is the
    time of the save. *)
Theorem X9_saving_an_edit_reopens_every_milestone (P : Platform) (C : Calendar)
  (initialData : Goal.t) (f : GoalCreationForm.State) (now : Z) (u : User)
  (sc : GoalsList.Screen) (wd : World) (d : Goal.t) (n : nat) :
  GoalsList.user (GoalsList.listed sc) = Some u ->
  goals_collection wd !! Goal.id initialData = Some d ->
  exists r n' d',
    GoalCreationForm.handleSubmitEdit initialData f now Firestore.Accepted sc wd n
    = (Eff.Normal r, n')
    /\ GoalsList.editingGoal (fst r) = None
    /\ goals_collection (snd r) = <[Goal.id initialData := d']> (goals_collection wd)
    /\ Goal.status d' = "active"%string
    /\ Forall (fun m => Milestone.completed m = false /\ Milestone.completedDate m = None)
         (Goal.milestones d')
    /\ Forall (fun m => Metric.history m = []) (Goal.metrics d')
    /\ List.map Milestone.id (Goal.milestones d')
       = List.map uuid (seq n (length (GoalCreationForm.milestones f)))
    /\ List.map GoalCreationForm.milestoneEntry (Goal.milestones d')
       = GoalCreationForm.milestones f
    /\ List.map GoalCreationForm.metricEntry (Goal.metrics d')
       = GoalCreationForm.metrics f
    /\ (f = GoalCreationForm.init (Some initialData) ->
        List.map GoalCreationForm.milestoneEntry (Goal.milestones d')
        = List.map GoalCreationForm.milestoneEntry (Goal.milestones initialData)
        /\ List.map GoalCreationForm.metricEntry (Goal.metrics d')
           = List.map GoalCreationForm.metricEntry (Goal.metrics initialData))
    /\ Goal.reflections d' = Goal.reflections d
    /\ Goal.userId d' = Goal.userId d
    /\ Goal.createdAt d' = Goal.createdAt d
    /\ Goal.updatedAt d' = DateMs now.
Proof.
  intros Hu Hd. unfold GoalCreationForm.handleSubmitEdit. rewrite Hu.
  destruct (goalData_runs f n)
    as (s & E & _ & _ & _ & Hst & Hme & Hmo & Hmi & Hte & Hth & _ & _).
  cbv zeta in E. unfold Eff.bind. rewrite E. unfold Eff.ret.
  unfold GoalsList.handleEditGoal, Firestore.updateDoc. rewrite Hu, Hd.
  cbn [fst snd GoalsList.editingGoal goals_collection].
  eexists _, _, _. split; [reflexivity|]. split; [reflexivity|]. split; [reflexivity|].
  cbn [GoalCreationForm.merged Goal.set_updatedAt Goal.status Goal.milestones Goal.metrics
       Goal.reflections Goal.userId Goal.createdAt Goal.updatedAt].
  split; [exact Hst|]. split; [exact Hmo|]. split; [exact Hth|]. split; [exact Hmi|].
  split; [exact Hme|]. split; [exact Hte|].
  split; [|repeat split].
  intros ->. rewrite Hme, Hte. split; reflexivity.
Qed.

(** X9 at the sample goal, whose first milestone was completed, saved from an
    untouched form. *)
Lemma X9_saving_an_edit_reopens_every_milestone_witness :
  exists r n' d',
    GoalCreationForm.handleSubmitEdit (H := Sample.platform)
      (Goal.set_id "g1" Sample.goal)
      (GoalCreationForm.init (H := Sample.calendar) (Some (Goal.set_id "g1" Sample.goal)))
      1790000000000 Firestore.Accepted Sample.screen Sample.world 0%nat
    = (Eff.Normal r, n')
    /\ goals_collection (snd r) = <["g1"%string := d']> (goals_collection Sample.world)
    /\ Goal.status d' = "active"%string
    /\ Forall (fun m => Milestone.completed m = false /\ Milestone.completedDate m = None)
         (Goal.milestones d')
    /\ List.map Milestone.title (Goal.milestones d')
       = List.map Milestone.title (Goal.milestones Sample.goal)
    /\ List.map Milestone.completed (Goal.milestones Sample.goal) = [true; false; false].
Proof.
  destruct (X9_saving_an_edit_reopens_every_milestone Sample.platform Sample.calendar
              (Goal.set_id "g1" Sample.goal)
              (GoalCreationForm.init (H := Sample.calendar)
                 (Some (Goal.set_id "g1" Sample.goal)))
              1790000000000 {| uid := "u1" |} Sample.screen Sample.world Sample.goal 0%nat)
    as (r & n' & d' & E & _ & Hg & Hs & Hm & _ & _ & _ & _ & Hi & _).
  - reflexivity.
  - vm_compute. reflexivity.
  - exists r, n', d'. split; [exact E|]. split; [exact Hg|]. split; [exact Hs|].
    split; [exact Hm|]. split; [|reflexivity].
    destruct (Hi eq_refl) as [Hme _].
    apply (f_equal (List.map GoalCreationForm.MilestoneEntry.title)) in Hme.
    rewrite !List.map_map in Hme. exact Hme.
Defined.

(** X10: when the write of an edit is rejected, or the document is gone,
    [handleEditGoal] logs the failure itself, so the form is closed all the same
    and the changes are dropped; when the write of a new goal is rejected, the
    form logs the failure and stays open. In both cases the collection is
    unchanged. *)
Theorem X10_a_failed_save_closes_the_edit_form_only (P : Platform)
  (initialData : Goal.t) (f : GoalCreationForm.State) (now c1 c2 : Z) (newId : string)
  (u : User) (sc : GoalsList.Screen) (wd : World) (n : nat) :
  GoalsList.user (GoalsList.listed sc) = Some u ->
  let failed := fun (error : string) (w' : World) =>
    goals_collection w' = goals_collection wd /\ console w' = console wd ++ [error] in
  (forall w, w = Firestore.Rejected \/ goals_collection wd !! Goal.id initialData = None ->
     exists r n',
       GoalCreationForm.handleSubmitEdit initialData f now w sc wd n = (Eff.Normal r, n')
       /\ GoalsList.editingGoal (fst r) = None
       /\ failed "Error updating goal:"%string (snd r))
  /\ exists r n',
       GoalCreationForm.handleSubmitNew f newId c1 c2 Firestore.Rejected sc wd n
       = (Eff.Normal r, n')
       /\ fst r = sc
       /\ failed "Error saving goal:"%string (snd r).
Proof.
  intros Hu failed. subst failed. split.
  - intros w Hw. unfold GoalCreationForm.handleSubmitEdit. rewrite Hu.
    destruct (goalData_runs f n) as (s & E & _).
    cbv zeta in E. unfold Eff.bind. rewrite E. unfold Eff.ret.
    unfold GoalsList.handleEditGoal. rewrite Hu.
    assert (N : forall fields, Firestore.updateDoc (Goal.id initialData) fields w
                                 (goals_collection wd) = None).
    { intros fields. unfold Firestore.updateDoc.
      destruct Hw as [-> | ->]; [reflexivity | destruct w; reflexivity]. }
    rewrite N. eexists _, _. repeat split.
  - unfold GoalCreationForm.handleSubmitNew. rewrite Hu.
    destruct (goalData_runs f n) as (s & E & _).
    cbv zeta in E. unfold Eff.bind. rewrite E. unfold Eff.ret.
    cbn [Firestore.addDoc]. eexists _, _. repeat split.
Qed.

(** X10 at a rejected edit of the sample goal. *)
Lemma X10_a_failed_save_closes_the_edit_form_only_witness :
  exists r n',
    GoalCreationForm.handleSubmitEdit (H := Sample.platform)
      (Goal.set_id "g1" Sample.goal) Sample.form 1790000000000 Firestore.Rejected
      Sample.screen Sample.world 0%nat = (Eff.Normal r, n')
    /\ GoalsList.editingGoal (fst r) = None
    /\ goals_collection (snd r) = goals_collection Sample.world.
Proof.
  destruct (X10_a_failed_save_closes_the_edit_form_only Sample.platform
              (Goal.set_id "g1" Sample.goal) Sample.form 1790000000000 1790000000000
              1790000000001 "g2" {| uid := "u1" |} Sample.screen Sample.world 0%nat eq_refl)
    as (Hedit & _).
  destruct (Hedit Firestore.Rejected (or_introl eq_refl)) as (r & n' & E & Hc & Hg & _).
  exists r, n'. split; [exact E|]. split; [exact Hc | exact Hg].
Defined.

(** X11: a landed save of the form for a new goal closes the form and adds a
    document owned by the user, [active], without reflections, with the two
    clock readings as [createdAt] and [updatedAt], with every milestone not
    completed and every metric history empty, and with the five text lists
    holding the entries of the form that are not blank, as typed; at any
    poll by this user that reads the store as the save left it, the list
    holds a notification of type [review], titled [Review Needed],
    identified by the new document's id, dated at the poll time, unread,
    whose message names the title typed into the form. *)
Theorem X11_manual_form_creates_an_active_goal_due_for_review (P : Platform)
  (f : GoalCreationForm.State) (newId : string) (c1 c2 : Z) (u : User)
  (sc : GoalsList.Screen) (wd : World) (n : nat) :
  GoalsList.user (GoalsList.listed sc) = Some u ->
  exists r n' d',
    GoalCreationForm.handleSubmitNew f newId c1 c2 Firestore.Accepted sc wd n
    = (Eff.Normal r, n')
    /\ GoalsList.showCreateForm (fst r) = false
    /\ goals_collection (snd r) = <[newId := d']> (goals_collection wd)
    /\ Goal.userId d' = uid u
    /\ Goal.status d' = "active"%string
    /\ Goal.reflections d' = []
    /\ Goal.createdAt d' = DateMs c1
    /\ Goal.updatedAt d' = DateMs c2
    /\ Forall (fun m => Milestone.completed m = false) (Goal.milestones d')
    /\ Forall (fun m => Metric.history m = []) (Goal.metrics d')
    /\ (forall x,
          (In x (Goal.weeklyActions d')
           <-> In x (GoalCreationForm.weeklyActions f) /\ trim x <> EmptyString)
          /\ (In x (Goal.dailyHabits d')
              <-> In x (GoalCreationForm.dailyHabits f) /\ trim x <> EmptyString)
          /\ (In x (Goal.resources d')
              <-> In x (GoalCreationForm.resources f) /\ trim x <> EmptyString)
          /\ (In x (Goal.obstacles d')
              <-> In x (GoalCreationForm.obstacles f) /\ trim x <> EmptyString)
          /\ (In x (Goal.successCriteria d')
              <-> In x (GoalCreationForm.successCriteria f) /\ trim x <> EmptyString))
    /\ (forall now bell,
          NotificationBell.user bell = Some u ->
          exists notice,
            In notice
               (NotificationBell.notifications
                  (NotificationBell.checkNotifications now Firestore.Delivered (snd r) bell))
            /\ NotificationBell.id notice = ("review-" +:+ newId)%string
            /\ NotificationBell.type notice = "review"%string
            /\ NotificationBell.title notice = "Review Needed"%string
            /\ NotificationBell.message notice
               = ("It's time for a weekly review of your goal " +:+ String (ascii_of_nat 34) ""
                  +:+ GoalCreationForm.title f +:+ String (ascii_of_nat 34) "")%string
            /\ NotificationBell.date notice = DateMs now
            /\ NotificationBell.read notice = false).
Proof.
  intros Hu. unfold GoalCreationForm.handleSubmitNew. rewrite Hu.
  destruct (goalData_runs f n)
    as (s & E & Hti & _ & _ & Hst & _ & Hmo & _ & _ & Hth & _ & _ & _ & _
        & Hwa & Hdh & Hrs & Hob & Hsc).
  cbv zeta in E. unfold Eff.bind. rewrite E. unfold Eff.ret.
  cbn [Firestore.addDoc fst snd GoalsList.showCreateForm goals_collection].
  eexists _, _, _. split; [reflexivity|]. split; [reflexivity|]. split; [reflexivity|].
  cbn [GoalCreationForm.created Goal.userId Goal.status Goal.reflections Goal.createdAt
       Goal.updatedAt Goal.milestones Goal.metrics Goal.weeklyActions Goal.dailyHabits
       Goal.resources Goal.obstacles Goal.successCriteria].
  split; [reflexivity|]. split; [exact Hst|]. split; [reflexivity|].
  split; [reflexivity|]. split; [reflexivity|].
  split; [eapply List.Forall_impl; [|exact Hmo]; intros m [Hc _]; exact Hc|].
  split; [exact Hth|].
  split.
  { intros x. rewrite Hwa, Hdh, Hrs, Hob, Hsc.
    split; [|split; [|split; [|split]]]; apply nonBlank_In. }
  intros now bell Hb.
  exists (NotificationBell.reviewNotice now
            (Goal.set_id newId (GoalCreationForm.created s u c1 c2))).
  split.
  - apply (review_due_is_listed now _ bell u newId (GoalCreationForm.created s u c1 c2)).
    + exact Hb.
    + cbn [goals_collection]. apply lookup_insert_eq.
    + reflexivity.
    + exact Hst.
    + left. reflexivity.
  - cbn [NotificationBell.reviewNotice NotificationBell.id NotificationBell.type
         NotificationBell.title NotificationBell.message NotificationBell.date
         NotificationBell.read Goal.set_id Goal.id Goal.title GoalCreationForm.created].
    rewrite Hti. repeat split; reflexivity.
Qed.

(** X11 at the sample form, which has one blank weekly action. *)
Lemma X11_manual_form_creates_an_active_goal_due_for_review_witness :
  exists r n' d',
    GoalCreationForm.handleSubmitNew (H := Sample.platform) Sample.form "g2"
      1790000000000 1790000000001 Firestore.Accepted Sample.screen Sample.world 0%nat
    = (Eff.Normal r, n')
    /\ goals_collection (snd r) = <["g2"%string := d']> (goals_collection Sample.world)
    /\ Goal.weeklyActions d' = ["Stretch"%string]
    /\ exists notice,
         In notice
            (NotificationBell.notifications
               (NotificationBell.checkNotifications (H := Sample.platform) 1790000060000
                  Firestore.Delivered (snd r) Sample.bell))
         /\ NotificationBell.id notice = "review-g2"%string
         /\ NotificationBell.title notice = "Review Needed"%string
         /\ NotificationBell.date notice = DateMs 1790000060000.
Proof.
  destruct (X11_manual_form_creates_an_active_goal_due_for_review Sample.platform Sample.form
              "g2" 1790000000000 1790000000001 {| uid := "u1" |} Sample.screen Sample.world
              0%nat eq_refl)
    as (r & n' & d' & E & _ & Hg & _ & _ & _ & _ & _ & _ & _ & _ & Hb).
  exists r, n', d'. split; [exact E|]. split; [exact Hg|]. split.
  2:{ destruct (Hb 1790000060000 Sample.bell eq_refl) as (notice & Hn & Hid & _ & Ht & _ & Hd & _).
      exists notice. split; [exact Hn|]. split; [exact Hid|]. split; [exact Ht | exact Hd]. }
  vm_compute in E. inversion E; subst r. cbn [snd goals_collection] in Hg.
  apply (f_equal (fun m => option_map Goal.weeklyActions (m !! "g2"%string))) in Hg.
  rewrite !lookup_insert_eq in Hg. cbn in Hg. inversion Hg. reflexivity.
Defined.

(** ** The freeform chat beyond one merge *)

Lemma trimStart_head s :
  trimStart s = EmptyString
  \/ exists c r, trimStart s = String c r /\ isWhiteSpace c = false.
Proof.
  induction s as [|c s IH]; simpl; [now left|].
  destruct (isWhiteSpace c) eqn:E; [exact IH|]. right. eauto.
Qed.

Lemma trimEnd_idempotent s : trimEnd (trimEnd s) = trimEnd s.
Proof.
  induction s as [|c s IH]; [reflexivity|].
  cbn [trimEnd]. destruct (trimEnd s) as [|d r] eqn:E.
  - destruct (isWhiteSpace c) eqn:W; [reflexivity|]. cbn [trimEnd]. rewrite W. reflexivity.
  - cbn [trimEnd] in IH |- *. rewrite IH. reflexivity.
Qed.

Lemma trimEnd_head c s :
  isWhiteSpace c = false -> exists r, trimEnd (String c s) = String c r.
Proof.
  intros W. cbn [trimEnd]. destruct (trimEnd s); [rewrite W|]; eauto.
Qed.

Lemma trim_idempotent s : trim (trim s) = trim s.
Proof.
  unfold trim. destruct (trimStart_head s) as [-> | (c & r & -> & W)]; [reflexivity|].
  destruct (trimEnd_head c r W) as [r' E]. rewrite E. cbn [trimStart]. rewrite W.
  rewrite <- E. apply trimEnd_idempotent.
Qed.

Section Freeform.
Context `{Platform}.

Lemma processConversation_returns messages api n :
  exists r n', OpenAI.processConversation messages api n = (Eff.Normal r, n').
Proof.
  destruct api as [|reply [|v]]; unfold OpenAI.processConversation.
  - eexists _, _. reflexivity.
  - eexists _, _. reflexivity.
  - destruct (extraction_parsed v n) as [n' E]. unfold Eff.bind. rewrite E.
    eexists _, _. reflexivity.
Qed.

End Freeform.

(** X12: whatever the completion endpoint does, a turn of the freeform chat
    completes normally; unless it is ignored (blank input, or a turn in
    progress) it leaves the input empty and the chat ready for the next turn,
    appends the user's message and then at most one assistant message, which is
    not empty, and it never hides a summary that was showing. *)
Theorem X12_freeform_turn_always_settles (P : Platform) (api : OpenAI.ApiOutcome)
  (st : FreeformAIChat.State) (n : nat) :
  let blocked :=
    (String.eqb (trim (FreeformAIChat.input st)) "" || FreeformAIChat.isProcessing st)%bool in
  let said := {| role := "user"; content := FreeformAIChat.input st |} in
  exists st' n',
    FreeformAIChat.handleSendMessage api st n = (Eff.Normal st', n')
    /\ if blocked then st' = st /\ n' = n
       else FreeformAIChat.isProcessing st' = false
            /\ FreeformAIChat.input st' = ""%string
            /\ (FreeformAIChat.messages st' = FreeformAIChat.messages st ++ [said]
                \/ exists c s,
                     FreeformAIChat.messages st'
                     = FreeformAIChat.messages st
                       ++ [said; {| role := "assistant"; content := String c s |}])
            /\ (FreeformAIChat.showSummary st = true -> FreeformAIChat.showSummary st' = true).
Proof.
  intros blocked said. unfold FreeformAIChat.handleSendMessage. fold blocked.
  destruct blocked; [eexists _, _; repeat split|].
  destruct (processConversation_returns (FreeformAIChat.messages st ++ [said]) api n)
    as (r & n' & E).
  subst said. unfold Eff.bind. rewrite E. unfold Eff.ret.
  eexists _, _. split; [reflexivity|].
  cbn [FreeformAIChat.isProcessing FreeformAIChat.input FreeformAIChat.messages
       FreeformAIChat.showSummary].
  split; [reflexivity|]. split; [reflexivity|]. split.
  - destruct (OpenAI.nextPrompt r) as [[|c s]|].
    + left. apply app_nil_r.
    + right. exists c, s. rewrite <- app_assoc. reflexivity.
    + left. apply app_nil_r.
  - intros ->. destruct (OpenAI.conversationComplete r); reflexivity.
Qed.

Section Turn.
Context `{Platform}.

Lemma turn_accepted reply v st n :
  (String.eqb (trim (FreeformAIChat.input st)) "" || FreeformAIChat.isProcessing st)%bool
  = false ->
  Shape.accepted v = true ->
  exists st' n',
    FreeformAIChat.handleSendMessage (OpenAI.ApiOk reply (OpenAI.Parsed v)) st n
    = (Eff.Normal st', n')
    /\ FreeformAIChat.goalData st'
       = FreeformAIChat.mergeExtracted (Some (Shape.transformed v n))
           (FreeformAIChat.goalData st)
    /\ FreeformAIChat.showSummary st'
       = (if (Shape.nonBlank v "title" && Shape.nonBlank v "description"
              && Shape.nonBlank v "domain")%bool
          then true else FreeformAIChat.showSummary st).
Proof.
  intros Hb Hacc. unfold FreeformAIChat.handleSendMessage. rewrite Hb.
  unfold OpenAI.processConversation.
  destruct (extraction_parsed v n) as [n' E]. rewrite Hacc in E.
  unfold Eff.bind. rewrite E. unfold Eff.ret.
  eexists _, _. split; [reflexivity|].
  cbn [FreeformAIChat.goalData FreeformAIChat.showSummary OpenAI.extractedData
       OpenAI.conversationComplete fst snd andb].
  split; reflexivity.
Qed.

Lemma nonBlank_truthy v k : Shape.nonBlank v k = true -> truthy (Dyn.prop v k) = true.
Proof.
  unfold Shape.nonBlank. destruct (Dyn.prop v k) as [| | | |s| | |]; try discriminate.
  destruct s; [discriminate | reflexivity].
Qed.

End Turn.

(** ** The dates of the draft *)

Section Dates.
Context `{Platform}.

Lemma newDate_copies d n : Dyn.newDate (JDate d) n = (Eff.Normal (JDate d), n).
Proof. reflexivity. Qed.

Lemma dates_initial : FreeformAIChat.dates Draft.initial = true.
Proof. reflexivity. Qed.

Lemma dates_transformed v n : FreeformAIChat.dates (Shape.transformed v n) = true.
Proof.
  unfold FreeformAIChat.dates, Shape.transformed.
  cbn [Draft.Goal.targetDate Draft.Goal.milestones Draft.or_nil].
  apply andb_true_iff. split.
  - destruct (truthy (Dyn.prop v "targetDate")); reflexivity.
  - apply forallb_forall. apply List.Forall_forall.
    apply numbered_Forall. intros i x. reflexivity.
Qed.

Lemma dates_mergeExtracted e prev :
  FreeformAIChat.dates prev = true ->
  match e with Some x => FreeformAIChat.dates x = true | None => True end ->
  FreeformAIChat.dates (FreeformAIChat.mergeExtracted e prev) = true.
Proof.
  intros Hp He. destruct e as [x|]; [|exact Hp].
  unfold FreeformAIChat.dates in *. apply andb_true_iff in He as [Ht Hm].
  apply andb_true_iff in Hp as [_ Hpm].
  cbn [FreeformAIChat.mergeExtracted FreeformAIChat.spread FreeformAIChat.field
       Draft.Goal.targetDate Draft.Goal.milestones].
  rewrite Ht. cbn [andb].
  destruct (Draft.Goal.milestones x) as [l|]; [exact Hm | exact Hpm].
Qed.

Lemma dates_mergeExtracted_accepted v n prev :
  FreeformAIChat.dates
    (FreeformAIChat.mergeExtracted (Some (Shape.transformed v n)) prev) = true.
Proof.
  pose proof (dates_transformed v n) as D. unfold FreeformAIChat.dates in *.
  cbn [FreeformAIChat.mergeExtracted FreeformAIChat.spread FreeformAIChat.field
       Draft.Goal.targetDate Draft.Goal.milestones Draft.or_list] in *.
  exact D.
Qed.

Lemma dates_spread e prev :
  FreeformAIChat.dates prev = true ->
  match e with Some x => FreeformAIChat.dates x = true | None => True end ->
  FreeformAIChat.dates (FreeformAIChat.spread prev e) = true.
Proof. intros Hp He. destruct e; [exact He | exact Hp]. Qed.

Lemma extractedData_dates messages api n r n' :
  OpenAI.processConversation messages api n = (Eff.Normal r, n') ->
  match OpenAI.extractedData r with
  | Some x => FreeformAIChat.dates x = true
  | None => True
  end.
Proof.
  destruct api as [|reply [|v]]; unfold OpenAI.processConversation.
  - intros E. inversion E. exact I.
  - intros E. inversion E. exact I.
  - destruct (extraction_parsed v n) as [k E]. unfold Eff.bind. rewrite E.
    unfold Eff.ret. intros R. inversion R. cbn [OpenAI.extractedData fst].
    destruct (Shape.accepted v); [apply dates_transformed | exact I].
Qed.

(** A turn of the chat and the import of a transcript keep the dates of the
    draft Date objects, whatever the completion endpoint returned. *)
Lemma handleSendMessage_keeps_dates api st n st' n' :
  FreeformAIChat.handleSendMessage api st n = (Eff.Normal st', n') ->
  FreeformAIChat.dates (FreeformAIChat.goalData st) = true ->
  FreeformAIChat.dates (FreeformAIChat.goalData st') = true.
Proof.
  unfold FreeformAIChat.handleSendMessage.
  destruct (String.eqb (trim (FreeformAIChat.input st)) "" || FreeformAIChat.isProcessing st)%bool.
  { intros E. inversion E. auto. }
  match goal with |- context [OpenAI.processConversation ?m api] =>
    destruct (processConversation_returns m api n) as (r & k & E);
    pose proof (extractedData_dates m api n r k E) as D end.
  unfold Eff.bind. rewrite E. unfold Eff.ret. intros R Hp. inversion R.
  cbn [FreeformAIChat.goalData]. apply dates_mergeExtracted; assumption.
Qed.

Lemma handleImportTranscript_keeps_dates api p n p' n' :
  FreeformAIChat.handleImportTranscript api p n = (Eff.Normal p', n') ->
  FreeformAIChat.dates (FreeformAIChat.goalData (FreeformAIChat.chat p)) = true ->
  FreeformAIChat.dates (FreeformAIChat.goalData (FreeformAIChat.chat p')) = true.
Proof.
  unfold FreeformAIChat.handleImportTranscript.
  destruct (String.eqb (trim (FreeformAIChat.transcript p)) "").
  { intros E. inversion E. auto. }
  match goal with |- context [OpenAI.processConversation ?m api] =>
    destruct (processConversation_returns m api n) as (r & k & E);
    pose proof (extractedData_dates m api n r k E) as D end.
  unfold Eff.bind. rewrite E. unfold Eff.ret. intros R Hp. inversion R.
  cbn [FreeformAIChat.goalData FreeformAIChat.chat]. apply dates_spread; assumption.
Qed.

(** On such a draft every [new Date] of [handleSaveGoal] is given a Date, or
    is not evaluated. *)
Lemma dates_convert goalData n :
  FreeformAIChat.dates goalData = true ->
  (if truthy (Draft.Goal.targetDate goalData)
   then Dyn.newDate (Draft.Goal.targetDate goalData) else Eff.ret JUndefined) n
  = (Eff.Normal (if truthy (Draft.Goal.targetDate goalData)
                 then Dyn.dateOf (Draft.Goal.targetDate goalData) else JUndefined), n)
  /\ Forall (fun m => forall k,
                Dyn.newDate (Draft.Milestone.targetDate m) k
                = (Eff.Normal (Dyn.dateOf (Draft.Milestone.targetDate m)), k))
       (Draft.or_nil (Draft.Goal.milestones goalData)).
Proof.
  unfold FreeformAIChat.dates. intros D. apply andb_true_iff in D as [Dt Dm]. split.
  - destruct (Draft.Goal.targetDate goalData); try discriminate; reflexivity.
  - apply List.Forall_forall. intros m Hm. rewrite forallb_forall in Dm.
    specialize (Dm m Hm). destruct (Draft.Milestone.targetDate m); try discriminate.
    intros k. reflexivity.
Qed.

(** A reply whose [targetDate] is an object with a property [toString], or
    whose milestone date is an array that holds one, is refused: nothing is
    extracted and the conversation is not complete, although the three
    required fields are there. *)
Lemma unconvertible_date_is_refused messages reply n :
  Shape.accepted Sample.dateAsObject = false
  /\ Shape.accepted Sample.milestoneDateAsObject = false
  /\ (exists r,
        OpenAI.processConversation messages
          (OpenAI.ApiOk reply (OpenAI.Parsed Sample.dateAsObject)) n = (Eff.Normal r, n)
        /\ OpenAI.extractedData r = None /\ OpenAI.conversationComplete r = false)
  /\ (exists r,
        OpenAI.processConversation messages
          (OpenAI.ApiOk reply (OpenAI.Parsed Sample.milestoneDateAsObject)) n
        = (Eff.Normal r, S n)
        /\ OpenAI.extractedData r = None /\ OpenAI.conversationComplete r = false).
Proof.
  split; [reflexivity|]. split; [reflexivity|].
  split; eexists; (split; [reflexivity|]); split; reflexivity.
Qed.

End Dates.

(** X13: after a turn whose extraction reply is accepted (the transform
    completes: no list holds [null] and every date given converts), the
    title, the description and the domain of the draft are the fields of that
    reply, [undefined] when the reply lacks them whatever the draft held; the
    target date is the Date built from the reply's or [undefined], the status
    is [active] and the reflections are empty; so [isGoalComplete()] is truthy
    exactly when the three fields of the reply are truthy. *)
Theorem X13_freeform_scalars_follow_the_last_extraction (P : Platform)
  (reply : option string) (parsedData : value) (st : FreeformAIChat.State) (n : nat) :
  (String.eqb (trim (FreeformAIChat.input st)) "" || FreeformAIChat.isProcessing st)%bool
  = false ->
  Shape.accepted parsedData = true ->
  exists st' n',
    FreeformAIChat.handleSendMessage (OpenAI.ApiOk reply (OpenAI.Parsed parsedData)) st n
    = (Eff.Normal st', n')
    /\ let g := FreeformAIChat.goalData st' in
       Draft.Goal.title g = Dyn.prop parsedData "title"
       /\ Draft.Goal.description g = Dyn.prop parsedData "description"
       /\ Draft.Goal.domain g = Dyn.prop parsedData "domain"
       /\ Draft.Goal.targetDate g
          = (if truthy (Dyn.prop parsedData "targetDate")
             then Dyn.dateOf (Dyn.prop parsedData "targetDate") else JUndefined)
       /\ Draft.Goal.status g = JStr "active"
       /\ Draft.Goal.reflections g = JArr []
       /\ truthy (FreeformAIChat.isGoalComplete g)
          = (truthy (Dyn.prop parsedData "title")
             && truthy (Dyn.prop parsedData "description")
             && truthy (Dyn.prop parsedData "domain"))%bool.
Proof.
  intros Hb Hacc.
  destruct (turn_accepted reply parsedData st n Hb Hacc) as (st' & n' & E & G & _).
  exists st', n'. split; [exact E|]. cbv zeta. rewrite G.
  cbn [FreeformAIChat.mergeExtracted FreeformAIChat.spread Shape.transformed
       Draft.Goal.title Draft.Goal.description Draft.Goal.domain Draft.Goal.targetDate
       Draft.Goal.status Draft.Goal.reflections FreeformAIChat.isGoalComplete].
  repeat (split; [reflexivity|]).
  unfold FreeformAIChat.isGoalComplete, JS.and.
  cbn [FreeformAIChat.mergeExtracted FreeformAIChat.spread Shape.transformed
       Draft.Goal.title Draft.Goal.description Draft.Goal.domain].
  destruct (truthy (Dyn.prop parsedData "title")) eqn:T; cbn [andb];
    [|rewrite ?T; reflexivity || exact T].
  destruct (truthy (Dyn.prop parsedData "description")) eqn:D; cbn [andb];
    [|rewrite ?D; reflexivity || exact D].
  reflexivity.
Qed.

(** X13 at a draft that had a domain and a reply that names none. *)
Lemma X13_freeform_scalars_follow_the_last_extraction_witness :
  exists st' n',
    FreeformAIChat.handleSendMessage (H := Sample.platform)
      (OpenAI.ApiOk (Some "And the area?"%string) (OpenAI.Parsed Sample.withoutDomain))
      (FreeformAIChat.setInput "I want to run 5k"
         {| FreeformAIChat.messages := FreeformAIChat.messages FreeformAIChat.initialState;
            FreeformAIChat.input := "";
            FreeformAIChat.isProcessing := false;
            FreeformAIChat.goalData := Draft.set_domain (JStr "health") Draft.initial;
            FreeformAIChat.showSummary := false |})
      0%nat = (Eff.Normal st', n')
    /\ Draft.Goal.title (FreeformAIChat.goalData st') = JStr "Run 5k"
    /\ Draft.Goal.domain (FreeformAIChat.goalData st') = JUndefined
    /\ truthy (FreeformAIChat.isGoalComplete (FreeformAIChat.goalData st')) = false.
Proof.
  destruct (X13_freeform_scalars_follow_the_last_extraction Sample.platform
              (Some "And the area?"%string) Sample.withoutDomain
              (FreeformAIChat.setInput "I want to run 5k"
                 {| FreeformAIChat.messages :=
                      FreeformAIChat.messages FreeformAIChat.initialState;
                    FreeformAIChat.input := "";
                    FreeformAIChat.isProcessing := false;
                    FreeformAIChat.goalData := Draft.set_domain (JStr "health") Draft.initial;
                    FreeformAIChat.showSummary := false |})
              0%nat eq_refl eq_refl)
    as (st' & n' & E & Ht & _ & Hd & _ & _ & _ & Hc).
  exists st', n'. split; [exact E|]. split; [exact Ht|]. split; [exact Hd | exact Hc].
Defined.

Lemma handleSaveGoal_scalars `{Platform} goalData n :
  exists saved n',
    FreeformAIChat.handleSaveGoal goalData n = (Eff.Normal saved, n')
    /\ Draft.Goal.title saved = JS.or (Draft.Goal.title goalData) (JStr "")
    /\ Draft.Goal.description saved = JS.or (Draft.Goal.description goalData) (JStr "")
    /\ Draft.Goal.domain saved = JS.or (Draft.Goal.domain goalData) (JStr "personal").
Proof.
  unfold FreeformAIChat.handleSaveGoal.
  unfold FreeformAIChat.saveMilestone, FreeformAIChat.saveMetric, FreeformAIChat.saveRoutine.
  unfold Eff.bind at 1. rewrite mapM_numbered.
  unfold Eff.bind at 1. rewrite mapM_numbered.
  unfold Eff.bind at 1. rewrite mapM_numbered.
  unfold Eff.ret. eexists _, _. repeat split.
Qed.

Lemma or_truthy a b : truthy a = true -> JS.or a b = a.
Proof. unfold JS.or. intros ->. reflexivity. Qed.

(** X14: when a turn completes the conversation (the reply is accepted and
    its three required fields are not blank), [showSummary] is set,
    [isGoalComplete()] is truthy, the dates of the draft are Date objects, and
    [handleSaveGoal] run on that draft completes and hands over the title, the
    description and the domain of the reply, none of them replaced by a
    default. *)
Theorem X14_a_complete_conversation_can_be_saved_as_extracted (P : Platform)
  (reply : option string) (parsedData : value) (st : FreeformAIChat.State) (n : nat) :
  (String.eqb (trim (FreeformAIChat.input st)) "" || FreeformAIChat.isProcessing st)%bool
  = false ->
  Shape.accepted parsedData = true ->
  Shape.nonBlank parsedData "title" = true ->
  Shape.nonBlank parsedData "description" = true ->
  Shape.nonBlank parsedData "domain" = true ->
  exists st' n' saved n'',
    FreeformAIChat.handleSendMessage (OpenAI.ApiOk reply (OpenAI.Parsed parsedData)) st n
    = (Eff.Normal st', n')
    /\ FreeformAIChat.showSummary st' = true
    /\ truthy (FreeformAIChat.isGoalComplete (FreeformAIChat.goalData st')) = true
    /\ FreeformAIChat.handleSaveGoal (FreeformAIChat.goalData st') n' = (Eff.Normal saved, n'')
    /\ Draft.Goal.title saved = Dyn.prop parsedData "title"
    /\ Draft.Goal.description saved = Dyn.prop parsedData "description"
    /\ Draft.Goal.domain saved = Dyn.prop parsedData "domain"
    /\ FreeformAIChat.dates (FreeformAIChat.goalData st') = true.
Proof.
  intros Hb Hacc Ht Hd Hm.
  destruct (turn_accepted reply parsedData st n Hb Hacc) as (st' & n' & E & G & S).
  rewrite Ht, Hd, Hm in S.
  pose proof (nonBlank_truthy _ _ Ht) as Tt. pose proof (nonBlank_truthy _ _ Hd) as Td.
  pose proof (nonBlank_truthy _ _ Hm) as Tm.
  destruct (handleSaveGoal_scalars (FreeformAIChat.goalData st') n')
    as (saved & n'' & Es & St & Sd & Sm).
  exists st', n', saved, n''. split; [exact E|]. split; [exact S|].
  split; [|split; [exact Es|]].
  - rewrite G. unfold FreeformAIChat.isGoalComplete, JS.and.
    cbn [FreeformAIChat.mergeExtracted FreeformAIChat.spread Shape.transformed
         Draft.Goal.title Draft.Goal.description Draft.Goal.domain].
    rewrite Tt, Td. exact Tm.
  - rewrite St, Sd, Sm, G.
    cbn [FreeformAIChat.mergeExtracted FreeformAIChat.spread Shape.transformed
         Draft.Goal.title Draft.Goal.description Draft.Goal.domain].
    rewrite !or_truthy by assumption. repeat split.
    apply dates_mergeExtracted_accepted.
Qed.

(** X14 at the complete sample reply. *)
Lemma X14_a_complete_conversation_can_be_saved_as_extracted_witness :
  exists st' n' saved n'',
    FreeformAIChat.handleSendMessage (H := Sample.platform)
      (OpenAI.ApiOk (Some "Great."%string) (OpenAI.Parsed Sample.complete))
      (FreeformAIChat.setInput "It is for my health" FreeformAIChat.initialState) 0%nat
    = (Eff.Normal st', n')
    /\ FreeformAIChat.showSummary st' = true
    /\ FreeformAIChat.handleSaveGoal (H := Sample.platform) (FreeformAIChat.goalData st') n'
       = (Eff.Normal saved, n'')
    /\ Draft.Goal.title saved = JStr "Run 5k"
    /\ Draft.Goal.domain saved = JStr "health".
Proof.
  destruct (X14_a_complete_conversation_can_be_saved_as_extracted Sample.platform
              (Some "Great."%string) Sample.complete
              (FreeformAIChat.setInput "It is for my health" FreeformAIChat.initialState)
              0%nat eq_refl eq_refl eq_refl eq_refl eq_refl)
    as (st' & n' & saved & n'' & E & Hs & _ & Es & Ht & _ & Hd & _).
  exists st', n', saved, n''. repeat (split; [assumption|]). assumption.
Defined.

Lemma transcriptLines_clean t :
  Forall (fun line => line <> EmptyString /\ trim line = line)
         (FreeformAIChat.transcriptLines t).
Proof.
  unfold FreeformAIChat.transcriptLines. apply List.Forall_forall. intros line Hl.
  apply List.filter_In in Hl as [Hl Hne]. apply negb_true_iff, String.eqb_neq in Hne.
  split; [exact Hne|]. apply List.in_map_iff in Hl as (raw & <- & _). apply trim_idempotent.
Qed.

Lemma transcriptMessages_spec lines :
  Forall (fun line => line <> EmptyString) lines ->
  forall i,
    List.map content (FreeformAIChat.transcriptMessages i lines) = lines
    /\ forall j m,
         nth_error (FreeformAIChat.transcriptMessages i lines) j = Some m ->
         role m = if Nat.even (i + j) then "assistant"%string else "user"%string.
Proof.
  induction 1 as [|line lines Hne _ IH]; intros i.
  - split; [reflexivity|]. intros [|j] m; discriminate.
  - cbn [FreeformAIChat.transcriptMessages].
    rewrite (proj2 (String.eqb_neq _ _) Hne). cbn [app List.map content].
    destruct (IH (S i)) as [IHc IHr]. split; [rewrite IHc; reflexivity|].
    intros [|j] m; cbn [nth_error].
    + intros E. inversion E. cbn [role]. rewrite Nat.add_0_r. reflexivity.
    + intros E. rewrite (IHr j m E). replace (S i + j)%nat with (i + S j)%nat by lia.
      reflexivity.
Qed.

(** X15: importing a transcript that is not blank replaces the messages by its
    lines that are not blank, trimmed and in order, spoken in turn by the
    assistant and the user, the assistant first; it shows the summary and ends
    the processing whatever the completion endpoint did, and spreads an accepted
    extraction over the draft, leaving the draft as it was otherwise. *)
Theorem X15_transcript_import_alternates_the_speakers (P : Platform)
  (api : OpenAI.ApiOutcome) (p : FreeformAIChat.Panel) (n : nat) :
  String.eqb (trim (FreeformAIChat.transcript p)) "" = false ->
  exists p' n',
    FreeformAIChat.handleImportTranscript api p n = (Eff.Normal p', n')
    /\ let shown := FreeformAIChat.messages (FreeformAIChat.chat p') in
       List.map content shown = FreeformAIChat.transcriptLines (FreeformAIChat.transcript p)
       /\ Forall (fun m => content m <> EmptyString /\ trim (content m) = content m) shown
       /\ (forall i m, nth_error shown i = Some m ->
             role m = if Nat.even i then "assistant"%string else "user"%string)
       /\ FreeformAIChat.showSummary (FreeformAIChat.chat p') = true
       /\ FreeformAIChat.isProcessing (FreeformAIChat.chat p') = false
       /\ FreeformAIChat.showTranscriptInput p' = false
       /\ FreeformAIChat.goalData (FreeformAIChat.chat p')
          = match api with
            | OpenAI.ApiOk _ (OpenAI.Parsed parsedData) =>
                if Shape.accepted parsedData then Shape.transformed parsedData n
                else FreeformAIChat.goalData (FreeformAIChat.chat p)
            | _ => FreeformAIChat.goalData (FreeformAIChat.chat p)
            end.
Proof.
  intros Hb. unfold FreeformAIChat.handleImportTranscript. rewrite Hb.
  set (lines := FreeformAIChat.transcriptLines (FreeformAIChat.transcript p)).
  pose proof (transcriptLines_clean (FreeformAIChat.transcript p)) as Hc. fold lines in Hc.
  assert (Hne : Forall (fun line => line <> EmptyString) lines).
  { eapply List.Forall_impl; [|exact Hc]. intros a [Ha _]. exact Ha. }
  destruct (transcriptMessages_spec lines Hne 0%nat) as [Hcontent Hrole].
  assert (G : exists r n',
             OpenAI.processConversation (FreeformAIChat.transcriptMessages 0 lines) api n
             = (Eff.Normal r, n')
             /\ FreeformAIChat.spread (FreeformAIChat.goalData (FreeformAIChat.chat p))
                  (OpenAI.extractedData r)
                = match api with
                  | OpenAI.ApiOk _ (OpenAI.Parsed parsedData) =>
                      if Shape.accepted parsedData then Shape.transformed parsedData n
                      else FreeformAIChat.goalData (FreeformAIChat.chat p)
                  | _ => FreeformAIChat.goalData (FreeformAIChat.chat p)
                  end).
  { destruct api as [|reply [|v]]; unfold OpenAI.processConversation.
    - eexists _, _. split; reflexivity.
    - eexists _, _. split; reflexivity.
    - destruct (extraction_parsed v n) as [n' E]. unfold Eff.bind. rewrite E.
      eexists _, _. split; [reflexivity|]. cbn [OpenAI.extractedData fst].
      destruct (Shape.accepted v); reflexivity. }
  destruct G as (r & n' & E & G).
  unfold Eff.bind. rewrite E. unfold Eff.ret. eexists _, _. split; [reflexivity|].
  cbn [FreeformAIChat.chat FreeformAIChat.messages FreeformAIChat.showSummary
       FreeformAIChat.isProcessing FreeformAIChat.showTranscriptInput
       FreeformAIChat.goalData].
  split; [exact Hcontent|]. split.
  { rewrite <- Hcontent in Hc. apply List.Forall_map in Hc. exact Hc. }
  split; [exact Hrole|]. repeat (split; [reflexivity|]). exact G.
Qed.

(** X15 at a transcript of four lines, one of them blank, with a failing
    endpoint. *)
Lemma X15_transcript_import_alternates_the_speakers_witness :
  exists p' n',
    FreeformAIChat.handleImportTranscript (H := Sample.platform) OpenAI.ApiError
      Sample.panel 0%nat = (Eff.Normal p', n')
    /\ FreeformAIChat.messages (FreeformAIChat.chat p')
       = [ {| role := "assistant"; content := "What would you like to achieve?" |};
           {| role := "user"; content := "I want to run 5k" |};
           {| role := "assistant"; content := "By when?" |} ]
    /\ FreeformAIChat.showSummary (FreeformAIChat.chat p') = true.
Proof.
  destruct (X15_transcript_import_alternates_the_speakers Sample.platform OpenAI.ApiError
              Sample.panel 0%nat eq_refl)
    as (p' & n' & E & _ & _ & _ & Hs & _).
  exists p', n'. split; [exact E|]. split; [|exact Hs].
  vm_compute in E. inversion E. reflexivity.
Defined.

(** X16: the close button of a chat with more than one message and no summary
    showing shows the summary and keeps the dialog, the messages and the draft;
    in every other state it closes the dialog; pressed twice it always closes,
    and it never hands over a goal. *)
Theorem X16_closing_a_started_chat_shows_the_summary_first (p : FreeformAIChat.Panel) :
  let started :=
    (Nat.ltb 1 (length (FreeformAIChat.messages (FreeformAIChat.chat p)))
     && negb (FreeformAIChat.showSummary (FreeformAIChat.chat p)))%bool in
  let once := FreeformAIChat.handleClose p in
  (if started
   then FreeformAIChat.closed once = FreeformAIChat.closed p
        /\ FreeformAIChat.showSummary (FreeformAIChat.chat once) = true
        /\ FreeformAIChat.goalData (FreeformAIChat.chat once)
           = FreeformAIChat.goalData (FreeformAIChat.chat p)
        /\ FreeformAIChat.messages (FreeformAIChat.chat once)
           = FreeformAIChat.messages (FreeformAIChat.chat p)
   else FreeformAIChat.closed once = true /\ FreeformAIChat.chat once = FreeformAIChat.chat p)
  /\ FreeformAIChat.closed (FreeformAIChat.handleClose once) = true
  /\ FreeformAIChat.created (FreeformAIChat.handleClose once) = FreeformAIChat.created p.
Proof.
  destruct p as [[ms inp ip gd ss] em sti tr cr cl].
  cbv zeta. unfold FreeformAIChat.handleClose.
  destruct ms as [|m1 [|m2 ms]], ss; cbn; repeat split.
Qed.

(** ** Runs of the guided questionnaire *)

Section GuidedFlow.
Context `{Platform}.

Lemma split_nonempty sep s : split sep s <> [].
Proof.
  destruct s as [|c s]; simpl; [discriminate|].
  destruct (Ascii.eqb c sep); [discriminate|]. destruct (split sep s); discriminate.
Qed.

Lemma segments_nonempty answer : AIGoalCreation.segments answer <> JArr [].
Proof.
  unfold AIGoalCreation.segments. pose proof (split_nonempty "," answer) as N.
  destruct (split "," answer); [congruence | discriminate].
Qed.

Lemma guidedMilestones_run d l n :
  exists ms,
    Eff.mapM (AIGoalCreation.guidedMilestone (JDate d)) l n
    = (Eff.Normal ms, (n + length l)%nat)
    /\ length ms = length l.
Proof.
  revert n. induction l as [|x l IH]; intros n.
  - exists []. split; [|reflexivity]. simpl. unfold Eff.ret. f_equal. lia.
  - destruct (IH (S n)) as (ms & E & L).
    eexists (_ :: ms). split.
    + cbn [Eff.mapM]. unfold Eff.bind at 1. unfold AIGoalCreation.guidedMilestone at 1.
      unfold Eff.bind at 1. unfold Eff.randomUUID at 1. unfold Eff.bind at 1.
      cbn [Dyn.getTime]. unfold Eff.ret at 1. unfold Eff.ret at 1.
      unfold Eff.bind at 1. rewrite E. unfold Eff.ret. f_equal. simpl. lia.
    + simpl. f_equal. exact L.
Qed.

Lemma guidedMetrics_run l n :
  Eff.mapM AIGoalCreation.guidedMetric l n
  = (Eff.Normal
       (Fresh.numbered
          (fun id metric =>
             {| Draft.Metric.id := id;
                Draft.Metric.name :=
                  nth 0 (List.map JStr (List.map trim (split ":" metric))) JUndefined;
                Draft.Metric.type := JStr "number";
                Draft.Metric.target :=
                  JS.or (JNum (parseInt
                                 (Dyn.ToString
                                    (nth 1 (List.map JStr (List.map trim (split ":" metric)))
                                         JUndefined))))
                        (JNum (Number_of_Z 100));
                Draft.Metric.current := JNum (S754_zero false);
                Draft.Metric.unit := JStr "";
                Draft.Metric.frequency := JStr "daily";
                Draft.Metric.history := JArr [] |}) n l),
     (n + length l)%nat).
Proof.
  unfold AIGoalCreation.guidedMetric. cbv zeta. apply mapM_numbered.
Qed.

Lemma step_keeps_inv aiResponse now st n :
  Guided.inv st -> AIGoalCreation.closed st = false ->
  exists st' n',
    AIGoalCreation.handleSendMessage aiResponse now st n = (Eff.Normal st', n')
    /\ Guided.inv st'
    /\ (AIGoalCreation.currentStep st' = AIGoalCreation.currentStep st
        \/ AIGoalCreation.currentStep st' = AIGoalCreation.currentStep st + 1).
Proof.
  intros I Hc. pose proof I as (Hr & Hi).
  destruct (AIGoalCreation.created st) as [g0|] eqn:Hcr; [destruct Hi; congruence|].
  destruct (Hi Hc) as (Hd & Ht & Hde & Htd & Hsc).
  unfold AIGoalCreation.handleSendMessage.
  destruct (String.eqb_spec (trim (AIGoalCreation.input st)) "") as [Eb|Nb].
  { eexists _, _. split; [reflexivity|]. split; [exact I | now left]. }
  assert (Hs : AIGoalCreation.currentStep st = 1 \/ AIGoalCreation.currentStep st = 2
               \/ AIGoalCreation.currentStep st = 3 \/ AIGoalCreation.currentStep st = 4
               \/ AIGoalCreation.currentStep st = 5 \/ AIGoalCreation.currentStep st = 6
               \/ AIGoalCreation.currentStep st = 7 \/ AIGoalCreation.currentStep st = 8
               \/ AIGoalCreation.currentStep st = 9 \/ AIGoalCreation.currentStep st = 10
               \/ AIGoalCreation.currentStep st = 11 \/ AIGoalCreation.currentStep st = 12)
    by lia.
  assert (F : forall k v (set : Draft.Goal.t -> Draft.Goal.t),
             AIGoalCreation.currentStep st = k -> 1 <= k < 12 ->
             Guided.filled (k + 1) (set (AIGoalCreation.goalData st)) ->
             let st1 := AIGoalCreation.asked st in
             Guided.inv (AIGoalCreation.advance v (k + 1)
                           (set (AIGoalCreation.goalData st)) st1)).
  { intros k v set Ek Hk Hf st1. split; [cbn; lia|].
    cbn [AIGoalCreation.advance AIGoalCreation.closed AIGoalCreation.created
         AIGoalCreation.currentStep AIGoalCreation.goalData AIGoalCreation.asked st1].
    rewrite Hcr. intros _. exact Hf. }
  unfold AIGoalCreation.asked in F. cbv zeta in F.
  destruct Hs as [E|[E|[E|[E|[E|[E|[E|[E|[E|[E|[E|E]]]]]]]]]]];
    rewrite E in Hd, Ht, Hde, Htd |- *.
  - (* 1 *)
    destruct (Array_includes AIGoalCreation.domains
                (toLowerCase (AIGoalCreation.input st))) eqn:Hin.
    + eexists _, _. split; [reflexivity|]. split; [|right; cbn; lia].
      apply (F 1 aiResponse (Draft.set_domain _)); [exact E | lia |].
      unfold Array_includes in Hin. apply existsb_exists in Hin as (tag & Htag & Heq).
      apply String.eqb_eq in Heq.
      repeat split; intros; try lia; try exact Hsc. exists tag. split; [exact Htag|].
      cbn. rewrite Heq. reflexivity.
    + eexists _, _. split; [reflexivity|]. split; [|left; reflexivity].
      split; [cbn; lia|]. cbn. rewrite Hcr. intros _.
      repeat split; intros; try lia; assumption.
  - (* 2 *)
    eexists _, _. split; [reflexivity|]. split; [|right; cbn; lia].
    apply (F 2 aiResponse (Draft.set_title _)); [exact E | lia |].
    repeat split; intros; try lia; try exact Hsc; cbn; eauto;
      first [apply Hd; lia | apply Ht; lia | apply Hde; lia | apply Htd; lia].
  - (* 3 *)
    eexists _, _. split; [reflexivity|]. split; [|right; cbn; lia].
    apply (F 3 aiResponse (Draft.set_description _)); [exact E | lia |].
    repeat split; intros; try lia; try exact Hsc; cbn; eauto;
      first [apply Hd; lia | apply Ht; lia | apply Hde; lia | apply Htd; lia].
  - (* 4 *)
    eexists _, _. split; [reflexivity|]. split; [|right; cbn; lia].
    apply (F 4 aiResponse (Draft.set_targetDate _)); [exact E | lia |].
    repeat split; intros; try lia; try exact Hsc; cbn; eauto;
      first [apply Hd; lia | apply Ht; lia | apply Hde; lia | apply Htd; lia].
  - (* 5 *)
    destruct (Htd ltac:(lia)) as [d Hd5]. rewrite Hd5.
    destruct (guidedMilestones_run d (split "," (AIGoalCreation.input st)) n) as (ms & Em & _).
    unfold Eff.bind. rewrite Em. unfold Eff.ret.
    eexists _, _. split; [reflexivity|]. split; [|right; cbn; lia].
    apply (F 5 aiResponse (Draft.set_milestones _)); [exact E | lia |].
    repeat split; intros; try lia; try exact Hsc; cbn; eauto;
      first [apply Hd; lia | apply Ht; lia | apply Hde; lia | apply Htd; lia].
  - (* 6 *)
    unfold Eff.bind. rewrite guidedMetrics_run. unfold Eff.ret.
    eexists _, _. split; [reflexivity|]. split; [|right; cbn; lia].
    apply (F 6 aiResponse (Draft.set_metrics _)); [exact E | lia |].
    repeat split; intros; try lia; try exact Hsc; cbn; eauto;
      first [apply Hd; lia | apply Ht; lia | apply Hde; lia | apply Htd; lia].
  - (* 7 *)
    eexists _, _. split; [reflexivity|]. split; [|right; cbn; lia].
    apply (F 7 aiResponse (Draft.set_weeklyActions _)); [exact E | lia |].
    repeat split; intros; try lia; try exact Hsc; cbn; eauto;
      first [apply Hd; lia | apply Ht; lia | apply Hde; lia | apply Htd; lia].
  - (* 8 *)
    eexists _, _. split; [reflexivity|]. split; [|right; cbn; lia].
    apply (F 8 aiResponse (Draft.set_dailyHabits _)); [exact E | lia |].
    repeat split; intros; try lia; try exact Hsc; cbn; eauto;
      first [apply Hd; lia | apply Ht; lia | apply Hde; lia | apply Htd; lia].
  - (* 9 *)
    unfold AIGoalCreation.guidedRoutine, Eff.bind, Eff.randomUUID, Eff.ret.
    eexists _, _. split; [reflexivity|]. split; [|right; cbn; lia].
    apply (F 9 aiResponse (Draft.set_routines _)); [exact E | lia |].
    repeat split; intros; try lia; try exact Hsc; cbn; eauto;
      first [apply Hd; lia | apply Ht; lia | apply Hde; lia | apply Htd; lia].
  - (* 10 *)
    eexists _, _. split; [reflexivity|]. split; [|right; cbn; lia].
    apply (F 10 aiResponse (Draft.set_resources _)); [exact E | lia |].
    repeat split; intros; try lia; try exact Hsc; cbn; eauto;
      first [apply Hd; lia | apply Ht; lia | apply Hde; lia | apply Htd; lia].
  - (* 11 *)
    eexists _, _. split; [reflexivity|]. split; [|right; cbn; lia].
    apply (F 11 aiResponse (Draft.set_obstacles _)); [exact E | lia |].
    repeat split; intros; try lia; try exact Hsc; cbn; eauto;
      first [apply Hd; lia | apply Ht; lia | apply Hde; lia | apply Htd; lia].
  - (* 12 *)
    eexists _, _. split; [reflexivity|]. split; [|left; cbn; lia].
    split; [cbn; lia|]. cbn [AIGoalCreation.closed AIGoalCreation.created
                             AIGoalCreation.goalData].
    split; [reflexivity|]. split.
    + repeat split; assumption.
    + cbn. apply segments_nonempty.
Qed.
End GuidedFlow.

Section Runs.
Context `{Platform}.

Lemma inv_initial : Guided.inv AIGoalCreation.initialState.
Proof.
  split; [cbn; lia|]. cbn. intros _. repeat split; intros; try lia.
Qed.

Lemma inv_dismiss st : Guided.inv st -> Guided.inv (AIGoalCreation.dismiss st).
Proof.
  intros (Hr & Hi). split; [exact Hr|].
  cbn [AIGoalCreation.dismiss AIGoalCreation.created AIGoalCreation.closed
       AIGoalCreation.goalData AIGoalCreation.currentStep].
  destruct (AIGoalCreation.created st); [|discriminate].
  destruct Hi as (_ & Hf & Hn). auto.
Qed.

Lemma inv_setInput text st : Guided.inv st -> Guided.inv (AIGoalCreation.setInput text st).
Proof. intros I. exact I. Qed.

Lemma inv_ideas o st : Guided.inv st -> Guided.inv (AIGoalCreation.handleGetSuggestions o st).
Proof. intros I. exact I. Qed.

Lemma react_inv ev st n : Guided.inv st -> Guided.inv (fst (AIGoalCreation.react ev (st, n))).
Proof.
  intros I. unfold AIGoalCreation.react.
  destruct (AIGoalCreation.closed st) eqn:C; [exact I|].
  destruct ev as [text|i|o|o now|]; cbn [fst].
  - exact I.
  - destruct (nth_error _ i); exact I.
  - exact I.
  - destruct (step_keeps_inv
                (OpenAI.getAIResponse (AIGoalCreation.input st)
                   (AIGoalCreation.currentQuestion st) (AIGoalCreation.messages st) o)
                now st n I C) as (st' & n' & -> & I' & _).
    exact I'.
  - apply inv_dismiss, I.
Qed.

Lemma play_inv events st n :
  Guided.inv st -> Guided.inv (fst (AIGoalCreation.play events (st, n))).
Proof.
  revert st n. induction events as [|ev events IH]; intros st n I; [exact I|].
  cbn [AIGoalCreation.play List.fold_left].
  destruct (AIGoalCreation.react ev (st, n)) as [st1 n1] eqn:E.
  apply IH. pose proof (react_inv ev st n I) as I1. rewrite E in I1. exact I1.
Qed.

Lemma question_in_range st :
  1 <= AIGoalCreation.currentStep st <= 12 ->
  exists q, AIGoalCreation.currentQuestion st = Some q.
Proof.
  intros Hr. unfold AIGoalCreation.currentQuestion.
  assert (Hs : exists k, (k < 12)%nat /\ AIGoalCreation.currentStep st = Z.of_nat k + 1).
  { exists (Z.to_nat (AIGoalCreation.currentStep st - 1)). lia. }
  destruct Hs as (k & Hk & ->).
  replace (1 <=? Z.of_nat k + 1) with true by (symmetry; apply Z.leb_le; lia).
  replace (Z.to_nat (Z.of_nat k + 1 - 1)) with k by lia.
  do 12 (destruct k as [|k]; [eexists; reflexivity|]). lia.
Qed.

End Runs.

(** X17: in every state the guided dialog reaches from its initial state, by
    typing, picking suggestions, asking for ideas, sending answers and
    pressing the close button, handled one at a time, the step is between 1
    and 12, so the question displayed exists; and while the dialog is open, sending any answer completes normally
    (step 5 always finds a target date) and leaves the step as it is or advances
    it by one. *)
Theorem X17_guided_flow_never_throws_and_always_has_a_question (P : Platform)
  (events : list AIGoalCreation.Event) (n0 : nat) :
  let s := AIGoalCreation.play events (AIGoalCreation.initialState, n0) in
  1 <= AIGoalCreation.currentStep (fst s) <= 12
  /\ (exists q, AIGoalCreation.currentQuestion (fst s) = Some q)
  /\ (AIGoalCreation.closed (fst s) = false ->
      forall aiResponse now text,
      exists st' n',
        AIGoalCreation.handleSendMessage aiResponse now
          (AIGoalCreation.setInput text (fst s)) (snd s) = (Eff.Normal st', n')
        /\ (AIGoalCreation.currentStep st' = AIGoalCreation.currentStep (fst s)
            \/ AIGoalCreation.currentStep st' = AIGoalCreation.currentStep (fst s) + 1)).
Proof.
  intros s. pose proof (play_inv events AIGoalCreation.initialState n0 inv_initial) as I.
  fold s in I. split; [apply I|]. split; [apply question_in_range, I|].
  intros C aiResponse now text.
  destruct (step_keeps_inv aiResponse now (AIGoalCreation.setInput text (fst s)) (snd s)
              (inv_setInput text _ I) C) as (st' & n' & E & _ & S).
  exists st', n'. split; [exact E | exact S].
Qed.

(** X18: whenever the guided dialog has handed a goal to [onCreateGoal], the
    dialog is closed and that goal has no success criteria, although the draft
    of the dialog holds the ones typed at step 12; its domain is one of the
    seven tags, its title and description are strings that are not blank and its
    target date is a Date. *)
Theorem X18_guided_flow_hands_over_the_goal_without_its_success_criteria (P : Platform)
  (events : list AIGoalCreation.Event) (n0 : nat) (g : Draft.Goal.t) :
  let st := fst (AIGoalCreation.play events (AIGoalCreation.initialState, n0)) in
  AIGoalCreation.created st = Some g ->
  AIGoalCreation.closed st = true
  /\ Draft.Goal.successCriteria g = JArr []
  /\ Draft.Goal.successCriteria (AIGoalCreation.goalData st) <> JArr []
  /\ (exists tag, In tag AIGoalCreation.domains /\ Draft.Goal.domain g = JStr tag)
  /\ (exists s, Draft.Goal.title g = JStr s /\ trim s <> EmptyString)
  /\ (exists s, Draft.Goal.description g = JStr s /\ trim s <> EmptyString)
  /\ (exists d, Draft.Goal.targetDate g = JDate d).
Proof.
  intros st Hg. pose proof (play_inv events AIGoalCreation.initialState n0 inv_initial) as I.
  fold st in I. destruct I as [_ I]. rewrite Hg in I.
  destruct I as (Hc & (Hd & Ht & Hde & Htd & Hsc) & Hne).
  split; [exact Hc|]. split; [exact Hsc|]. split; [exact Hne|].
  split; [apply Hd; lia|]. split; [apply Ht; lia|]. split; [apply Hde; lia | apply Htd; lia].
Qed.

(** X18 at twelve sample answers, the last being [Finish a 5k race]. *)
Lemma X18_guided_flow_hands_over_the_goal_without_its_success_criteria_witness :
  exists g,
    AIGoalCreation.created
      (fst (AIGoalCreation.play (H := Sample.platform) Sample.answers
              (AIGoalCreation.initialState, 0%nat))) = Some g
    /\ Draft.Goal.successCriteria g = JArr []
    /\ Draft.Goal.successCriteria
         (AIGoalCreation.goalData
            (fst (AIGoalCreation.play (H := Sample.platform) Sample.answers
                    (AIGoalCreation.initialState, 0%nat))))
       = JArr [JStr "Finish a 5k race"].
Proof.
  eexists. split; [vm_compute; reflexivity|].
  split; [|vm_compute; reflexivity].
  apply (X18_guided_flow_hands_over_the_goal_without_its_success_criteria Sample.platform
           Sample.answers 0%nat). vm_compute. reflexivity.
Defined.

Lemma trim_fixed_nonempty s : trim s <> EmptyString -> trim (trim s) = trim s /\ trim s <> EmptyString.
Proof. intros N. split; [apply trim_idempotent | exact N]. Qed.

(** X19: whatever the completion endpoint does, every suggestion offered has no
    white space around it and is not blank, there is one per choice returned
    (one when the request failed), and a suggestion picked from the list makes
    an input that [handleSendMessage] does not ignore. *)
Theorem X19_offered_suggestions_are_never_blank (P : Platform) (o : OpenAI.ChatOutcome)
  (st : AIGoalCreation.State) :
  let offered := AIGoalCreation.suggestions (AIGoalCreation.handleGetSuggestions o st) in
  Forall (fun s => trim s = s /\ String.eqb (trim s) "" = false) offered
  /\ length offered = match o with
                      | OpenAI.ChatOk choices => length choices
                      | OpenAI.ChatError => 1%nat
                      end
  /\ (forall i n, 
        let picked := AIGoalCreation.react (AIGoalCreation.Picked i)
                        (AIGoalCreation.handleGetSuggestions o st, n) in
        (i < length offered)%nat -> AIGoalCreation.closed st = false ->
        String.eqb (trim (AIGoalCreation.input (fst picked))) "" = false).
Proof.
  intros offered.
  assert (A : Forall (fun s => trim s = s /\ String.eqb (trim s) "" = false) offered).
  { subst offered. cbn [AIGoalCreation.handleGetSuggestions AIGoalCreation.suggestions].
    unfold OpenAI.generateSuggestion. destruct o as [|choices].
    - repeat constructor.
    - apply List.Forall_forall. intros s Hs. apply List.in_map_iff in Hs as (c & <- & _).
      destruct c as [raw|]; [|split; reflexivity].
      destruct (trim raw) as [|a r] eqn:T; [split; reflexivity|].
      rewrite <- T. rewrite trim_idempotent. split; [reflexivity|].
      rewrite T. reflexivity. }
  split; [exact A|]. split.
  - subst offered. cbn [AIGoalCreation.handleGetSuggestions AIGoalCreation.suggestions].
    destruct o; [reflexivity|]. apply List.length_map.
  - intros i n picked Hi Hc. subst picked. unfold AIGoalCreation.react.
    cbn [AIGoalCreation.handleGetSuggestions AIGoalCreation.closed]. rewrite Hc.
    fold (AIGoalCreation.handleGetSuggestions o st). fold offered.
    destruct (nth_error offered i) as [s|] eqn:E.
    + cbn [fst AIGoalCreation.setInput AIGoalCreation.input].
      rewrite List.Forall_forall in A. apply (A s). eapply nth_error_In. exact E.
    + apply nth_error_None in E. lia.
Qed.

Lemma hundred_is_truthy x : truthy (JS.or x (JNum (Number_of_Z 100))) = true.
Proof. unfold JS.or. destruct (truthy x) eqn:T; [exact T | reflexivity]. Qed.

Lemma first_segment sep (s : string) (d : value) :
  nth 0 (List.map JStr (List.map trim (split sep s))) d
  = JStr (trim (hd EmptyString (split sep s))).
Proof.
  pose proof (split_nonempty sep s) as N. destruct (split sep s); [congruence | reflexivity].
Qed.

(** X20: at step 6 an answer that is not blank gives one metric per
    comma-separated segment, named by the trimmed text before the first colon,
    of type [number], with current value 0, an empty history and a fresh
    identifier; its target is a number that is neither zero nor NaN, since a
    target that does not parse, or parses to 0, becomes 100. *)
Theorem X20_guided_metric_targets_are_never_zero (P : Platform)
  (aiResponse : string) (now : Z) (st : AIGoalCreation.State) (n : nat) :
  AIGoalCreation.currentStep st = 6 ->
  String.eqb (trim (AIGoalCreation.input st)) "" = false ->
  let typed := split "," (AIGoalCreation.input st) in
  exists st' ms,
    AIGoalCreation.handleSendMessage aiResponse now st n
    = (Eff.Normal st', (n + length typed)%nat)
    /\ AIGoalCreation.currentStep st' = 7
    /\ Draft.Goal.metrics (AIGoalCreation.goalData st') = Some ms
    /\ List.map Draft.Metric.name ms
       = List.map (fun metric => JStr (trim (hd EmptyString (split ":" metric)))) typed
    /\ List.map Draft.Metric.id ms = Fresh.draws n (length typed)
    /\ Forall (fun m => truthy (Draft.Metric.target m) = true
                        /\ (exists x, Draft.Metric.target m = JNum x)
                        /\ Draft.Metric.type m = JStr "number"
                        /\ Draft.Metric.current m = JNum (S754_zero false)
                        /\ Draft.Metric.history m = JArr []) ms.
Proof.
  intros Hs Hb typed. unfold AIGoalCreation.handleSendMessage. rewrite Hb, Hs.
  unfold Eff.bind. rewrite guidedMetrics_run. unfold Eff.ret. fold typed.
  eexists _, _. split; [reflexivity|]. split; [reflexivity|].
  cbn [AIGoalCreation.advance AIGoalCreation.goalData Draft.set_metrics Draft.Goal.metrics].
  split; [reflexivity|]. split; [|split].
  - generalize n. induction typed as [|x l IH]; intros k; [reflexivity|].
    cbn [Fresh.numbered List.map Draft.Metric.name]. rewrite first_segment, IH. reflexivity.
  - unfold Fresh.draws. apply (numbered_ids _ Draft.Metric.id). intros; reflexivity.
  - apply numbered_Forall. intros i x. cbn.
    split; [apply hundred_is_truthy|]. split; [|repeat split].
    unfold JS.or. destruct (truthy _); eauto.
Qed.

(** X20 at the answer [Distance: 0, Pace]. *)
Lemma X20_guided_metric_targets_are_never_zero_witness :
  exists st' ms,
    AIGoalCreation.handleSendMessage (H := Sample.platform) "Good." 1790000000000
      (Sample.guided 6 Draft.initial "Distance: 0, Pace") 0%nat = (Eff.Normal st', 2%nat)
    /\ Draft.Goal.metrics (AIGoalCreation.goalData st') = Some ms
    /\ List.map Draft.Metric.name ms = [JStr "Distance"; JStr "Pace"]
    /\ List.map Draft.Metric.target ms = [JNum (Number_of_Z 100); JNum (Number_of_Z 100)].
Proof.
  destruct (X20_guided_metric_targets_are_never_zero Sample.platform "Good." 1790000000000
              (Sample.guided 6 Draft.initial "Distance: 0, Pace") 0%nat eq_refl eq_refl)
    as (st' & ms & E & _ & Hm & Hn & _).
  exists st', ms. split; [exact E|]. split; [exact Hm|]. split; [exact Hn|].
  vm_compute in E. inversion E; subst st'. cbn in Hm. inversion Hm. reflexivity.
Defined.

(** ** The cards of the domain overview *)

Lemma count_perm {A} (p : A -> bool) l l' :
  Permutation l l' -> length (List.filter p l) = length (List.filter p l').
Proof.
  induction 1 as [|x l l' _ IH|x y l|l l' l'' _ IH1 _ IH2]; simpl.
  - reflexivity.
  - destruct (p x); simpl; congruence.
  - destruct (p x), (p y); reflexivity.
  - congruence.
Qed.

Lemma fold_count {A} (f : A -> nat) l a :
  List.fold_left (fun count x => (count + f x)%nat) l a
  = (a + List.fold_right (fun x count => (f x + count)%nat) 0%nat l)%nat.
Proof.
  revert a. induction l as [|x l IH]; intros a; simpl; [lia|]. rewrite IH. lia.
Qed.

Lemma sum_perm {A} (f : A -> nat) l l' :
  Permutation l l' ->
  List.fold_right (fun x count => (f x + count)%nat) 0%nat l
  = List.fold_right (fun x count => (f x + count)%nat) 0%nat l'.
Proof.
  induction 1; simpl; lia.
Qed.

Lemma tally_perm now l l' :
  Permutation l l' -> DomainOverview.tally now l = DomainOverview.tally now l'.
Proof.
  intros Hp. unfold DomainOverview.tally. f_equal.
  - apply Permutation_length, Hp.
  - apply count_perm, Hp.
  - apply count_perm, Hp.
  - rewrite !fold_count. f_equal. apply sum_perm, Hp.
Qed.

Lemma disjoint_counts {A} (p q : A -> bool) l :
  (forall x, p x = true -> q x = false) ->
  (length (List.filter p l) + length (List.filter q l) <= length l)%nat.
Proof.
  intros D. induction l as [|x l IH]; simpl; [lia|].
  destruct (p x) eqn:Hp; [rewrite (D x Hp)|destruct (q x)]; simpl; lia.
Qed.

Lemma tally_bounds now goals :
  let s := DomainOverview.tally now goals in
  (DomainOverview.activeGoals s + DomainOverview.completedGoals s
   <= DomainOverview.totalGoals s)%nat.
Proof.
  cbn. apply disjoint_counts. intros g Ha. apply String.eqb_eq in Ha. rewrite Ha. reflexivity.
Qed.

(** The world with one more document. *)
Lemma domainGoals_foreign u id r wd k d :
  goals_collection wd !! k = None ->
  (Goal.userId d <> uid u \/ Goal.domain d <> id) ->
  match DomainOverview.domainGoals u id r
          {| goals_collection := <[k := d]> (goals_collection wd); console := console wd |},
        DomainOverview.domainGoals u id r wd with
  | Some l', Some l => Permutation l' l
  | None, None => True
  | _, _ => False
  end.
Proof.
  intros Hk Hd. unfold DomainOverview.domainGoals, Firestore.getDocs. cbn [goals_collection].
  destruct r; [|exact I].
  set (p := fun g : Goal.t => _).
  set (f := fun kd : string * Goal.t => Goal.set_id (fst kd) (snd kd)).
  assert (Hp : p (f (k, d)) = false).
  { subst p f. cbn [fst snd Goal.set_id Goal.userId Goal.domain].
    apply andb_false_iff. destruct Hd as [N|N]; [left|right]; apply String.eqb_neq; exact N. }
  pose proof (map_to_list_insert (goals_collection wd) k d Hk) as Hperm.
  apply (Permutation_map f) in Hperm. cbn [List.map] in Hperm.
  assert (F : forall l l', Permutation l l' -> Permutation (List.filter p l) (List.filter p l')).
  { induction 1 as [|x l l' _ IH|x y l|l l' l'' _ IH1 _ IH2]; simpl.
    - constructor.
    - destruct (p x); [constructor|]; exact IH.
    - destruct (p x), (p y); try reflexivity. constructor.
    - etransitivity; eassumption. }
  apply F in Hperm. cbn [List.filter] in Hperm. rewrite Hp in Hperm. exact Hperm.
Qed.

Lemma gather_foreign u read clock wd k d cards stats :
  goals_collection wd !! k = None ->
  (forall id, In id cards -> Goal.userId d <> uid u \/ Goal.domain d <> id) ->
  DomainOverview.gather u read clock
    {| goals_collection := <[k := d]> (goals_collection wd); console := console wd |}
    cards stats
  = DomainOverview.gather u read clock wd cards stats.
Proof.
  intros Hk. revert stats. induction cards as [|id rest IH]; intros stats Hd; [reflexivity|].
  cbn [DomainOverview.gather].
  pose proof (domainGoals_foreign u id (read id) wd k d Hk (Hd id (or_introl eq_refl))) as G.
  destruct (DomainOverview.domainGoals u id (read id) _) as [l'|],
           (DomainOverview.domainGoals u id (read id) wd) as [l|]; try contradiction.
  - rewrite (tally_perm (clock id) l' l G). apply IH. intros i Hi. apply Hd. now right.
  - reflexivity.
Qed.

Lemma gather_delivered u read clock wd cards stats :
  (forall id, In id cards -> read id = Firestore.Delivered) ->
  exists stats',
    DomainOverview.gather u read clock wd cards stats = Some stats'
    /\ forall id,
         (In id cards ->
          exists goals,
            DomainOverview.domainGoals u id Firestore.Delivered wd = Some goals
            /\ stats' !! id = Some (DomainOverview.tally (clock id) goals))
         /\ (~ In id cards -> stats' !! id = stats !! id).
Proof.
  revert stats. induction cards as [|c rest IH]; intros stats Hr.
  - exists stats. split; [reflexivity|]. intros id. split; [intros []|reflexivity].
  - cbn [DomainOverview.gather]. rewrite (Hr c (or_introl eq_refl)).
    unfold DomainOverview.domainGoals at 1, Firestore.getDocs at 1.
    match goal with |- context [DomainOverview.gather _ _ _ _ _ (<[c := ?t]> stats)] =>
      set (here := t) end.
    destruct (IH (<[c := here]> stats)) as (stats' & E & L).
    { intros i Hi. apply Hr. now right. }
    exists stats'. split; [exact E|]. intros id.
    destruct (L id) as [Lin Lout]. split.
    + intros Hin. destruct (in_dec string_dec id rest) as [Hrest|Hrest]; [auto|].
      destruct Hin as [<-|Hin]; [|contradiction].
      eexists. split; [reflexivity|]. rewrite (Lout Hrest). apply lookup_insert_eq.
    + intros Hn. rewrite Lout by (intros Hi; apply Hn; now right).
      apply lookup_insert_ne. intros <-. apply Hn. now left.
Qed.

Lemma gather_failed u read clock wd cards stats :
  (exists id, In id cards /\ read id = Firestore.Failed) ->
  DomainOverview.gather u read clock wd cards stats = None.
Proof.
  revert stats. induction cards as [|c rest IH]; intros stats (id & Hin & Hf); [destruct Hin|].
  cbn [DomainOverview.gather]. unfold DomainOverview.domainGoals, Firestore.getDocs.
  destruct (read c) eqn:Rc; [|reflexivity].
  apply IH. exists id. split; [|exact Hf]. destruct Hin as [<-|Hin]; [congruence | exact Hin].
Qed.

(** X21: with no user signed in, loading the overview returns at once: the
    state, its loading flag included, and the store are as they were.  For a
    signed-in user it ends the loading state.  When every read is delivered,
    the six cards, in the order of the domain list, each show the statistics
    of the documents of that user in that domain, read at that card's clock;
    on a card the active and the completed goals together are at most the
    total; the store is not touched.  When the user document or one of the
    six queries cannot be read, the statistics stay as they were and the
    failure is logged once. *)
Theorem X21_overview_cards_count_the_users_goals_by_domain
  (profile : Firestore.ReadOutcome) (read : string -> Firestore.ReadOutcome)
  (clock : string -> Z) (st : DomainOverview.State) (wd : World) :
  let r := DomainOverview.fetchData profile read clock st wd in
  match DomainOverview.user st with
  | None => r = (st, wd)
  | Some u =>
      DomainOverview.loading (fst r) = false
      /\ DomainOverview.user (fst r) = Some u
      /\ (profile = Firestore.Delivered ->
          (forall id, In id DomainOverview.domains -> read id = Firestore.Delivered) ->
          snd r = wd
          /\ List.map fst (DomainOverview.cards (fst r)) = DomainOverview.domains
          /\ forall id stats,
               In (id, stats) (DomainOverview.cards (fst r)) ->
               exists goals,
                 DomainOverview.domainGoals u id Firestore.Delivered wd = Some goals
                 /\ stats = DomainOverview.tally (clock id) goals
                 /\ (DomainOverview.activeGoals stats + DomainOverview.completedGoals stats
                     <= DomainOverview.totalGoals stats)%nat)
      /\ (profile = Firestore.Failed
          \/ (exists id, In id DomainOverview.domains /\ read id = Firestore.Failed) ->
          DomainOverview.domainStats (fst r) = DomainOverview.domainStats st
          /\ snd r = {| goals_collection := goals_collection wd;
                        console := console wd ++ ["Error fetching data:"%string] |})
  end.
Proof.
  intros r. subst r. unfold DomainOverview.fetchData.
  destruct (DomainOverview.user st) as [u|] eqn:Hu; [|reflexivity].
  split; [|split; [|split]].
  - destruct profile; [|reflexivity].
    destruct (DomainOverview.gather _ _ _ _ _ _); reflexivity.
  - destruct profile; [|reflexivity].
    destruct (DomainOverview.gather _ _ _ _ _ _); reflexivity.
  - intros -> Hr.
    destruct (gather_delivered u read clock wd DomainOverview.domains ∅ Hr) as (stats & -> & L).
    cbn [fst snd]. split; [reflexivity|]. split.
    + unfold DomainOverview.cards. rewrite List.map_map. cbn [fst]. apply List.map_id.
    + intros id s Hin. unfold DomainOverview.cards in Hin.
      apply List.in_map_iff in Hin as (c & E & Hc). injection E as E1 E2. subst c.
      destruct (L id) as [Lin _]. destruct (Lin Hc) as (goals & Hg & Hs). exists goals.
      cbn [DomainOverview.domainStats] in E2. rewrite Hs in E2. subst s.
      split; [exact Hg|]. split; [reflexivity | apply tally_bounds].
  - intros [-> | Hf]; [split; reflexivity|].
    destruct profile; [|split; reflexivity].
    rewrite (gather_failed _ _ _ _ _ _ Hf). split; reflexivity.
Qed.

(** X21 at the sample store: the health card. *)
Lemma X21_overview_cards_count_the_users_goals_by_domain_witness :
  In ("health"%string,
      {| DomainOverview.totalGoals := 1; DomainOverview.activeGoals := 1;
         DomainOverview.completedGoals := 0; DomainOverview.upcomingMilestones := 1 |})
     (DomainOverview.cards
        (fst (DomainOverview.fetchData Firestore.Delivered (fun _ => Firestore.Delivered)
                (fun _ => 1790000000000) Sample.overview Sample.world)))
  /\ DomainOverview.loading
       (fst (DomainOverview.fetchData Firestore.Delivered (fun _ => Firestore.Delivered)
               (fun _ => 1790000000000) Sample.overview Sample.world)) = false.
Proof.
  destruct (X21_overview_cards_count_the_users_goals_by_domain Firestore.Delivered
              (fun _ => Firestore.Delivered) (fun _ => 1790000000000) Sample.overview
              Sample.world) as (L & _ & _).
  split; [left; vm_compute; reflexivity | exact L].
Defined.

(** X22: [work] is one of the domains the guided dialog accepts, but a goal
    stored in that domain, like a goal of another user, changes what no card of
    the overview shows. *)
Theorem X22_overview_never_counts_a_goal_in_the_work_domain
  (profile : Firestore.ReadOutcome) (read : string -> Firestore.ReadOutcome)
  (clock : string -> Z) (st : DomainOverview.State) (wd : World) (k : string) (d : Goal.t) :
  goals_collection wd !! k = None ->
  (Goal.domain d = "work"%string
   \/ (forall u, DomainOverview.user st = Some u -> Goal.userId d <> uid u)) ->
  In "work"%string AIGoalCreation.domains
  /\ fst (DomainOverview.fetchData profile read clock st
            {| goals_collection := <[k := d]> (goals_collection wd); console := console wd |})
     = fst (DomainOverview.fetchData profile read clock st wd).
Proof.
  intros Hk Hd. split; [now left|].
  unfold DomainOverview.fetchData. destruct (DomainOverview.user st) as [u|]; [|reflexivity].
  destruct profile; [|reflexivity].
  rewrite (gather_foreign u read clock wd k d DomainOverview.domains ∅ Hk).
  - destruct (DomainOverview.gather _ _ _ _ _ _); reflexivity.
  - intros id Hin. destruct Hd as [Hw|Hf]; [right|left; apply Hf; reflexivity].
    rewrite Hw. intros <-. cbv in Hin. intuition discriminate.
Qed.

(** X22 at the sample store with one more goal, in the domain [work]. *)
Lemma X22_overview_never_counts_a_goal_in_the_work_domain_witness :
  fst (DomainOverview.fetchData Firestore.Delivered (fun _ => Firestore.Delivered)
         (fun _ => 1790000000000) Sample.overview
         {| goals_collection := <["g2"%string := Sample.atWork]> (goals_collection Sample.world);
            console := console Sample.world |})
  = fst (DomainOverview.fetchData Firestore.Delivered (fun _ => Firestore.Delivered)
           (fun _ => 1790000000000) Sample.overview Sample.world).
Proof.
  apply (X22_overview_never_counts_a_goal_in_the_work_domain Firestore.Delivered
           (fun _ => Firestore.Delivered) (fun _ => 1790000000000) Sample.overview
           Sample.world "g2" Sample.atWork).
  - vm_compute. reflexivity.
  - left. reflexivity.
Defined.

(** X23: for a milestone that a card counts as upcoming at some time, of a
    goal of the signed-in user that is active, every poll of the bell at that
    time or later that reads the same store lists a notification of type
    [milestone], titled [Upcoming Milestone], identified by the milestone's
    id, dated at the milestone's target date, unread, whose message names
    the milestone, the goal and the date. *)
Theorem X23_upcoming_on_a_card_is_announced_by_the_bell (P : Platform) (t now : Z) (wd : World)
  (bell : NotificationBell.State) (u : User) (k : string) (d : Goal.t) (m : Milestone.t) :
  NotificationBell.user bell = Some u ->
  goals_collection wd !! k = Some d ->
  Goal.userId d = uid u ->
  Goal.status d = "active"%string ->
  In m (Goal.milestones d) ->
  DomainOverview.upcoming t m = true ->
  t <= now ->
  Z.abs (now + NotificationBell.week) <= 8640000000000000 ->
  exists n due,
    Milestone.targetDate m = DateMs due
    /\ In n (NotificationBell.notifications
               (NotificationBell.checkNotifications now Firestore.Delivered wd bell))
    /\ NotificationBell.id n = ("milestone-" +:+ Milestone.id m)%string
    /\ NotificationBell.type n = "milestone"%string
    /\ NotificationBell.title n = "Upcoming Milestone"%string
    /\ NotificationBell.message n
       = (String (ascii_of_nat 34) "" +:+ Milestone.title m +:+ String (ascii_of_nat 34) ""
          +:+ " for goal "
          +:+ String (ascii_of_nat 34) "" +:+ Goal.title d +:+ String (ascii_of_nat 34) ""
             +:+ " is due on "
          +:+ toLocaleDateString (DateMs due))%string
    /\ NotificationBell.date n = DateMs due
    /\ NotificationBell.read n = false.
Proof.
  intros Hu Hk Hd Hs Hm Hup Ht Hrange.
  unfold DomainOverview.upcoming in Hup.
  apply andb_true_iff in Hup as [Hup Hle]. apply andb_true_iff in Hup as [Hc Hgt].
  apply negb_true_iff in Hc.
  destruct (Date_leb_inv _ _ Hle) as (x & y & Hx & Hy & Hxy).
  apply dateAt_inv in Hy. subst y.
  exists (NotificationBell.milestoneNotice (Goal.set_id k d) m), x.
  split; [exact Hx|]. split.
  - apply (due_milestone_is_listed now wd bell u k d m x); auto. lia.
  - unfold NotificationBell.milestoneNotice.
    cbn [NotificationBell.id NotificationBell.type NotificationBell.title
         NotificationBell.message NotificationBell.date NotificationBell.read
         Goal.set_id Goal.title].
    rewrite Hx. repeat split; reflexivity.
Qed.

(** X23 at the sample store: counted at one time, announced five minutes later. *)
Lemma X23_upcoming_on_a_card_is_announced_by_the_bell_witness :
  exists n,
    In n (NotificationBell.notifications
            (NotificationBell.checkNotifications (H := Sample.platform) 1790000300000
               Firestore.Delivered Sample.world Sample.bell))
    /\ NotificationBell.id n = "milestone-m2"%string
    /\ NotificationBell.title n = "Upcoming Milestone"%string
    /\ NotificationBell.date n = DateMs 1790000400000.
Proof.
  destruct (X23_upcoming_on_a_card_is_announced_by_the_bell Sample.platform 1790000000000
              1790000300000 Sample.world Sample.bell {| uid := "u1" |} "g1" Sample.goal
              (Sample.milestone "m2" false 1790000400000))
    as (n & due & Hdue & Hn & Hid & _ & Ht & _ & Hd & _).
  - reflexivity.
  - vm_compute. reflexivity.
  - reflexivity.
  - reflexivity.
  - right. left. reflexivity.
  - vm_compute. reflexivity.
  - lia.
  - vm_compute. discriminate.
  - exists n. split; [exact Hn|]. split; [exact Hid|]. split; [exact Ht|].
    rewrite Hd. rewrite <- Hdue. reflexivity.
Defined.

(** ** The days left to the target date *)

Lemma msPerDay_value : GoalDetails.msPerDay = Number_of_Z 86400000.
Proof. vm_compute. reflexivity. Qed.

Lemma binary_round_aux_opp mx ex lx :
  binary_round_aux 53 1024 true mx ex lx = SFopp (binary_round_aux 53 1024 false mx ex lx).
Proof.
  unfold binary_round_aux.
  destruct (shr_fexp 53 1024 mx ex lx) as [mrs' e'].
  destruct (shr_fexp 53 1024 _ e' loc_Exact) as [mrs'' e''].
  destruct (shr_m mrs''); [reflexivity | | reflexivity].
  destruct (e'' <=? 1024 - 53); reflexivity.
Qed.

Lemma binary_round_opp p ex :
  binary_round 53 1024 true p ex = SFopp (binary_round 53 1024 false p ex).
Proof.
  unfold binary_round. destruct (shl_align _ _ _) as [mz ez]. apply binary_round_aux_opp.
Qed.

Lemma Number_of_Z_opp n : 0 < n -> Number_of_Z (- n) = SFopp (Number_of_Z n).
Proof.
  intros Hn. destruct n as [|p|p]; try lia.
  unfold Number_of_Z, binary_normalize. cbn [Z.opp]. apply binary_round_opp.
Qed.

Lemma binary_round_aux_id m e :
  2 ^ 52 <= Z.pos m < 2 ^ 53 -> -1074 <= e < 971 ->
  binary_round_aux 53 1024 false (Z.pos m) e loc_Exact = S754_finite false m e.
Proof.
  intros Hm He.
  assert (D : Zdigits2 (Z.pos m) = 53) by (apply Zdigits2_unique; simpl; lia).
  destruct (binary_round_aux_spec (Z.pos m) e loc_Exact)
    as (m' & e' & k & E & _ & _ & _ & _ & X); [lia | lia | lia | lia |].
  destruct X as [Xm Xe]; [lia | reflexivity |].
  rewrite E. f_equal; [lia | exact Xe].
Qed.

(** A positive integer times a power of two that has the value of a normal
    Number rounds to that Number. *)
Lemma binary_round_normal p ex m e :
  2 ^ 52 <= Z.pos m < 2 ^ 53 -> -1074 <= e < 971 -> -1074 <= ex ->
  (ex <= e /\ Z.pos p = Z.pos m * 2 ^ (e - ex)) \/ (e < ex /\ Z.pos m = Z.pos p * 2 ^ (ex - e)) ->
  binary_round 53 1024 false p ex = S754_finite false m e.
Proof.
  intros Hm He Hex Hv. unfold binary_round.
  assert (Dg : Z.pos (digits2_pos p) + ex = 53 + e).
  { destruct Hv as [[Hle Hp] | [Hlt Hp]].
    - assert (P : 0 < 2 ^ (e - ex)) by (apply Z.pow_pos_nonneg; lia).
      enough (Z.pos (digits2_pos p) = 53 + (e - ex)) by lia.
      apply digits_unique. rewrite Hp.
      replace (53 + (e - ex) - 1) with (52 + (e - ex)) by lia.
      rewrite !Z.pow_add_r by lia. split.
      + apply Z.mul_le_mono_nonneg_r; lia.
      + apply Z.mul_lt_mono_pos_r; lia.
    - assert (P : 0 < 2 ^ (ex - e)) by (apply Z.pow_pos_nonneg; lia).
      enough (Z.pos (digits2_pos p) = 53 - (ex - e)) by lia.
      pose proof (digits_bounds p) as [Lo Hi].
      set (d := Z.pos (digits2_pos p)) in *.
      assert (Hd1 : 1 <= d) by (unfold d; lia).
      destruct (Z.lt_trichotomy d (53 - (ex - e))) as [L|[E|G]]; [|exact E|].
      + exfalso. assert (2 ^ d * 2 ^ (ex - e) <= 2 ^ 52).
        { rewrite <- Z.pow_add_r by lia. apply Z.pow_le_mono_r; lia. }
        nia.
      + exfalso. assert (2 ^ 53 <= 2 ^ (d - 1) * 2 ^ (ex - e)).
        { rewrite <- Z.pow_add_r by lia. apply Z.pow_le_mono_r; lia. }
        nia. }
  rewrite Dg, fexp_normal by lia. replace (53 + e - 53) with e by lia.
  unfold shl_align. destruct Hv as [[Hle Hp] | [Hlt Hp]].
  - destruct (e - ex) as [|n|n] eqn:En; try lia.
    + replace ex with e in * by lia. rewrite Z.mul_1_r in Hp. injection Hp as ->.
      apply binary_round_aux_id; lia.
    + rewrite Hp. rewrite binary_round_aux_exact by lia. f_equal. lia.
  - destruct (e - ex) as [|n|n] eqn:En; try lia.
    rewrite iter_xO. replace (Z.pos n) with (ex - e) by lia. rewrite <- Hp.
    apply binary_round_aux_id; lia.
Qed.

Lemma Number_of_scaled n k :
  0 < n < 2 ^ 53 -> 0 <= k <= 1074 ->
  binary_normalize 53 1024 (n * 2 ^ k) (- k) false = Number_of_Z n.
Proof.
  intros Hn Hk. destruct (Number_of_Z_normal n Hn) as (m & e & E & C & He & V).
  rewrite E. assert (P : 0 < 2 ^ k) by (apply Z.pow_pos_nonneg; lia).
  destruct (n * 2 ^ k) as [|p|p] eqn:Ep; try nia.
  cbn [binary_normalize]. apply binary_round_normal; try lia.
  destruct (Z.le_gt_cases (- k) e) as [L|G].
  - left. split; [exact L|]. rewrite <- Ep, V.
    replace (e - - k) with (k - (- e)) by lia.
    assert (2 ^ k = 2 ^ (- e) * 2 ^ (k - - e)).
    { rewrite <- Z.pow_add_r by lia. f_equal. lia. }
    nia.
  - right. split; [exact G|]. rewrite <- Ep, V.
    assert (2 ^ (- e) = 2 ^ k * 2 ^ (- k - e)).
    { rewrite <- Z.pow_add_r by lia. f_equal. lia. }
    nia.
Qed.

Lemma binary_normalize_opp x e :
  0 < x ->
  binary_normalize 53 1024 (- x) e false = SFopp (binary_normalize 53 1024 x e false).
Proof.
  intros Hx. destruct x as [|p|p]; try lia. cbn [Z.opp binary_normalize].
  apply binary_round_opp.
Qed.

Lemma shl_align_value mx ex ez :
  ez <= ex -> Z.pos (fst (shl_align mx ex ez)) = Z.pos mx * 2 ^ (ex - ez).
Proof.
  intros Hle. unfold shl_align. destruct (ez - ex) as [|d|d] eqn:Ed; try lia; cbn [fst].
  - replace (ex - ez) with 0 by lia. lia.
  - rewrite iter_xO. f_equal. f_equal. lia.
Qed.

(** The difference of two time values is computed exactly. *)
Lemma Number_sub_exact T N :
  0 < T < 2 ^ 53 -> 0 < N < 2 ^ 53 -> - 2 ^ 53 < T - N < 2 ^ 53 ->
  Number_sub (Number_of_Z T) (Number_of_Z N) = Number_of_Z (T - N).
Proof.
  intros HT HN Hd.
  destruct (Number_of_Z_normal T HT) as (mT & eT & ET & CT & HeT & VT).
  destruct (Number_of_Z_normal N HN) as (mN & eN & EN & CN & HeN & VN).
  rewrite ET, EN. unfold Number_sub, SFsub, JS.prec, JS.emax. cbn [cond_Zopp].
  set (ez := Z.min eT eN).
  rewrite !shl_align_value by (unfold ez; lia).
  assert (Hez : -52 <= ez <= 0) by (unfold ez; lia).
  assert (PT : 2 ^ (- eT) * 2 ^ (eT - ez) = 2 ^ (- ez)).
  { rewrite <- Z.pow_add_r by (unfold ez; lia). f_equal. lia. }
  assert (PN : 2 ^ (- eN) * 2 ^ (eN - ez) = 2 ^ (- ez)).
  { rewrite <- Z.pow_add_r by (unfold ez; lia). f_equal. lia. }
  replace (Z.pos mT * 2 ^ (eT - ez) - Z.pos mN * 2 ^ (eN - ez)) with ((T - N) * 2 ^ (- ez)).
  2:{ rewrite VT, VN. rewrite Z.mul_sub_distr_r, <- PT at 1. rewrite <- PN at 1. ring. }
  replace ez with (- (- ez)) at 2 by lia.
  destruct (Z.lt_trichotomy (T - N) 0) as [Neg | [Zero | Pos]].
  - replace ((T - N) * 2 ^ (- ez)) with (- ((N - T) * 2 ^ (- ez))) by ring.
    assert (P : 0 < 2 ^ (- ez)) by (apply Z.pow_pos_nonneg; lia).
    rewrite binary_normalize_opp by nia.
    rewrite Number_of_scaled by lia.
    replace (T - N) with (- (N - T)) by ring. rewrite Number_of_Z_opp by lia. reflexivity.
  - rewrite Zero. reflexivity.
  - apply Number_of_scaled; lia.
Qed.

Lemma binary_round_aux_normal p ex m e :
  2 ^ 52 <= Z.pos m < 2 ^ 53 -> -1074 <= ex -> ex <= e -> e < 971 ->
  Z.pos p = Z.pos m * 2 ^ (e - ex) ->
  binary_round_aux 53 1024 false (Z.pos p) ex loc_Exact = S754_finite false m e.
Proof.
  intros Hm Hex Hle He Hp.
  destruct (e - ex) as [|n|n] eqn:En; try lia.
  - replace ex with e in * by lia. rewrite Z.mul_1_r in Hp. injection Hp as ->.
    apply binary_round_aux_id; lia.
  - rewrite Hp. rewrite binary_round_aux_exact by lia. f_equal. lia.
Qed.

(** A quotient that is an integer is computed exactly. *)
Lemma Number_div_exact c D :
  0 < c -> 0 < D -> c * D < 2 ^ 53 ->
  Number_div (Number_of_Z (c * D)) (Number_of_Z D) = Number_of_Z c.
Proof.
  intros Hc HD Hcd.
  destruct (Number_of_Z_normal (c * D)) as (mx & ex & EX & CX & HeX & VX); [nia|].
  destruct (Number_of_Z_normal D) as (my & ey & EY & CY & HeY & VY); [nia|].
  destruct (Number_of_Z_normal c) as (mc & ec & EC & CC & HeC & VC); [nia|].
  rewrite EX, EY, EC.
  unfold Number_div, SFdiv, SFdiv_core_binary, JS.prec, JS.emax. cbn [xorb].
  rewrite (Zdigits2_unique (Z.pos mx) 53), (Zdigits2_unique (Z.pos my) 53)
    by (simpl; lia).
  rewrite fexp_normal by lia.
  replace (Z.min (53 + ex - (53 + ey) - 53) (ex - ey)) with (ex - ey - 53) by lia.
  replace (ex - ey - (ex - ey - 53)) with 53 by lia.
  cbv iota. rewrite Z.shiftl_mul_pow2 by lia.
  set (j := 53 - ex + ey).
  assert (Hj : 1 <= j) by (unfold j; lia).
  assert (Pj : 0 < 2 ^ j) by (apply Z.pow_pos_nonneg; lia).
  assert (Px : 0 < 2 ^ (- ex)) by (apply Z.pow_pos_nonneg; lia).
  assert (Py : 0 < 2 ^ (- ey)) by (apply Z.pow_pos_nonneg; lia).
  assert (Pc : 0 < 2 ^ (- ec)) by (apply Z.pow_pos_nonneg; lia).
  assert (Q : Z.pos mx * 2 ^ 53 = Z.pos my * (c * 2 ^ j)).
  { rewrite VX, VY.
    assert (2 ^ (- ex) * 2 ^ 53 = 2 ^ (- ey) * 2 ^ j).
    { rewrite <- !Z.pow_add_r by lia. f_equal. unfold j. lia. }
    nia. }
  pose proof (Z_div_mod (Z.pos mx * 2 ^ 53) (Z.pos my) ltac:(lia)) as DM.
  destruct (Z.div_eucl (Z.pos mx * 2 ^ 53) (Z.pos my)) as [q r].
  destruct DM as [DM Hr].
  assert (Hq : q = c * 2 ^ j /\ r = 0).
  { rewrite Q in DM. assert (Z.pos my * (c * 2 ^ j - q) = r) by lia.
    assert (c * 2 ^ j - q = 0) by nia. lia. }
  destruct Hq as [-> ->].
  replace (new_location (Z.pos my) 0) with loc_Exact
    by (unfold new_location, new_location_even, new_location_odd;
        destruct (Z.even (Z.pos my)); reflexivity).
  change (2 ^ 52) with 4503599627370496 in *.
  change (2 ^ 53) with 9007199254740992 in *.
  assert (Hqlo : 4503599627370496 <= c * 2 ^ j).
  { destruct (Z.lt_ge_cases (c * 2 ^ j) 4503599627370496) as [L|G]; [exfalso|lia].
    assert (Z.pos my * (c * 2 ^ j) < 9007199254740992 * 4503599627370496)
      by (apply Z.mul_lt_mono_nonneg; lia).
    lia. }
  assert (Hn : 0 <= j + ec).
  { destruct (Z.lt_ge_cases (j + ec) 0) as [L|G]; [exfalso|exact G].
    assert (2 ^ (- ec) = 2 ^ j * 2 ^ (- ec - j))
      by (rewrite <- Z.pow_add_r by lia; f_equal; lia).
    assert (2 <= 2 ^ (- ec - j)).
    { change 2 with (2 ^ 1) at 1. apply Z.pow_le_mono_r; lia. }
    nia. }
  assert (E2 : 2 ^ j = 2 ^ (- ec) * 2 ^ (j + ec))
    by (rewrite <- Z.pow_add_r by lia; f_equal; lia).
  destruct (c * 2 ^ j) as [|p|p] eqn:Ep; try lia.
  apply binary_round_aux_normal.
  - change (2 ^ 52) with 4503599627370496. change (2 ^ 53) with 9007199254740992. lia.
  - lia.
  - unfold j in Hn. lia.
  - lia.
  - rewrite <- Ep, VC, E2. replace (ec - (ex - ey - 53)) with (j + ec) by (unfold j; lia). ring.
Qed.

Lemma between_R (X A D K : R) :
  (0 < D)%R -> (0 <= K)%R ->
  (K * D + 1 <= A <= (K + 1) * D - 1)%R ->
  (A + D < 4503599627370496)%R ->
  (- (X / 4503599627370496) <= X - A / D <= X / 4503599627370496)%R ->
  (K < X < K + 1)%R.
Proof.
  intros HD HK HA Hsmall HX.
  set (Q := (A / D)%R) in *.
  assert (HQ : (Q * D = A)%R) by (unfold Q; field; lra).
  assert (H1 : (X * 4503599627370497 >= Q * 4503599627370496)%R) by lra.
  assert (H2 : (X * 4503599627370495 <= Q * 4503599627370496)%R) by lra.
  assert (HKD : (0 <= K * D)%R) by (apply Rmult_le_pos; lra).
  split.
  - apply Rmult_lt_reg_r with (4503599627370497 * D)%R; [nra|].
    (* K * c' * D < X * c' * D *)
    assert ((X * 4503599627370497) * D >= (Q * 4503599627370496) * D)%R
      by (apply Rmult_ge_compat_r; lra).
    nra.
  - apply Rmult_lt_reg_r with (4503599627370495 * D)%R; [nra|].
    assert ((X * 4503599627370495) * D <= (Q * 4503599627370496) * D)%R
      by (apply Rmult_le_compat_r; lra).
    nra.
Qed.

(** A quotient that is not an integer is computed to a Number strictly
    between the two integers around it. *)
Lemma Number_div_between a D :
  0 < a -> 0 < D -> a + D < 2 ^ 52 -> a mod D <> 0 ->
  exists m e,
    Number_div (Number_of_Z a) (Number_of_Z D) = S754_finite false m e
    /\ e < 0
    /\ (a / D) * 2 ^ (- e) < Z.pos m < (a / D + 1) * 2 ^ (- e).
Proof.
  intros Ha HD Hsmall Hrem.
  change (2 ^ 52) with 4503599627370496 in Hsmall.
  destruct (Number_of_Z_normal a) as (mx & ex & EX & CX & HeX & VX);
    [change (2 ^ 53) with 9007199254740992; lia|].
  destruct (Number_of_Z_normal D) as (my & ey & EY & CY & HeY & VY);
    [change (2 ^ 53) with 9007199254740992; lia|].
  rewrite EX, EY.
  destruct (Number_div_R mx ex my ey CX CY HeX HeY) as (m & e & E & C & He & A).
  rewrite (scaled_F2R mx ex a) in A by (lia || exact VX).
  rewrite (scaled_F2R my ey D) in A by (lia || exact VY).
  exists m, e. split; [exact E|].
  set (k := a / D).
  pose proof (Z.div_mod a D ltac:(lia)) as DM. fold k in DM.
  pose proof (Z.mod_pos_bound a D HD) as Hr.
  assert (Hk : 0 <= k) by (apply Z.div_pos; lia).
  assert (B : (IZR k < Binary64.F2R m e < IZR k + 1)%R).
  { apply (between_R _ (IZR a) (IZR D)).
    - apply IZR_lt. exact HD.
    - apply IZR_le. exact Hk.
    - split.
      + change 1%R with (IZR 1). rewrite <- mult_IZR, <- plus_IZR. apply IZR_le. nia.
      + change 1%R with (IZR 1). rewrite <- plus_IZR, <- mult_IZR, <- minus_IZR.
        apply IZR_le. nia.
    - rewrite <- plus_IZR. apply IZR_lt. exact Hsmall.
    - exact A. }
  unfold Binary64.F2R in B.
  assert (Hkhi : k + 1 <= 4503599627370496).
  { assert (k <= a) by (apply Z.div_le_upper_bound; nia). lia. }
  assert (Hneg : e < 0).
  { destruct (Z.lt_ge_cases e 0) as [L|G]; [exact L|exfalso].
    assert (1 <= powerRZ 2 e)%R.
    { rewrite <- p2_IZR by lia. apply IZR_le.
      assert (0 < 2 ^ e) by (apply Z.pow_pos_nonneg; lia). lia. }
    assert (4503599627370496 <= IZR (Z.pos m))%R.
    { apply IZR_le. change (2 ^ 52) with 4503599627370496 in C. lia. }
    assert (IZR k + 1 <= 4503599627370496)%R.
    { change 1%R with (IZR 1). rewrite <- plus_IZR. apply IZR_le. exact Hkhi. }
    nra. }
  split; [exact Hneg|].
  assert (I : (powerRZ 2 e * IZR (2 ^ (- e)) = 1)%R).
  { rewrite p2_IZR by lia. rewrite <- p2_add. replace (e + - e) with 0 by lia. reflexivity. }
  assert (W : (0 < IZR (2 ^ (- e)))%R).
  { apply IZR_lt. apply Z.pow_pos_nonneg; lia. }
  pose proof (p2_pos e) as Hh.
  set (h := powerRZ 2 e) in *. set (w := IZR (2 ^ (- e))) in *. set (M := IZR (Z.pos m)) in *.
  destruct B as [B1 B2]. split; apply lt_IZR; rewrite mult_IZR; fold w M.
  - replace M with ((M * h) * w)%R by (rewrite Rmult_assoc, I; ring).
    apply Rmult_lt_compat_r; assumption.
  - rewrite plus_IZR. change (IZR 1) with 1%R.
    replace M with ((M * h) * w)%R by (rewrite Rmult_assoc, I; ring).
    apply Rmult_lt_compat_r; assumption.
Qed.

Lemma Number_div_opp x y :
  (exists m e, x = S754_finite false m e) -> (exists m e, y = S754_finite false m e) ->
  Number_div (SFopp x) y = SFopp (Number_div x y).
Proof.
  intros (mx & ex & ->) (my & ey & ->). unfold Number_div, SFdiv, JS.prec, JS.emax.
  cbn [SFopp negb xorb].
  destruct (SFdiv_core_binary 53 1024 (Z.pos mx) ex (Z.pos my) ey) as [[mz ez] lz].
  apply binary_round_aux_opp.
Qed.

(** [Math.ceil] of a Number strictly between two consecutive integers. *)
Lemma Math_ceil_between s m e k :
  e < 0 -> 0 <= k -> k * 2 ^ (- e) < Z.pos m < (k + 1) * 2 ^ (- e) ->
  Math_ceil (S754_finite s m e)
  = if s then (if k =? 0 then S754_zero true else Number_of_Z (- k))
    else Number_of_Z (k + 1).
Proof.
  intros He Hk [Lo Hi]. unfold Math_ceil, ceiling.
  replace (0 <=? e) with false by (symmetry; apply Z.leb_gt; lia).
  assert (P : 0 < 2 ^ (- e)) by (apply Z.pow_pos_nonneg; lia).
  destruct s.
  - change (- Z.neg m) with (Z.pos m).
    assert (Q : Z.pos m / 2 ^ (- e) = k).
    { symmetry. apply (Z.div_unique _ _ k (Z.pos m - k * 2 ^ (- e))); lia. }
    rewrite Q. destruct (Z.eqb_spec k 0) as [->|N].
    + reflexivity.
    + replace (- k =? 0) with false by (symmetry; apply Z.eqb_neq; lia). reflexivity.
  - change (- Z.pos m) with (Z.neg m).
    assert (Q : Z.neg m / 2 ^ (- e) = - (k + 1)).
    { symmetry. apply (Z.div_unique _ _ (- (k + 1)) ((k + 1) * 2 ^ (- e) - Z.pos m)); lia. }
    rewrite Q. replace (- - (k + 1)) with (k + 1) by lia.
    replace (k + 1 =? 0) with false by (symmetry; apply Z.eqb_neq; lia). reflexivity.
Qed.

(** [Math.ceil] of an integer. *)
Lemma Math_ceil_integer c :
  0 < c < 2 ^ 53 ->
  Math_ceil (Number_of_Z c) = Number_of_Z c
  /\ Math_ceil (SFopp (Number_of_Z c)) = Number_of_Z (- c).
Proof.
  intros Hc. destruct (Number_of_Z_normal c Hc) as (m & e & E & C & He & V).
  assert (N : Number_of_Z (- c) = SFopp (Number_of_Z c)) by (apply Number_of_Z_opp; lia).
  rewrite N, E. cbn [SFopp negb].
  assert (P : 0 < 2 ^ (- e)) by (apply Z.pow_pos_nonneg; lia).
  assert (R1 : ceiling (Z.pos m) e = c).
  { unfold ceiling. destruct (Z.leb_spec 0 e) as [L|G].
    - replace e with 0 in * by lia. change (2 ^ (- 0)) with 1 in V. change (2 ^ 0) with 1. lia.
    - change (- Z.pos m) with (Z.neg m).
      replace (Z.neg m) with (- c * 2 ^ (- e)) by lia. rewrite Z.div_mul by lia. lia. }
  assert (R2 : ceiling (Z.neg m) e = - c).
  { unfold ceiling. destruct (Z.leb_spec 0 e) as [L|G].
    - replace e with 0 in * by lia. change (2 ^ (- 0)) with 1 in V. change (2 ^ 0) with 1. lia.
    - change (- Z.neg m) with (Z.pos m). rewrite V, Z.div_mul by lia. reflexivity. }
  unfold Math_ceil. rewrite R1, R2.
  replace (c =? 0) with false by (symmetry; apply Z.eqb_neq; lia).
  replace (- c =? 0) with false by (symmetry; apply Z.eqb_neq; lia).
  change (binary_normalize prec emax c 0 false) with (Number_of_Z c).
  change (binary_normalize prec emax (- c) 0 false) with (Number_of_Z (- c)).
  rewrite N, E. split; reflexivity.
Qed.

(** X24: without a target date there is no number of days; an invalid target
    date gives NaN; for a target date and a clock after the epoch that are at
    most 4 * 10^15 ms apart, the number shown is the least integer not below
    the days between the clock and the target date, computed without
    rounding error: positive while the date is ahead, 0 at the date itself,
    the negative zero during the first day after it and negative from then
    on. *)
Theorem X24_days_remaining_is_the_ceiling_of_the_days_left (now : Z) (goal : Goal.t) :
  match Goal.targetDate goal with
  | None => GoalDetails.getDaysRemaining now goal = None
  | Some InvalidDate => GoalDetails.getDaysRemaining now goal = Some S754_nan
  | Some (DateMs T) =>
      0 < now <= 8640000000000000 -> 0 < T <= 8640000000000000 ->
      Z.abs (T - now) <= 4000000000000000 ->
      GoalDetails.getDaysRemaining now goal
      = Some (if ((-86400000 <? T - now) && (T - now <? 0))%bool then S754_zero true
              else Number_of_Z (- ((now - T) / 86400000)))
  end.
Proof.
  unfold GoalDetails.getDaysRemaining. destruct (Goal.targetDate goal) as [[|T]|]; [reflexivity| |reflexivity].
  intros Hnow HT Hd. cbn [getTime]. rewrite msPerDay_value. f_equal.
  rewrite Number_sub_exact by (change (2 ^ 53) with 9007199254740992; lia).
  set (D := 86400000). change (-86400000) with (- D).
  assert (HD : 0 < D) by (unfold D; lia).
  destruct (Number_of_Z_normal D) as (my & ey & EY & _);
    [unfold D; change (2 ^ 53) with 9007199254740992; lia|].
  destruct (Z.lt_trichotomy (T - now) 0) as [Neg | [Zero | Pos]].
  - (* overdue *)
    set (a := now - T). assert (Ha : 0 < a) by (unfold a; lia).
    replace (T - now) with (- a) by (unfold a; ring).
    rewrite Number_of_Z_opp by exact Ha.
    destruct (Number_of_Z_normal a) as (mx & ex & EX & _);
      [change (2 ^ 53) with 9007199254740992; unfold a; lia|].
    rewrite Number_div_opp by (rewrite ?EX, ?EY; eauto).
    replace (- a <? 0) with true by (symmetry; apply Z.ltb_lt; lia). rewrite andb_true_r.
    destruct (Z.eq_dec (a mod D) 0) as [Ex|Inex].
    + apply Z.mod_divide in Ex; [|lia]. destruct Ex as [c Hc].
      assert (0 < c) by nia.
      rewrite Hc, Number_div_exact by (change (2 ^ 53) with 9007199254740992; lia).
      rewrite Z.div_mul by lia.
      replace (- D <? - (c * D)) with false by (symmetry; apply Z.ltb_ge; nia).
      apply Math_ceil_integer. change (2 ^ 53) with 9007199254740992. unfold a, D in *. nia.
    + destruct (Number_div_between a D Ha HD) as (m & e & E & He & B);
        [change (2 ^ 52) with 4503599627370496; unfold a, D; lia | exact Inex |].
      rewrite E. cbn [SFopp negb].
      rewrite (Math_ceil_between true m e (a / D) He) by (try apply Z.div_pos; lia).
      destruct (Z.eqb_spec (a / D) 0) as [Z0|NZ].
      * replace (- D <? - a) with true; [reflexivity|].
        symmetry. apply Z.ltb_lt. apply Z.div_small_iff in Z0; lia.
      * replace (- D <? - a) with false; [reflexivity|].
        symmetry. apply Z.ltb_ge.
        destruct (Z.lt_ge_cases a D) as [L|G]; [|lia].
        exfalso. apply NZ. apply Z.div_small. lia.
  - (* due now *)
    rewrite Zero. replace (now - T) with 0 by lia. rewrite EY. reflexivity.
  - (* still ahead *)
    set (a := T - now) in *.
    replace (a <? 0) with false by (symmetry; apply Z.ltb_ge; lia). rewrite andb_false_r.
    replace (now - T) with (- a) by (unfold a; ring).
    destruct (Z.eq_dec (a mod D) 0) as [Ex|Inex].
    + apply Z.mod_divide in Ex; [|lia]. destruct Ex as [c Hc].
      assert (0 < c) by nia.
      rewrite Hc, Number_div_exact by (change (2 ^ 53) with 9007199254740992; lia).
      replace (- (c * D)) with (- c * D) by ring. rewrite Z.div_mul by lia.
      replace (- - c) with c by lia.
      apply Math_ceil_integer. change (2 ^ 53) with 9007199254740992. unfold a, D in *. nia.
    + destruct (Number_div_between a D Pos HD) as (m & e & E & He & B);
        [change (2 ^ 52) with 4503599627370496; unfold a, D; lia | exact Inex |].
      rewrite E.
      rewrite (Math_ceil_between false m e (a / D) He) by (try apply Z.div_pos; lia).
      f_equal.
      pose proof (Z.div_mod a D ltac:(lia)) as DM.
      pose proof (Z.mod_pos_bound a D HD) as Hr.
      assert (Q : - a / D = - (a / D + 1)).
      { symmetry. apply (Z.div_unique _ _ _ (D - a mod D)); lia. }
      rewrite Q. lia.
Qed.

(** X24 at the sample goal: five days and some hours ahead, and one millisecond late. *)
Lemma X24_days_remaining_is_the_ceiling_of_the_days_left_witness :
  GoalDetails.getDaysRemaining 1799500000000 Sample.goal = Some (Number_of_Z 6)
  /\ GoalDetails.getDaysRemaining 1800000000001 Sample.goal = Some (S754_zero true).
Proof.
  split.
  - exact (X24_days_remaining_is_the_ceiling_of_the_days_left 1799500000000 Sample.goal
             ltac:(lia) ltac:(lia) ltac:(simpl; lia)).
  - exact (X24_days_remaining_is_the_ceiling_of_the_days_left 1800000000001 Sample.goal
             ltac:(lia) ltac:(lia) ltac:(simpl; lia)).
Defined.
